(** * zzdPlot: the ZZD log extraction engine ([extract_zzd_data])

    A shallow embedding of the extraction part of [zzdPlot.py]:
    - the byte-oriented regular expressions [RE_START], [RE_END], [RE_CONV]
      and [RE_WARN], run by a backtracking matcher with the priorities of
      Python's [re] (greedy and lazy repetition, ordered alternation,
      leftmost match, non-overlapping [finditer]);
    - Python's [float()] on a bytes token, rounding to IEEE binary64;
    - [bytes.decode('utf-8', errors='ignore')];
    - the table [WARNING_DESCRIPTIONS];
    - [extract_zzd_data] itself, in an exception monad, and a second time as
      a computation on a store of objects, where its lists are allocated
      and appended to in place;
    - the statements of [update_dashboard] that are plain Python: the
      columns it reads first, the codes and notes of the heat map, the range
      of the time axis and the crash line.

    Python [float] values are binary64 numbers ([spec_float] at precision 53).
    A Python [str] is represented by its UTF-8 encoding, as a [string].
    Resource limits of the interpreter (memory, the 10^9 digit cap of the
    decimal reader) are outside the model. *)

From Stdlib Require Import ZArith NArith Lia Bool.
From Stdlib Require Import Strings.Byte Strings.String Strings.Ascii.
From Stdlib Require Import Floats.SpecFloat.
From Stdlib Require Import Sorting.Sorted.
From stdpp Require Import base option list strings gmap.

Open Scope Z_scope.

(** ** Bytes *)

Abbreviation bytes := (list byte).

Definition b_ (s : string) : bytes := list_byte_of_string s.

(** The integer of a byte, [ord] in Python. *)
Definition ord (b : byte) : N := Byte.to_N b.

Definition between (lo hi n : N) : bool := ((lo <=? n) && (n <=? hi))%N.

Definition is_digit (b : byte) : bool := between 48 57 (ord b).

(** [\s] of a bytes pattern and [Py_ISSPACE]: space, \t, \n, \v, \f, \r. *)
Definition is_space (b : byte) : bool :=
  ((ord b =? 32) || between 9 13 (ord b))%N.

Definition is_upper (b : byte) : bool := between 65 90 (ord b).
Definition is_lower (b : byte) : bool := between 97 122 (ord b).

(** [\w] of a bytes pattern: ASCII letters, digits and the underscore. *)
Definition is_word (b : byte) : bool :=
  (is_upper b || is_lower b || is_digit b || (ord b =? 95))%N.

(** ASCII case folding, as [re.IGNORECASE] does on a bytes pattern. *)
Definition lower_code (b : byte) : N :=
  if is_upper b then (ord b + 32)%N else ord b.

Definition eqb_nocase (a b : byte) : bool := (lower_code a =? lower_code b)%N.

Definition byte_eqb (a b : byte) : bool := (ord a =? ord b)%N.

Definition upper_byte (b : byte) : byte :=
  if is_lower b then default b (Byte.of_N (ord b - 32)) else b.

(** ** Exceptions *)

Inductive exn := ValueError | TypeError | AttributeError.

Inductive py (A : Type) : Type :=
| Ok (a : A)
| Raise (e : exn).
Arguments Ok {A} a.
Arguments Raise {A} e.

Definition bind {A B} (m : py A) (k : A -> py B) : py B :=
  match m with
  | Ok a => k a
  | Raise e => Raise e
  end.

Notation "'let*' x ':=' m 'in' k" := (bind m (fun x => k))
  (at level 10, x pattern, m at level 100, k at level 200).

(** The body of a [for] loop that appends one row per item, or raises. *)
Fixpoint for_each {A B} (f : A -> py B) (l : list A) : py (list B) :=
  match l with
  | [] => Ok []
  | a :: l' =>
      let* b := f a in
      let* bs := for_each f l' in
      Ok (b :: bs)
  end.

(** ** Binary64 *)

Module Float64.

Definition prec : Z := 53.
Definition emax : Z := 1024.

Abbreviation float := spec_float.

Definition zero : float := S754_zero false.
Definition one : float := S754_finite false 4503599627370496 (-52).

Definition add : float -> float -> float := SFadd prec emax.
Definition eqb : float -> float -> bool := SFeqb.
Definition ltb : float -> float -> bool := SFltb.
Definition leb : float -> float -> bool := SFleb.

(** [x >= y] of Python. *)
Definition geb (x y : float) : bool := SFleb y x.
(** [x > y] of Python. *)
Definition gtb (x y : float) : bool := SFltb y x.

(** The binary64 number nearest to [(-1)^neg * n * 10^e10], ties to even:
    one rounding of the exact quotient or product. *)
Definition of_decimal (neg : bool) (n : N) (e10 : Z) : float :=
  match n with
  | N0 => S754_zero neg
  | Npos p =>
      if 0 <=? e10
      then binary_round prec emax neg (p * Z.to_pos (10 ^ e10)) 0
      else SFdiv prec emax (S754_finite neg p 0)
                           (S754_finite false (Z.to_pos (10 ^ (- e10))) 0)
  end.

(** Neither NaN nor negative (so [+0.0], a positive number or [+inf]). *)
Definition nonneg (x : float) : Prop :=
  match x with
  | S754_zero s | S754_infinity s | S754_finite s _ _ => s = false
  | S754_nan => False
  end.

Definition is_nan (x : float) : bool :=
  match x with S754_nan => true | _ => false end.

End Float64.

Import Float64.

(** ** Python's [float()] on bytes *)

Module PyFloat.

Definition digit_val (b : byte) : N := (ord b - 48)%N.

(** Value of a run of decimal digits. *)
Definition digits_val (ds : bytes) : N :=
  fold_left (fun acc d => (10 * acc + digit_val d)%N) ds 0%N.

(** Longest prefix of digits, and the rest. *)
Fixpoint span_digits (s : bytes) : bytes * bytes :=
  match s with
  | c :: s' =>
      if is_digit c
      then let '(ds, r) := span_digits s' in (c :: ds, r)
      else ([], s)
  | [] => ([], [])
  end.

Fixpoint lstrip (s : bytes) : bytes :=
  match s with
  | c :: s' => if is_space c then lstrip s' else s
  | [] => []
  end.

Definition strip (s : bytes) : bytes := rev (lstrip (rev (lstrip s))).

(** Underscores are accepted between two digits only, and dropped.
    [prev] is the byte before the current one, if any. *)
Fixpoint drop_underscores (prev : option byte) (s : bytes) : option bytes :=
  match s with
  | [] =>
      match prev with
      | Some p => if byte_eqb p "_" then None else Some []
      | None => Some []
      end
  | c :: s' =>
      if byte_eqb c "_" then
        match prev with
        | Some p => if is_digit p then drop_underscores (Some c) s' else None
        | None => None
        end
      else
        let after_us :=
          match prev with Some p => byte_eqb p "_" | None => false end in
        if after_us && negb (is_digit c) then None
        else option_map (cons c) (drop_underscores (Some c) s')
  end.

Definition take_sign (s : bytes) : bool * bytes :=
  match s with
  | c :: s' =>
      if byte_eqb c "-" then (true, s')
      else if byte_eqb c "+" then (false, s')
      else (false, s)
  | [] => (false, [])
  end.

(** [exponent ::= ("e" | "E") [sign] digit+], up to the end of the token. *)
Definition parse_exponent (s : bytes) : option Z :=
  match s with
  | [] => Some 0
  | c :: s' =>
      if eqb_nocase c "e" then
        let '(neg, s'') := take_sign s' in
        let '(ds, r) := span_digits s'' in
        match ds, r with
        | _ :: _, [] =>
            let e := Z.of_N (digits_val ds) in
            Some (if neg then - e else e)
        | _, _ => None
        end
      else None
  end.

(** [number [exponent]] with at least one digit in [number]; the result is
    the digit string read as an integer and the power of ten scaling it. *)
Definition parse_number (s : bytes) : option (N * Z) :=
  let '(ip, r) := span_digits s in
  let '(fp, r') :=
    match r with
    | c :: r0 => if byte_eqb c "." then span_digits r0 else ([], r)
    | [] => ([], r)
    end in
  match ip ++ fp with
  | [] => None
  | ds =>
      match parse_exponent r' with
      | Some e => Some (digits_val ds, e - Z.of_nat (length fp))
      | None => None
      end
  end.

Definition eq_nocase (s t : bytes) : bool :=
  (length s =? length t)%nat && forallb (fun p => eqb_nocase p.1 p.2) (zip s t).

Definition parse_inf_or_nan (neg : bool) (s : bytes) : option float :=
  if eq_nocase s (b_ "inf") || eq_nocase s (b_ "infinity")
  then Some (S754_infinity neg)
  else if eq_nocase s (b_ "nan") then Some S754_nan
  else None.

Definition parse_literal (s : bytes) : option float :=
  let '(neg, u) := take_sign s in
  match parse_number u with
  | Some (n, e10) => Some (of_decimal neg n e10)
  | None => parse_inf_or_nan neg u
  end.

(** [float(x)] for a bytes object [x]. *)
Definition of_bytes (s : bytes) : py float :=
  match drop_underscores None (strip s) with
  | None => Raise ValueError
  | Some t =>
      match parse_literal t with
      | Some x => Ok x
      | None => Raise ValueError
      end
  end.

(** [float(x)] where [x] is what [Match.group] returned: [None] is not
    accepted. *)
Definition of_group (g : option bytes) : py float :=
  match g with
  | Some s => of_bytes s
  | None => Raise TypeError
  end.

End PyFloat.

(** ** Regular expressions over bytes *)

Module Re.

(** The character sets the patterns use. *)
Inductive cset :=
| Any                (* .  *)
| Digit              (* \d *)
| Space              (* \s *)
| NonSpace           (* \S *)
| Word               (* \w *)
| Lit (b : byte).    (* a literal byte *)

Record flags := { IGNORECASE : bool; DOTALL : bool }.

Definition newline : byte := x0a.

Definition accepts (fl : flags) (c : cset) (x : byte) : bool :=
  match c with
  | Any => DOTALL fl || negb (byte_eqb x newline)
  | Digit => is_digit x
  | Space => is_space x
  | NonSpace => negb (is_space x)
  | Word => is_word x
  | Lit b => if IGNORECASE fl then eqb_nocase x b else byte_eqb x b
  end.

(** Repetition applies to one character set, as in every pattern of the
    program: [Rep c lo hi greedy] is [c{lo,hi}] or [c{lo,hi}?]. *)
Inductive regex :=
| Eps
| Chr (c : cset)
| Rep (c : cset) (lo : nat) (hi : option nat) (greedy : bool)
| Cat (r1 r2 : regex)
| Alt (r1 r2 : regex)
| Group (n : nat) (r : regex).

Abbreviation captures := (gmap nat bytes).

Section Matcher.
Context {R : Type}.

Definition more (hi : option nat) : bool :=
  match hi with Some O => false | _ => true end.

Definition stop (lo : nat) (s : bytes) (k : bytes -> option R) : option R :=
  match lo with O => k s | S _ => None end.

(** Greedy: take one more byte first, give it back when the rest fails. *)
Fixpoint rep_greedy (p : byte -> bool) (lo : nat) (hi : option nat)
    (s : bytes) (k : bytes -> option R) : option R :=
  match s with
  | x :: s' =>
      if more hi && p x then
        match rep_greedy p (pred lo) (option_map pred hi) s' k with
        | Some r => Some r
        | None => stop lo s k
        end
      else stop lo s k
  | [] => stop lo s k
  end.

(** Lazy: try the rest first, take one more byte when it fails. *)
Fixpoint rep_lazy (p : byte -> bool) (lo : nat) (hi : option nat)
    (s : bytes) (k : bytes -> option R) : option R :=
  match stop lo s k with
  | Some r => Some r
  | None =>
      match s with
      | x :: s' =>
          if more hi && p x
          then rep_lazy p (pred lo) (option_map pred hi) s' k
          else None
      | [] => None
      end
  end.

(** Backtracking matcher in continuation-passing style: [k] is what has
    to match after [r]; the first success in priority order wins. *)
Fixpoint exec (fl : flags) (r : regex) (s : bytes) (g : captures)
    (k : bytes -> captures -> option R) : option R :=
  match r with
  | Eps => k s g
  | Chr c =>
      match s with
      | x :: s' => if accepts fl c x then k s' g else None
      | [] => None
      end
  | Rep c lo hi greedy =>
      (if greedy then rep_greedy else rep_lazy)
        (accepts fl c) lo hi s (fun s' => k s' g)
  | Cat r1 r2 => exec fl r1 s g (fun s' g' => exec fl r2 s' g' k)
  | Alt r1 r2 =>
      match exec fl r1 s g k with
      | Some x => Some x
      | None => exec fl r2 s g k
      end
  | Group n r1 =>
      exec fl r1 s g
        (fun s' g' => k s' (<[n := take (length s - length s') s]> g'))
  end.
End Matcher.

(** A compiled pattern and a match object. *)
Record pattern := { re : regex; fl : flags }.

Record Match := { groups : captures; rest : bytes }.

(** [m.group(n)] *)
Definition group (m : Match) (n : nat) : option bytes := groups m !! n.

(** A match starting at the first byte of [s]. *)
Definition match_here (p : pattern) (s : bytes) : option Match :=
  exec (fl p) (re p) s ∅ (fun s' g => Some {| groups := g; rest := s' |}).

(** [p.search(s)]: the match at the leftmost position that has one. *)
Fixpoint search (p : pattern) (s : bytes) : option Match :=
  match match_here p s with
  | Some m => Some m
  | None =>
      match s with
      | _ :: s' => search p s'
      | [] => None
      end
  end.

(** [p.finditer(s)]: scan from the left; [skip] bytes still belong to the
    match found last, and the scan resumes behind them.  (After an empty
    match the scan moves on by one byte; no pattern of the program has an
    empty match.) *)
Fixpoint finditer_from (p : pattern) (skip : nat) (s : bytes) : list Match :=
  match skip with
  | S n =>
      match s with
      | _ :: s' => finditer_from p n s'
      | [] => []
      end
  | O =>
      match match_here p s with
      | Some m =>
          m :: match s with
               | _ :: s' => finditer_from p (length s - length (rest m) - 1) s'
               | [] => []
               end
      | None =>
          match s with
          | _ :: s' => finditer_from p 0 s'
          | [] => []
          end
      end
  end.

Definition finditer (p : pattern) (s : bytes) : list Match :=
  finditer_from p 0 s.

(** Pattern syntax. *)
Definition seq (rs : list regex) : regex := foldr Cat Eps rs.
Definition lit (s : string) : regex := seq (map (fun b => Chr (Lit b)) (b_ s)).
Definition star (c : cset) : regex := Rep c 0 None true.       (* c*  *)
Definition plus (c : cset) : regex := Rep c 1 None true.       (* c+  *)
Definition opt (c : cset) : regex := Rep c 0 (Some 1%nat) true. (* c?  *)
Definition lazy_star (c : cset) : regex := Rep c 0 None false. (* c*? *)

(** [\d+ \.? \d*], the shape of every time token *)
Definition number : regex := seq [plus Digit; opt (Lit "."); star Digit].

End Re.

Import Re.

(** ** The pre-compiled patterns *)

(** The patterns are quoted with a blank between their items.

    [start time  .*?  ( \d+ \.? \d* )], with [re.IGNORECASE] *)
Definition RE_START : pattern :=
  {| re := seq [lit "start time"; lazy_star Any; Group 1 number];
     fl := {| IGNORECASE := true; DOTALL := false |} |}.

(** [end time  .*?  ( \d+ \.? \d* )], with [re.IGNORECASE] *)
Definition RE_END : pattern :=
  {| re := seq [lit "end time"; lazy_star Any; Group 1 number];
     fl := {| IGNORECASE := true; DOTALL := false |} |}.

(** [Poor model convergence  .*?  time  \s+  ( \d+ \.? \d* )  .*? \n .*? \n .*?
     MAX DQ=  \s*  ( \S+ )  \s+  at  \s+  ( \S+ )  .*?
     MAX DH=  \s*  ( \S+ )  \s+  at  \s+  ( \S+ )],
    with [re.DOTALL | re.IGNORECASE] *)
Definition RE_CONV : pattern :=
  {| re := seq [lit "Poor model convergence"; lazy_star Any; lit "time";
                plus Space; Group 1 number;
                lazy_star Any; Chr (Lit newline);
                lazy_star Any; Chr (Lit newline);
                lazy_star Any; lit "MAX DQ="; star Space;
                Group 2 (plus NonSpace); plus Space; lit "at"; plus Space;
                Group 3 (plus NonSpace);
                lazy_star Any; lit "MAX DH="; star Space;
                Group 4 (plus NonSpace); plus Space; lit "at"; plus Space;
                Group 5 (plus NonSpace)];
     fl := {| IGNORECASE := true; DOTALL := true |} |}.

(** [Model time  \s+  ( \d+ \.? \d* )  .*? \n .*?  \*\*\*  \s+
     ( warning | note | error )  \s+  ( \w+ )  \s+  \*\*\*  \s+
     at label:  \s+  ( \S+ )],
    with [re.DOTALL | re.IGNORECASE] *)
Definition RE_WARN : pattern :=
  {| re := seq [lit "Model time"; plus Space; Group 1 number;
                lazy_star Any; Chr (Lit newline);
                lazy_star Any; lit "***"; plus Space;
                Group 2 (Alt (lit "warning") (Alt (lit "note") (lit "error")));
                plus Space; Group 3 (plus Word); plus Space; lit "***";
                plus Space; lit "at label:"; plus Space;
                Group 4 (plus NonSpace)];
     fl := {| IGNORECASE := true; DOTALL := true |} |}.

(** ** [bytes.decode('utf-8', errors='ignore')] and [str.upper] *)

Module Utf8.

Definition is_cont (b : byte) : bool := between 128 191 (ord b).

(** The decoder keeps the well-formed sequences and drops every range it
    reports as an error: an invalid start byte, a lead byte with the valid
    continuation bytes read so far when the next byte does not continue
    the sequence, and a sequence cut short by the end of the data.  The
    result is the [str], given by its encoding. *)
Fixpoint decode_ignore (s : bytes) : bytes :=
  match s with
  | [] => []
  | c :: s1 =>
      let n := ord c in
      if (n <? 128)%N then c :: decode_ignore s1
      else if (n <? 194)%N then decode_ignore s1
      else if (n <? 224)%N then
        match s1 with
        | [] => []
        | c2 :: s2 =>
            if is_cont c2 then c :: c2 :: decode_ignore s2
            else decode_ignore s1
        end
      else if (n <? 240)%N then
        match s1 with
        | [] => []
        | c2 :: s2 =>
            if negb (is_cont c2)
               || (if (ord c2 <? 160)%N then (n =? 224)%N else (n =? 237)%N)
            then decode_ignore s1
            else
              match s2 with
              | [] => []
              | c3 :: s3 =>
                  if is_cont c3 then c :: c2 :: c3 :: decode_ignore s3
                  else decode_ignore s2
              end
        end
      else if (n <? 245)%N then
        match s1 with
        | [] => []
        | c2 :: s2 =>
            if negb (is_cont c2)
               || (if (ord c2 <? 144)%N then (n =? 240)%N else (n =? 244)%N)
            then decode_ignore s1
            else
              match s2 with
              | [] => []
              | c3 :: s3 =>
                  if negb (is_cont c3) then decode_ignore s2
                  else
                    match s3 with
                    | [] => []
                    | c4 :: s4 =>
                        if is_cont c4
                        then c :: c2 :: c3 :: c4 :: decode_ignore s4
                        else decode_ignore s3
                    end
              end
        end
      else decode_ignore s1
  end.

Definition decode (s : bytes) : string := string_of_list_byte (decode_ignore s).

(** [g.decode('utf-8', errors='ignore')] where [g] is what [Match.group]
    returned: [None] has no such method. *)
Definition decode_group (g : option bytes) : py string :=
  match g with
  | Some s => Ok (decode s)
  | None => Raise AttributeError
  end.

(** [str.upper] on ASCII text (its one use is on a severity word). *)
Definition upper (s : string) : string :=
  string_of_list_byte (map upper_byte (list_byte_of_string s)).

End Utf8.

(** ** The description table *)

(** A dict display: the items are inserted from left to right, a later item
    with the same key replaces the earlier one. *)
Definition dict_of (items : list (string * string)) : gmap string string :=
  fold_left (fun d kv => <[kv.1 := kv.2]> d) items ∅.

Definition WARNING_DESCRIPTIONS_items : list (string * string) := [
    ("W2000", "Poor model convergence");
    ("W2001", "Conduits with variable x-section are not permitted");
    ("W2002", "Conduits with variable bottom friction are not permitted");
    ("W2003", "Conduits with variable top friction are not permitted");
    ("W2004", "Conduits with variable friction forms are not permitted");
    ("W2005", "Conduits with variable side friction are not permitted");
    ("W2008", "Water level below invert");
    ("W2010", "Poor interpolation u/s");
    ("W2012", "Flow over side spills not calculated");
    ("W2013", "Very small change in flow resulting from correction");
    ("W2014", "Unit running dry");
    ("W2016", "Steady file could not be opened");
    ("W2017", "Extra sections need to be added by the user");
    ("W2018", "Indeterminate reaches have been found");
    ("W2019", "Water level rose beyond the max level of section data");
    ("W2020", "Water level >3m above max level of section data");
    ("W2021", "Solution found with reduced accuracy");
    ("W2023", "Zero areas in Bernoulli Loss unit");
    ("W2024", "Extra sections gave insufficient accuracy");
    ("W2025", "Data error found in RNDSC gate");
    ("W2026", "CONDUIT and RIVER units should not be directly connected");
    ("W2027", "No rules currently valid for RULES unit");
    ("W2031", "Reservoir units in network");
    ("W2032", "Water level outside channel boundary");
    ("W2033", "Zero area calculated at node");
    ("W2034", "Overbank spill units in network");
    ("W2035", "HT boundary at upstream end of reach not permitted");
    ("W2036", "QH boundary at upstream end of reach not permitted");
    ("W2037", "qt boundary at downstream end of reach not permitted");
    ("W2039", "Split/join parameter mismatch");
    ("W2040", "Split estimates are wrong at junction");
    ("W2042", "Illegal tidal constituent");
    ("W2043", "Decreasing cross section distance");
    ("W2044", "Different values for Mannings n within one panel");
    ("W2045", "Water level at or below reservoir invert");
    ("W2046", "Lateral inflows set to zero");
    ("W2047", "Non-rectangular control section with notional weir");
    ("W2048", "Very small change in heads results in large change in flow");
    ("W2050", "Ratio between upstream and downstream areas exceeds 2.0");
    ("W2051", "Estimated theta value is very large");
    ("W2052", "MSL is outside FSR range");
    ("W2053", "Soil is outside FSR range");
    ("W2054", "Urban fraction should not be > 0.808");
    ("W2055", "RSMD is outside FSR range");
    ("W2056", "CWI is outside expected range");
    ("W2057", "Rainfall Profile duration issue");
    ("W2058", "Model convergence criteria were not met");
    ("W2059", "Catchment area is outside FSR range");
    ("W2060", "Conveyance decreases");
    ("W2061", "S1085 is outside FSR range");
    ("W2100", "Invalid value given for modular limit");
    ("W2201", "Friction law not specified correctly in bridge");
    ("W2202", "Bridge calibration factor set to zero");
    ("W2203", "Insignificant flow through arches at USBPR bridge");
    ("W2204", "Bridge is surcharged");
    ("W2205", "Extrapolating base curves");
    ("W2206", "Extrapolating pier curves");
    ("W2207", "Extrapolating pier sigma curves");
    ("W2208", "Extrapolating skew curves");
    ("W2209", "Failed to load convey.dll");
    ("W2211", "Failed to free memory in CES dll");
    ("W2212", "CES dll magic number error");
    ("W2213", "CES dll version error");
    ("W2214", "Failed to set 'Flood Modeller' in CES");
    ("W2215", "Bad gauge data");
    ("W2216", "Gauge limit incompatibility");
    ("W2217", "No method file specified for gauge unit");
    ("W2229", "Trash screen height is set to 0");
    ("W2235", "Variable Percentage Runoff Flag error");
    ("W2236", "Optimum number of internal calculation points exceeded");
    ("W2237", "MUSK-RSEC data error");
    ("W2238", "Panel has very small width");
    ("W2260", "Culvert bend losses coefficient issue");
    ("W2261", "Backflow encountered at culvert bend or loss unit");
    ("W2262", "Backflow encountered CULVERT OUTLET unit");
    ("W2263", "Backflow encountered at CULVERT INLET unit");
    ("W2264", "Level below culvert invert");
    ("W2266", "Level below culvert invert");
    ("W2267", "No sub/supercritical depth could be found");
    ("W2268", "Direct supercritical method cannot handle this configuration");
    ("W2271", "Failed to find minimum of energy function");
    ("W2272", "Energy equation failed to converge");
    ("W2273", "Defaulting to critical depth");
    ("W2274", "Bernoulli loss unit level/area issue");
    ("W2275", "Two levels have zero upstream area");
    ("W2276", "Water level set to adjacent lowest bed level");
    ("W2277", "Last appearance of conduits message");
    ("W2278", "Zero calibration coefficient");
    ("W2279", "Reference velocity exceeds 3 m/s");
    ("W2280", "Estimated theta value is negative");
    ("W2281", "No flow possible with zero coefficient");
    ("W2282", "Minimum/initial timestep has been changed");
    ("W2283", "Conduit section has been reversed");
    ("W2286", "Reservoir/Pond area is smaller than previous");
    ("W2287", "Two levels have zero area");
    ("W2288", "Initial water levels upstream not all equal");
    ("W2289", "Discharge coefficient set to zero");
    ("W2290", "Opening is zero - no flow possible");
    ("W2291", "Initial water level higher than crest of SPILL");
    ("W2292", "Failed to converge to normal depth");
    ("W2293", "Linear interpolation with rainfall data not allowed");
    ("W2294", "Crump, Flat-V weir not connected correctly");
    ("W2295", "Seasonal PMPs extrapolated");
    ("W2296", "Rule interpretation warning");
    ("W2297", "Date/time from Tidal Boundary unit used");
    ("W2298", "Data interval less than one minute");
    ("W2299", "Storm duration not integer multiple of dt");
    ("W2300", "ARF equation for short durations called");
    ("W2301", "Adaptive timestepping parameter issue");
    ("W2302", "Time to peak not integer multiple of data interval");
    ("W2313", "Zero modular limit");
    ("W2314", "Modular limit set to unity or greater");
    ("W2315", "Negative loss coefficient entered");
    ("W2317", "Downstream flow area constrained");
    ("W2318", "Initial adaptive timestep not read from file");
    ("W2319", "Downstream constraining factor not set");
    ("W2320", "Reservoir updating unit not connected to reservoir");
    ("W2321", "Conduit slot dimensions incorrect");
    ("W2322", "Failed to read event data");
    ("W2323", "Unrealistic density input");
    ("W2531", "Cannot find upstream condition for supercritical integration");
    ("W2532", "Model start time is NOT t=0");
    ("W2533", "Volumes not calculated for Muskingum sections");
    ("W2534", "Errors occurred opening/writing to file");
    ("W2535", "c0 scaling factor input error");
    ("N3002", "Very small change in heads results in large change in flow");
    ("N3003", "Percentage runoff calculated as negative");
    ("N3006", "End of backflow at CULVERT INLET unit");
    ("N3007", "End of backflow at CULVERT OUTLET unit");
    ("N3010", "Simplified method used");
    ("N3012", "Zero flow beyond point");
    ("N3013", "Transcritical point(s) occurred");
    ("N3014", "EVENT DATA FILE READ FAILED");
    ("N3015", "Simulation event date/time overrides Tidal Boundary");
    ("N3016", "Tidal Boundary unit with no event date/time");
    ("N3017", "Tidal boundary used with direct method");
    ("N3018", "2D Input Data check completed");
    ("N3019", "User-input PMF time to peak adjustment note");
    ("N3025", "Minimum flow applied at boundary");
    ("N3026", "Initial adaptive timestep read from input file");
    ("N3027", "2d timestep read from tcf file");
    ("N3028", "Data points omitted from deactivated section areas");
    ("N3029", "Duplicated units found");
    ("E1003", "Bernoulli loss - no. of data sets must not be > 30 or < 1");
    ("E1004", "Data read error");
    ("E1005", "Unit unacceptable as first data unit");
    ("E1006", "No. of stage/gate opening datasets < 2");
    ("E1007", "Maximum no of gates exceeded");
    ("E1008", "Maximum number of nodes is exceeded");
    ("E1009", "Maximum number of units is exceeded");
    ("E1011", "Unidentified unit");
    ("E1013", "The EGGFORM option is not yet available, try using a CIRCULAR conduit with a suitable diameter");
    ("E1014", "Supercritical flow between 'label1' and 'label2'. You should use the option for dealing with Froude numbers greater than 1");
    ("E1017", "Negative flow - the direct method cannot handle backflow");
    ("E1018", "Maximum no. of iterations exceeded");
    ("E1019", "No solution found in Direct Method");
    ("E1020", "Water level exceeded maximum section data level dflood");
    ("E1022", "Not a recognised type number / Error writing OTTA file");
    ("E1023", "Generic ERROR - see zzd file / complementary error code");
    ("E1027", "Value of rsmd should not be less than 10");
    ("E1028", "Maximum number of unit hydrograph ordinates exceeded");
    ("E1029", "Error - data interval too small for unit hydrograph calculation or Time to Peak");
    ("E1033", "Incorrect percentage runoff code of 'x' in subroutine prcal");
    ("E1036", "Storm return period of 'x' too small to estimate rainfall depth.");
    ("E1038", "Areal reduction factor equation very inaccurate for durations less than 0.5 hr");
    ("E1039", "Water level below invert.");
    ("E1042", "HTBDY - No of data pairs must be > 1");
    ("E1044", "Previous unit was not a RIVER or CONDUIT");
    ("E1045", "It is not allowed to have interpolated sections here");
    ("E1046", "You must have a RIVER or CONDUIT downstream of INTERPOLATED sections");
    ("E1051", "Format error in numerical data. JUNCTION data error");
    ("E1056", "The direct method cannot be used with automatic controllers");
    ("E1057", "Inconsistencies found in node labels");
    ("E1065", "Variable outside linearization range");
    ("E1066", "Variable outside interpolation range");
    ("E1072", "rn must be greater than 1");
    ("E1073", "cd outside allowed range");
    ("E1074", "cv outside allowed range");
    ("E1075", "Weir breadth must be positive.");
    ("E1079", "Maximum no. of network iterations exceeded");
    ("E1080", "Number of data points is less than 2.");
    ("E1081", "Number of data points is greater than maximum allowed.");
    ("E1091", "FULL ARCH CONDUIT. The height of the crown specified is too high.");
    ("E1094", "Reverse flows not valid in syphon spillways");
    ("E1095", "Decreasing cross section distance found");
    ("E1096", "Panel contains zero and non-zero Manning's n");
    ("E1097", "Cross-section contains all zero Manning's n");
    ("E1098", "Number of height points exceeds maximum");
    ("E1100", "Model is diverging. No solution has been found with the current time step");
    ("E1105", "Time-dependent data in unit doesn't cover the start time of the model duration");
    ("E1106", "Time-dependent data in unit doesn't cover the start time of the model duration");
    ("E1108", "Tolerance for the direct method cannot be negative");
    ("E1109", "Tolerance for the direct method cannot be greater than 0.1");
    ("E1111", "None of the labels in the initial conditions have been tagged.");
    ("E1112", "Number of labels in initial conditions does not match number in data file");
    ("E1113", "Generic data read error");
    ("E1114", "Data error in zzs file");
    ("E1115", "Generic data read error");
    ("E1117", "Data error. Lower Froude Number greater or equal to higher value");
    ("E1118", "Error in reader");
    ("E1119", "Previous unit was not a RIVER or CONDUIT");
    ("E1120", "REPLICATE/INTERPOLATE must be preceded by a RIVER or REPLICATE with dx>0");
    ("E1121", "There is a spill label assigned to the last river unit in a reach.");
    ("E1123", "Unit type may not be connected to reservoir at specified label");
    ("E1128", "You must have at least two consecutive RIVERs or CONDUITs to form a unit.");
    ("E1129", "It is not possible to find a solution with the current time step");
    ("E1131", "Water level outside channel boundary");
    ("E1133", "Extra added sections gave insufficient accuracy");
    ("E1139", "no. of stage/gate opening datasets > 4.");
    ("E1159", "Length of crest in direction of flow must be > 0.1 - rnweir data error");
    ("E1168", "Unit not yet available with the direct method - run terminated");
    ("E1169", "Pump is in stopped mode; This mode is incompatible with the direct method.");
    ("E1179", "Remote upstream control not yet available. For use with the direct method.");
    ("E1184", "Third label required for WATER3 option for remote control mode");
    ("E1185", "Values given must be greater than zero");
    ("E1188", "No gate opening given for MANUAL operation");
    ("E1189", "No initial gate opening given for AUTO operation");
    ("E1195", "Matrix structurally singular. iflag = -1");
    ("E1196", "Matrix numerically singular. iflag = -2");
    ("E1197", "Row or column index out of range. iflag = -12");
    ("E1198", "Dir = 'x' reverse flow direction hn1 = 'y' hn2 = 'z' node = 'n'");
    ("E1199", "Error in spill at line 'l'. bank chainage must increase for each data pair");
    ("E1200", "Maximum gate opening MUST be less than radius plus height of pivot");
    ("E1201", "Gate opening MUST be less than radius plus height of pivot");
    ("E1202", "Gate radius MUST be greater than height of pivot");
    ("E1203", "Number of data points in SPILL unit must be must be greater than 1");
    ("E1210", "Negative flow specified at a Q:T boundary - this is not permitted");
    ("E1211", "Perturbation matrix is singular");
    ("E1219", "cv outside allowed range");
    ("E1221", "rlimit outside allowed range");
    ("E1230", "Suter pump - numerical data outside allowable range");
    ("E1234", "Generic error - see zzd file for further information");
    ("E1237", "SAAR must be positive for event rainfall calculation");
    ("E1238", "Event Rainfall flag is expected to be OBSER, FEHER, FSRER, or PMFER");
    ("E1239", "Positive non-zero value is expected for the OBSERVED event rainfall");
    ("E1241", "Catchment Wetness Index flag is expected to be OBSCW, FSRCW or PMFCW");
    ("E1243", "Percentage Runoff Flag is expected to be BSPR, FEHPR, FSRPR or F16PR");
    ("E1244", "Error in OBSERVED percentage runoff, it must not be > 100.0");
    ("E1245", "Error in OBSERVED percentage runoff, it must not be <0.0");
    ("E1246", "Time to Peak Flag is expected to be OBSTP, FEHTP, F16TP, FSRTP or R124TP");
    ("E1247", "Positive non-zero value is expected for the OBSERVED Time to Peak, TP");
    ("E1248", "Positive non-zero value is expected for the Calibration factor of TP");
    ("E1249", "Base Flow Flag is expected to be OBSBF or F16BF");
    ("E1250", "Positive non-zero value is expected for the catchment area, carea");
    ("E1253", "Unit Hydrograph Flag is expected to be OBSUH, FSRUH, UBRUH or SCSUH");
    ("E1255", "Rainfall Profile Flag is expected to be OBSRP, WINPMP or SUMPMP");
    ("E1256", "Number of rainfall values outside range");
    ("E1258", "ERROR in calculated percentage runoff at subroutine prcal, it is > 100.0");
    ("E1262", "Error in routine interp in fsrqt - value out of range");
    ("E1266", "Calculated no of unit hydro. Ordinates is greater than max allowed");
    ("E1267", "For SUMRP unequal return periods are unacceptable. This can, however, be forced by using the parameter FORCE.");
    ("E1268", "Invalid Velocity Flag specified");
    ("E1269", "Power law constants cannot be negative");
    ("E1285", "Reservoir/Pond level is lower than or the same as the previous level");
    ("E1301", "No flow boundaries have been defined therefore direct steady method is not applicable");
    ("E1302", "No head boundaries have been defined therefore direct steady method is not applicable");
    ("E1324", "Number of q:h data pairs exceeds the maximum permitted");
    ("E1330", "Efficiency values must be greater than zero and less than or equal to one");
    ("E1331", "Optimal head and flow values must both be positive");
    ("E1332", "Number of switch data sets must be > 1");
    ("E1333", "Invalid switch type keyword");
    ("E1334", "Unrecognised pump mode keyword");
    ("E1336", "Missing control label for controller switch type");
    ("E1338", "Time multiples must be positive");
    ("E1339", "Unrecognised pump mode");
    ("E1340", "Number of Suter points must be between 1 and 133");
    ("E1341", "No corresponding pump mode given for MANUAL operation at model time");
    ("E1343", "Number of head, flow, efficiency data sets must be between 1 and 50.");
    ("E1344", "Error reading data in datafile.");
    ("E1345", "Head, flow and efficiency cannot all be simultaneously greater than zero.");
    ("E1346", "Invalid number of switch data sets");
    ("E1347", "Unknown switch type: type code");
    ("E1348", "Unable to find control unit for controller mode");
    ("E1349", "Unknown instruction code for logical switching");
    ("E1401", "Skew angle of bridge > 45 ; Must be in range 0 < =angle < =45.");
    ("E1402", "Width of bridge< =0.0. Data error in bridge unit");
    ("E1403", "Invalid bridge abutment code. Should be 1, 2 or 3. Data error in bridge attached to 'label1', 'label2'");
    ("E1404", "Pier coefficient out of range. Must be >=0.0 and < =8.0. Data error in bridge");
    ("E1405", "Invalid bridge pier description. 'x'(Number of piers), 'y' (type of shape of bridge soffit), 'z' (type of bridge pier cross sectional type). Data error in bridge attached to 'label1', 'label2'.");
    ("E1406", "Number of bridge piers >0 , with Width of bridge piers < =0.");
    ("E1410", "Too many culverts in bridge attached to 'label1','label2'.");
    ("E1411", "Culvert drowning coefficient must be <1. Data error in bridge attached to 'label1','label2'");
    ("E1412", "Culvert invert level is greater than soffit level. Data error in bridge attached to 'label1','label2'.");
    ("E1421", "Number of arches < 0");
    ("E1422", "Number of arches exceeds the maximum");
    ("E1423", "USBPR Bridge error on arch data 'x' (number of arch) x coord of left side of arch must coincide with cross chainage point");
    ("E1431", "Too many markers in bridge channel section");
    ("E1432", "Left or Right markers wrong in bridge section.");
    ("E1510", "Unrecognised direction keyword keyword should be UPSTREAM or DOWNSTREAM");
    ("E1511", "Invalid loss coefficient: Loss coefficient must be value between 0 and 10.");
    ("E1512", "Upstream section for a BEND/LOSS unit in upstream control must be a RIVER or CONDUIT unit.");
    ("E1513", "Invalid loss coefficient: Loss coefficient should be value between 0 and 1.");
    ("E1514", "Unit upstream of a CULVERT OUTLET unit must be RIVER or CONDUIT unit.");
    ("E1515", "Unrecognised conduit type code. Should be A or B");
    ("E1516", "Value of unsubmerged inlet control loss coefficient should be between 0 and 1; current value is x");
    ("E1517", "Value of exponent for inlet control should be between 0 and 3; current value is:x");
    ("E1518", "Value of submerged inlet control loss coefficient should be between 0 and 0.1; current value is x.");
    ("E1519", "Value of submerged inlet control adjustment factor should be between 0 and 1; current value is x");
    ("E1520", "Value of outlet control loss coefficient should be between 0 and 1; current value is x");
    ("E1521", "Value of trash screen width should be greater than 0; current value is x");
    ("E1522", "Value of trash screen bar proportion should be between 0 and 1; current value is x.");
    ("E1523", "Value of trash screen blockage ratio should be between 0 and 1; current value is x.");
    ("E1524", "Value of trash screen head loss coefficient should be greater than 0; current value is x");
    ("E1525", "Unit downstream of a CULVERT INLET unit must be a RIVER or CONDUIT unit.");
    ("E1526", "Maximum number of trans-critical points exceeded");
    ("E1528", "Junction at l1 appears to be neither a join nor a split");
    ("E1529", "Unable to find unit number in list of river reaches");
    ("E1530", "Internal error - invalid trans-critical point");
    ("E1532", "Upstream/downstream nodes of unit are not rivers/conduits.");
    ("E1533", "Cannot find label");
    ("E1534", "Save interval (or timestep) must be positive");
    ("E1536", "Upstream/downstream/remote/constriction section label does not exist.");
    ("E1537", "Upstream and/or downstream river units at bridge not found");
    ("E1538", "Culvert flow failed to converge");
    ("E1539", "Perturbation failed");
    ("E1540", "No nodes found");
    ("E1541", "Country must be ENGLAND, IRELAND, SCOTLAND or WALES");
    ("E1542", "Value of s1085 must be positive for time to peak calculation");
    ("E1543", "Value of MSL/DPSBAR/DPLBAR must be positive for time to peak calculation, or PROPWET must be between 0 and 1.");
    ("E1544", "SOIL must be between 0 and 1.0");
    ("E1545", "Time step must be positive");
    ("E1546", "Urban fraction/extent cannot be <0 or> 1");
    ("E1547", "Storm duration of x is less than or equal to zero");
    ("E1548", "[Time] interpolation error");
    ("E1549", "INTERPOLATE unit must have a positive chainage");
    ("E1550", "A reach has more than 100 interpolated sections (split the reach using a RIVER)");
    ("E1551", "Numb=0 in INTERPOLATE");
    ("E1552", "Total chainage must be positive");
    ("E1555", "Unit type may not be connected to junction");
    ("E1562", "dx must be positive");
    ("E1564", "X number of data points is less than 2");
    ("E1565", "X number of data points greater than maximum");
    ("E1566", "Lateral inflows cannot be used with MUSKINGUM units");
    ("E1567", "Zero wave speed or chainage Ensure that the reach is not dry");
    ("E1568", "Slope must be positive");
    ("E1569", "Channel section data error. At least 2 section points and a positive slope are required for velocity calculation");
    ("E1570", "Attempt to read results from before start of run. Start your run with structure in MANUAL mode");
    ("E1571", "Error attempting to read earlier result");
    ("E1572", "Unrecognised operation type");
    ("E1573", "Weir discharge coefficient must be greater than 0");
    ("E1574", "Surcharged discharge coefficient must be greater than 0");
    ("E1575", "Pump bore area must be greater than 0");
    ("E1576", "Soffit must be higher than invert");
    ("E1577", "Bridge soffit is more than 10m above cross section. Please extend your section data or modify the arch dimensions");
    ("E1578", "icount is zero - arch error");
    ("E1579", "Conduit section should start with x=0 at invert centre line");
    ("E1580", "Unrecognised time factor keyword");
    ("E1581", "Flood Modeller has detected a different label length in the initial conditions file from the value in operation in the datafile. This is not allowed");
    ("E1582", "Maximum number of pond data lines exceeded (max=50)");
    ("E1583", "INTERPOLATE must be preceded by a RIVER or REPLICATE with a positive chainage");
    ("E1584", "Non-channel unit found in the middle of a reach. Reach must end with dx = 0");
    ("E1585", "Length of weir in direction of flow is more than 100 x width of crest. This is not acceptable");
    ("E1586", "Crest length must be positive");
    ("E1587", "Unknown controller operation mode");
    ("E1588", "Unknown sluice gate operation mode");
    ("E1589", "No time data available in switch data set for current model time");
    ("E1590", "Unable to find controller label for controller mode");
    ("E1591", "Unknown controller operation mode");
    ("E1592", "Error in floodplain section at line n. Chainage must be positive for friction flow");
    ("E1593", "First matrix element is zero");
    ("E1594", "Xset points are not all distinct");
    ("E1595", "Gate orientation must be FORWARD or REVERSE");
    ("E1596", "ctc must be greater than 0");
    ("E1597", "cgt must be greater than 0");
    ("E1598", "crev must be greater than 0");
    ("E1599", "dr must be greater than 0");
    ("E1600", "Only one gate is allowed in gated weir");
    ("E1601", "Gate height must be greater than zero");
    ("E1602", "Gate crest higher than max. gate height");
    ("E1603", "Crest is lower than sill");
    ("E1605", "Unit version number n is not supported in this version of Flood Modeller");
    ("E1606", "Negative breach width xm is invalid");
    ("E1607", "Negative breach side slope x is invalid.");
    ("E1608", "Error in breach: unable to fit breach, check the breach and associated spill section");
    ("E1610", "Invalid blockage proportion x. Proportion p must have 0.0 < = P <=1.0");
    ("E1611", "Upstream/Downstream/Constriction unit of a blockage (connected or remote) must be RIVER, CONDUIT or BRIDGE unit.");
    ("E1612", "Invalid loss coefficient: Loss coefficient must be at least 0.");
    ("E1613", "OPEN pump operation is specified but parameters for OPEN operation are not set");
    ("E1614", "Selected node l1 for OLD rules has been removed from the output list");
    ("E1620", "Unit not supported in this version of Flood Modeller");
    ("E1621", "Invalid lateral inflow weight factor (= x) entered for connecting unit");
    ("E1622", "User defined weight factors do not sum to 1.0");
    ("E1623", "Unrecognised connecting boundary node entered");
    ("E1624", "Link to lateral inflow not recognised");
    ("E1625", "Reservoir connected to reach - weighted lateral inflow");
    ("E1627", "Connected Muskingum has zero reach length");
    ("E1628", "Weight factor type not recognised");
    ("E1629", "Muskingum section connected to area distributed lateral");
    ("E1630", "This Muskingum type will not receive lateral inflows");
    ("E1631", "Zero reach length river section connected to lateral inflow");
    ("E1640", "Number of data pairs must be greater than zero");
    ("E1641", "No input data types recognised");
    ("E1642", "No data in l1 at line n before/after x hrs");
    ("E1643", "2 data points with same time");
    ("E1644", "Time values are not increasing");
    ("E1669", "Zero or Negative slope encountered in Normal depth boundary This is not permitted");
    ("E1672", "Remote label not found or not connected to a channel section");
    ("E1673", "No valid path found from upstream to downstream slope extents");
    ("E1674", "No section data specified or available for normal/critical depth boundary");
    ("E1675", "Zero area or width in Critical depth boundary");
    ("E1676", "No sign change detected in normal depth equation. Normal depth could not be calculated");
    ("E1678", "Data error at line n. Dry lower depth greater or equal to dry higher depth");
    ("E1680", "Maximum number 50 of lateral connections for quality run exceeded");
    ("E1681", "Data error at line n. no RAD FILE tag found");
    ("E1682", "Data error at line n. no GENERAL tag found");
    ("E1683", "Failed CES dll function call to SetRoughnessFile");
    ("E1684", "Failed CES dll function call to GetRoughnessLoadingErrors");
    ("E1685", "Failed CES dll function call to AddSection");
    ("E1686", "Failed CES dll function call to Populate Section for section id");
    ("E1687", "Failed CES dll function call to Add Section Roughness for section id");
    ("E1688", "CES dlls have not been initialised");
    ("E1689", "Failed CES dll function call to Calculate Conveyance for section id");
    ("E1690", "Failed CES dll function call to Get Depth Intervals");
    ("E1691", "Failed CES dll function call to Get Eddy Viscosity");
    ("E1692", "Failed CES dll function call to Get Min Depth");
    ("E1693", "Failed CES dll function call to Get No Panels");
    ("E1694", "Failed CES dll function call to GetRelaxation");
    ("E1695", "Failed CES dll function call to Get Temperature");
    ("E1696", "Failed CES dll function call to Get Max Iterations");
    ("E1697", "Failed CES dll function call to Set Relaxation");
    ("E1698", "Failed CES dll function call to Set Depth Intervals");
    ("E1699", "Failed CES dll function call to SetEddyViscosity");
    ("E1700", "Failed CES dll function call to Set Min Depth");
    ("E1701", "Failed CES dll function call to Set No Panels");
    ("E1702", "Failed CES dll function call to Set Max Iterations");
    ("E1703", "Failed CES dll function call to SetTemperature");
    ("E1704", "Failed CES dll function call to GetHytMultiplier");
    ("E1705", "Failed CES dll function call to SetHytMultiplier");
    ("E1706", "Failed function call to fn_requestoutputs_at_timestage for section");
    ("E1707", "Failed function call to fn_get_isis_tables for section");
    ("E1708", "Failed CES dll function call to FnGetMinMax_Output_Elevations for section id");
    ("E1709", "Failed CES dll function call to fngetmaxarea for section");
    ("E1720", "Too many substrings in rule");
    ("E1721", "Parse error in rule");
    ("E1722", "Logical storage capacity exceded in rule l1");
    ("E1723", "Error in rule l1");
    ("E1724", "Failed CES dll function call to SetConvTolerance");
    ("E1725", "Failed CES dll function call to GetConvTolerance");
    ("E1726", "Failed CES dll function call to SetConveyanceType");
    ("E1727", "Rule l1 has already been defined. Note that only the first 10 characters of the name are significant.");
    ("E1728", "Rule ALL is not valid. It could be confused with the keyword ALL in the TIME RULE DATA SET.");
    ("E1729", "Fatal error in 2D solver");
    ("E1730", "Indeterminate flow direction in qxbdy");
    ("E1800", "Unknown bank type for section id");
    ("E1801", "Sinuosity can only provided on a left bank in section id");
    ("E1802", "Even number of bank markers required for section id");
    ("E1803", "Put roughness chainage in ascending order for section id");
    ("E1804", "Put section chainage in ascending order for section id");
    ("E1805", "RO bank marker must follow LI for section id");
    ("E1806", "RI bank marker must follow LO for section id");
    ("E1807", "LI bank marker must follow RO for section id");
    ("E1808", "LO bank marker must follow RI for section id");
    ("E1809", "RS bank marker must follow LS for section id");
    ("E1810", "LS bank marker must follow RS for section id");
    ("E1811", "Date out of range in section");
    ("E1813", "No section data to calculate conveyance for section id");
    ("E1814", "No roughness data to calculate conveyance for section id");
    ("E1815", "Roughness zone not found in roughness file for section id");
    ("E1818", "[No message]");
    ("E1819", "Data error at line X. failed to load roughness file.");
    ("E1820", "Non unique section name found for section id/replicate");
    ("E1821", "Start date is out of the range specified in the roughness file for section id");
    ("E1822", "Finish date is out of the range specified in the roughness file for section id");
    ("E1824", "Section not found");
    ("E1825", "At least two bank markers required for section id");
    ("E1827", "Failed CES dll function call to FnAddInterpolate for interpolated section, cannot find upstream section for section id");
    ("E1828", "Failed CES dll function call to FnAddInterpolate for interpolated section, cannot find downstream section for section id");
    ("E1830", "Cannot find urban unit.");
    ("E1831", "This urban throughflow unit is not associated with an urban unit.");
    ("E1832", "The data store cannot accurately store the urban unit's number.");
    ("E1900", "Cannot allocate memory, status = n");
    ("E1926", "One of many E1926 errors");
    ("E1999", "One of many E1999 errors")
  ]%string.

Definition WARNING_DESCRIPTIONS : gmap string string :=
  dict_of WARNING_DESCRIPTIONS_items.

(** ** Rows of the result *)

(** A row of [dq_data] or [dh_data]: keys ['time'], ['value'], ['node']. *)
Module Conv.
Record row := { time : float; value : float; node : string }.
End Conv.

(** A row of [warn_data]: keys ['time'], ['type'], ['code'], ['label'];
    [df_w] adds the column ['note']. *)
Module Warn.
Record entry := { time : float; type : string; code : string; label : string }.
Record row := { data : entry; note : string }.
End Warn.

(** The dict [extract_zzd_data] returns; ['end'] is [end_]. *)
Record result := {
  dq : list Conv.row;
  dh : list Conv.row;
  warnings : list Warn.row;
  start : float;
  end_ : float;
  fail_t : option float;
  fail_c : option string
}.

(** ** [extract_zzd_data] *)

(** [s[:n]] *)
Definition first_bytes (n : nat) (s : bytes) : bytes := take n s.

(** [s[-n:]] for [n > 0] *)
Definition last_bytes (n : nat) (s : bytes) : bytes := drop (length s - n) s.

Fixpoint starts_with (p s : bytes) : bool :=
  match p, s with
  | [], _ => true
  | a :: p', b :: s' => byte_eqb a b && starts_with p' s'
  | _ :: _, [] => false
  end.

(** [p in s] for bytes objects *)
Fixpoint contains (p s : bytes) : bool :=
  starts_with p s ||
  match s with
  | _ :: s' => contains p s'
  | [] => false
  end.

(** [min] and [max] of a list whose first item is [x]: a later item replaces
    the candidate when it is [<] (for [max]: [>]) the candidate. *)
Definition py_min (x : float) (xs : list float) : float :=
  fold_left (fun m y => if Float64.ltb y m then y else m) xs x.

Definition py_max (x : float) (xs : list float) : float :=
  fold_left (fun m y => if Float64.gtb y m then y else m) xs x.

(** Section A: the time of a marker, [0.0] when the pattern has no match. *)
Definition marker_time (m : option Match) : py float :=
  match m with
  | Some m => PyFloat.of_group (group m 1)
  | None => Ok zero
  end.

(** Section B.1: the loop over [RE_CONV.finditer], on the two lists. *)
Fixpoint conv_loop (ms : list Match) (dq_data dh_data : list Conv.row)
    : py (list Conv.row * list Conv.row) :=
  match ms with
  | [] => Ok (dq_data, dh_data)
  | m :: ms' =>
      let* t := PyFloat.of_group (group m 1) in
      let* v2 := PyFloat.of_group (group m 2) in
      let* n3 := Utf8.decode_group (group m 3) in
      let dq_data := dq_data ++ [ {| Conv.time := t; Conv.value := v2; Conv.node := n3 |} ] in
      let* v4 := PyFloat.of_group (group m 4) in
      let* n5 := Utf8.decode_group (group m 5) in
      let dh_data := dh_data ++ [ {| Conv.time := t; Conv.value := v4; Conv.node := n5 |} ] in
      conv_loop ms' dq_data dh_data
  end.

(** Section B.2: the loop over [RE_WARN.finditer]; it also keeps the time
    and code of the ERROR row seen last. *)
Record warn_state := {
  warn_data : list Warn.entry;
  last_err_t : option float;
  last_err_c : option string
}.

(** The state before the first turn of the loop over [RE_WARN.finditer]. *)
Definition warn_init : warn_state :=
  {| warn_data := []; last_err_t := None; last_err_c := None |}.

Fixpoint warn_loop (ms : list Match) (st : warn_state) : py warn_state :=
  match ms with
  | [] => Ok st
  | m :: ms' =>
      let* t := PyFloat.of_group (group m 1) in
      let* g2 := Utf8.decode_group (group m 2) in
      let etype := Utf8.upper g2 in
      let* ecode := Utf8.decode_group (group m 3) in
      let* label := Utf8.decode_group (group m 4) in
      let row := {| Warn.time := t; Warn.type := etype;
                    Warn.code := ecode; Warn.label := label |} in
      let is_error := String.eqb etype "ERROR" in
      warn_loop ms'
        {| warn_data := warn_data st ++ [row];
           last_err_t := if is_error then Some t else last_err_t st;
           last_err_c := if is_error then Some ecode else last_err_c st |}
  end.

(** Section D: [all_timestamps], then the replacement of a [0.0] bound. *)
Definition all_timestamps (dq_data : list Conv.row) (warn_data : list Warn.entry)
    : list float :=
  let ts := [] in
  let ts :=
    match head dq_data, last dq_data with
    | Some a, Some z => ts ++ [Conv.time a; Conv.time z]
    | _, _ => ts
    end in
  match head warn_data, last warn_data with
  | Some a, Some z => ts ++ [Warn.time a; Warn.time z]
  | _, _ => ts
  end.

Definition infer_times (start_time end_time : float)
    (dq_data : list Conv.row) (warn_data : list Warn.entry) : float * float :=
  if Float64.eqb start_time zero || Float64.eqb end_time zero then
    match all_timestamps dq_data warn_data with
    | [] => (start_time, end_time)
    | x :: xs =>
        (if Float64.eqb start_time zero then py_min x xs else start_time,
         if Float64.eqb end_time zero then py_max x xs else end_time)
    end
  else (start_time, end_time).

(** The last step of section D: a valid duration is forced. *)
Definition force_duration (start_time end_time : float) : float :=
  if Float64.geb start_time end_time then
    if Float64.eqb start_time zero then one
    else Float64.add start_time one
  else end_time.

(** Section E: [df_w['code'].map(WARNING_DESCRIPTIONS).fillna("Unknown Warning")];
    a code that is no key of the dict maps to NaN, here [None]. *)
Definition series_map (d : gmap string string) (col : list string)
    : list (option string) :=
  map (fun c => d !! c) col.

Definition fillna (v : string) (col : list (option string)) : list string :=
  map (default v) col.

Definition with_notes (d : gmap string string) (warn_data : list Warn.entry)
    : list Warn.row :=
  let notes := fillna "Unknown Warning" (series_map d (map Warn.code warn_data)) in
  zip_with (fun e n => {| Warn.data := e; Warn.note := n |}) warn_data notes.

(** Section A: the two searches, each in its window of 5000 bytes. *)
Definition start_match (zzd_bytes : bytes) : option Match :=
  search RE_START (first_bytes 5000 zzd_bytes).

Definition end_match (zzd_bytes : bytes) : option Match :=
  search RE_END (last_bytes 5000 zzd_bytes).

(** Section C: the crash marker, looked for in the last 2000 bytes. *)
Definition is_fatal (zzd_bytes : bytes) : bool :=
  contains (b_ "stopped in error") (last_bytes 2000 zzd_bytes).

(** The function, with the module-level dict it reads as an argument. *)
Definition extract_with (descriptions : gmap string string) (zzd_bytes : bytes)
    : py result :=
  let* start_time := marker_time (start_match zzd_bytes) in
  let* end_time := marker_time (end_match zzd_bytes) in
  let* conv := conv_loop (finditer RE_CONV zzd_bytes) [] [] in
  let '(dq_data, dh_data) := conv in
  let* st := warn_loop (finditer RE_WARN zzd_bytes) warn_init in
  let is_fatal := is_fatal zzd_bytes in
  let '(start_time, end_time) :=
    infer_times start_time end_time dq_data (warn_data st) in
  let end_time := force_duration start_time end_time in
  Ok {| dq := dq_data;
        dh := dh_data;
        warnings := with_notes descriptions (warn_data st);
        start := start_time;
        end_ := end_time;
        fail_t := if is_fatal then last_err_t st else None;
        fail_c := if is_fatal then last_err_c st else None |}.

Definition extract_zzd_data (zzd_bytes : bytes) : py result :=
  extract_with WARNING_DESCRIPTIONS zzd_bytes.

(** ** What a pattern denotes *)

(** [matches fl r w g g']: the expression [r] can consume exactly the word
    [w], turning the captures [g] into [g']. *)
Inductive matches (fl : flags) : regex -> bytes -> captures -> captures -> Prop :=
| matches_eps g :
    matches fl Eps [] g g
| matches_chr c x g :
    accepts fl c x = true ->
    matches fl (Chr c) [x] g g
| matches_rep c lo hi greedy w g :
    Forall (fun x => accepts fl c x = true) w ->
    (lo <= length w)%nat ->
    (forall h, hi = Some h -> (length w <= h)%nat) ->
    matches fl (Rep c lo hi greedy) w g g
| matches_cat r1 r2 w1 w2 g g' g'' :
    matches fl r1 w1 g g' ->
    matches fl r2 w2 g' g'' ->
    matches fl (Cat r1 r2) (w1 ++ w2) g g''
| matches_alt_l r1 r2 w g g' :
    matches fl r1 w g g' ->
    matches fl (Alt r1 r2) w g g'
| matches_alt_r r1 r2 w g g' :
    matches fl r2 w g g' ->
    matches fl (Alt r1 r2) w g g'
| matches_group n r w g g' :
    matches fl r w g g' ->
    matches fl (Group n r) w g (<[n := w]> g').

(** A match object of pattern [p] found in [s]: the bytes before the match,
    the matched word, and the rest. *)
Definition match_of (p : pattern) (s : bytes) (m : Match) : Prop :=
  exists pre w, s = pre ++ w ++ rest m /\ matches (fl p) (re p) w ∅ (groups m).

(** The words of [c{lo,hi}] for the byte test [p] of [c]. *)
Definition rep_word (p : byte -> bool) (lo : nat) (hi : option nat) (w : bytes)
    : Prop :=
  Forall (fun x => p x = true) w /\ (lo <= length w)%nat /\
  forall h, hi = Some h -> (length w <= h)%nat.

(** A literal consumes a word equal to it byte by byte, up to the case
    folding of the flags. *)
Definition lit_word (fl : flags) (s : string) (w : bytes) : Prop :=
  Forall2 (fun x b => accepts fl (Lit b) x = true) w (b_ s).

Definition digits (w : bytes) : Prop := Forall (fun x => is_digit x = true) w.

(** The words of [\d+ \.? \d*]. *)
Inductive number_token : bytes -> Prop :=
| number_token_intro d1 dot d2 :
    digits d1 -> d1 <> [] -> dot = [] \/ dot = ["."%byte] -> digits d2 ->
    number_token (d1 ++ dot ++ d2).

(** Neither blank nor an underscore. *)
Definition plain (x : byte) : Prop :=
  is_space x = false /\ byte_eqb x "_" = false.

(** Number of line breaks in a word. *)
Fixpoint newlines (w : bytes) : nat :=
  match w with
  | [] => 0
  | x :: w' => ((if byte_eqb x newline then 1 else 0) + newlines w')%nat
  end.

Fixpoint starts_with_nocase (p s : bytes) : bool :=
  match p, s with
  | [], _ => true
  | a :: p', b :: s' => eqb_nocase a b && starts_with_nocase p' s'
  | _ :: _, [] => false
  end.

(** [p] occurs in [s], letters compared without case. *)
Fixpoint contains_nocase (p s : bytes) : bool :=
  starts_with_nocase p s ||
  match s with
  | _ :: s' => contains_nocase p s'
  | [] => false
  end.

(** Not NaN, with sign bit [sx]. *)
Definition has_sign (sx : bool) (x : float) : Prop :=
  match x with
  | S754_zero s | S754_infinity s | S754_finite s _ _ => s = sx
  | S754_nan => False
  end.

(** One or more blanks, and a token of one or more non-blank bytes. *)
Definition blanks (w : bytes) : Prop :=
  Forall (fun x => is_space x = true) w /\ w <> [].

Definition token (w : bytes) : Prop :=
  Forall (fun x => is_space x = false) w /\ w <> [].

(** The words [RE_CONV] matches, item by item, with the captures they leave:
    the phrase, anything, "time", blanks, the time token [t], then two line
    breaks with anything before, between and after them, "MAX DQ=" with its
    value [v2] and node [n3], anything, "MAX DH=" with its value [v4] and
    node [n5]. *)
Inductive conv_block (fl : flags) : bytes -> captures -> Prop :=
| conv_block_intro phrase a1 time sp1 t g1 g2 g3
      dqlit sp2 v2 sp3 at1 sp4 n3 a2 dhlit sp5 v4 sp6 at2 sp7 n5 :
    lit_word fl "Poor model convergence" phrase ->
    lit_word fl "time" time ->
    blanks sp1 ->
    number_token t ->
    lit_word fl "MAX DQ=" dqlit ->
    token v2 -> blanks sp3 -> lit_word fl "at" at1 -> blanks sp4 -> token n3 ->
    lit_word fl "MAX DH=" dhlit ->
    token v4 -> blanks sp6 -> lit_word fl "at" at2 -> blanks sp7 -> token n5 ->
    conv_block fl
      (phrase ++ a1 ++ time ++ sp1 ++ t ++
       g1 ++ [newline] ++ g2 ++ [newline] ++ g3 ++
       dqlit ++ sp2 ++ v2 ++ sp3 ++ at1 ++ sp4 ++ n3 ++ a2 ++
       dhlit ++ sp5 ++ v4 ++ sp6 ++ at2 ++ sp7 ++ n5)
      (<[5%nat := n5]> (<[4%nat := v4]> (<[3%nat := n3]>
         (<[2%nat := v2]> (<[1%nat := t]> ∅))))).

(** The words [RE_WARN] matches: "Model time", blanks, the time token [t],
    anything, a line break, anything, the starred annotation with the
    severity word [sev], the code [c] and the label [l]. *)
Inductive warn_unit (fl : flags) : bytes -> captures -> Prop :=
| warn_unit_intro head sp1 t a1 a2 st1 sp2 sev sp3 c sp4 st2 sp5 atl sp6 l :
    lit_word fl "Model time" head ->
    blanks sp1 ->
    number_token t ->
    lit_word fl "***" st1 ->
    lit_word fl "warning" sev \/ lit_word fl "note" sev \/ lit_word fl "error" sev ->
    Forall (fun x => is_word x = true) c -> c <> [] ->
    lit_word fl "***" st2 ->
    lit_word fl "at label:" atl ->
    token l ->
    warn_unit fl
      (head ++ sp1 ++ t ++ a1 ++ [newline] ++ a2 ++ st1 ++ sp2 ++ sev ++ sp3 ++
       c ++ sp4 ++ st2 ++ sp5 ++ atl ++ sp6 ++ l)
      (<[4%nat := l]> (<[3%nat := c]> (<[2%nat := sev]> (<[1%nat := t]> ∅)))).

(** The rows one match of [RE_CONV] contributes to [dq_data] and [dh_data],
    and the entry one match of [RE_WARN] contributes to [warn_data]. *)
Definition dq_row_of (m : Match) (row : Conv.row) : Prop :=
  PyFloat.of_group (group m 1) = Ok (Conv.time row) /\
  PyFloat.of_group (group m 2) = Ok (Conv.value row) /\
  Utf8.decode_group (group m 3) = Ok (Conv.node row).

Definition dh_row_of (m : Match) (row : Conv.row) : Prop :=
  PyFloat.of_group (group m 1) = Ok (Conv.time row) /\
  PyFloat.of_group (group m 4) = Ok (Conv.value row) /\
  Utf8.decode_group (group m 5) = Ok (Conv.node row).

Definition warn_entry_of (m : Match) (e : Warn.entry) : Prop :=
  PyFloat.of_group (group m 1) = Ok (Warn.time e) /\
  (exists g2, Utf8.decode_group (group m 2) = Ok g2 /\ Warn.type e = Utf8.upper g2) /\
  Utf8.decode_group (group m 3) = Ok (Warn.code e) /\
  Utf8.decode_group (group m 4) = Ok (Warn.label e).

(** [float()] accepts the two value tokens of a match of [RE_CONV]. *)
Definition values_ok (m : Match) : Prop :=
  (exists v, PyFloat.of_group (group m 2) = Ok v) /\
  (exists v, PyFloat.of_group (group m 4) = Ok v).

Definition is_error (e : Warn.entry) : bool := String.eqb (Warn.type e) "ERROR".

(** The ERROR entry that comes last in [warn_data], if there is one. *)
Definition last_error (rows : list Warn.entry) : option Warn.entry :=
  last (List.filter is_error rows).

(** What the loop keeps in [last_err_t] and [last_err_c]. *)
Definition tracks_last_error (st : warn_state) : Prop :=
  last_err_t st = Warn.time <$> last_error (warn_data st) /\
  last_err_c st = Warn.code <$> last_error (warn_data st).

(** The fatal status of a result: the pair of [fail_t] and [fail_c] when both
    are set. *)
Definition fatal (r : result) : option (float * string) :=
  match fail_t r, fail_c r with
  | Some t, Some c => Some (t, c)
  | _, _ => None
  end.

(** ** Sample logs *)

Definition nl : string := String (Ascii.ascii_of_nat 10) EmptyString.

(** A diagnostic unit: the time line and, on the next line, the annotation. *)
Definition warn_lines (t sev c l : string) : string :=
  (" Model time   " ++ t ++ " hrs" ++ nl ++
   " *** " ++ sev ++ " " ++ c ++ " *** at label: " ++ l ++ nl)%string.

(** A convergence block with [mid] between the time line and the line of the
    two corrections, whose flow-correction value is the token [v]. *)
Definition conv_lines (mid v : string) : string :=
  (" Poor model convergence at model time   10.5 hrs" ++ mid ++
   "  MAX DQ=  " ++ v ++ " at N1   MAX DH= 0.012 at N2" ++ nl)%string.

(** Two line breaks, with one line in between. *)
Definition two_breaks : string := (nl ++ " iteration 6" ++ nl)%string.

(** Three line breaks, with two lines in between. *)
Definition three_breaks : string :=
  (nl ++ " iteration 6" ++ nl ++ " relaxed" ++ nl)%string.

(** A log with a warning, an error and a note at 3.0, 7.5 and 12.0 hours,
    no start or end marker, and the crash marker at its end. *)
Definition three_events : string :=
  (warn_lines "3.0" "warning" "W2013" "RIVER_01" ++
   warn_lines "7.5" "Error" "E9999" "WEIR.2" ++
   warn_lines "12.0" "note" "N3002" "JUNC" ++
   " Run stopped in error" ++ nl)%string.

(** ERROR rows at 5 and 20 hours. *)
Definition two_errors : string :=
  (warn_lines "5" "ERROR" "E1000" "A" ++ warn_lines "20" "ERROR" "E2000" "B")%string.

(** A log that ends with the crash marker. *)
Definition crashed (log : string) : string :=
  (log ++ " Run stopped in error" ++ nl)%string.

(** A block without its head correction, followed by a whole block. *)
Definition half_then_whole : string :=
  (" Poor model convergence at model time   1.0 hrs" ++ two_breaks ++
   "  MAX DQ=  0.5 at A1" ++ nl ++ conv_lines two_breaks "0.003")%string.

(** 5000 blanks. *)
Definition blank_window : bytes := repeat " "%byte 5000.

(** ** What a search has to deliver *)

(** The pattern has a match in [s] that starts behind the [n] bytes [pre]. *)
Definition occurs_at (p : pattern) (s : bytes) (n : nat) : Prop :=
  exists pre w post g,
    s = pre ++ w ++ post /\ length pre = n /\ matches (fl p) (re p) w ∅ g.

(** [o] is what a search of [p] in [s] has to return: a match at the
    leftmost offset at which the pattern has one, or nothing when it has
    none. *)
Definition leftmost_match (p : pattern) (s : bytes) (o : option Match) : Prop :=
  match o with
  | Some m =>
      exists pre w,
        s = pre ++ w ++ rest m /\ matches (fl p) (re p) w ∅ (groups m) /\
        forall n, occurs_at p s n -> (length pre <= n)%nat
  | None => forall n, ~ occurs_at p s n
  end.

(** ** Notions of the specification *)

(** The crash phrase stands in the suffix window of the buffer: in its last
    2000 bytes, or in the whole buffer when it has fewer. *)
Definition marker_in_tail (s : bytes) : Prop :=
  exists pre a b,
    s = pre ++ a ++ b_ "stopped in error" ++ b /\
    length (a ++ b_ "stopped in error" ++ b) = Nat.min 2000 (length s).

(** The first and the last item of a list that is not empty. *)
Definition first_and_last {A} (l : list A) : list A :=
  match head l, last l with
  | Some a, Some z => [a; z]
  | _, _ => []
  end.

(** The candidate pool of the inference: the times of the first and the last
    convergence row, then those of the first and the last diagnostic row. *)
Definition candidate_pool (r : result) : list float :=
  map Conv.time (first_and_last (dq r)) ++
  map (fun w => Warn.time (Warn.data w)) (first_and_last (warnings r)).

(** The number of offsets of [s] at which [p] stands, letters compared
    without case. *)
Fixpoint count_nocase (p s : bytes) : nat :=
  match s with
  | [] => 0
  | _ :: s' => (if starts_with_nocase p s then 1 else 0) + count_nocase p s'
  end.

(** ** Further sample logs *)

(** Markers at 2.5 and 40 hours, and rows outside them. *)
Definition marked_log : string :=
  (" Start Time (hrs): 2.5" ++ nl ++ warn_lines "1.0" "note" "N3002" "A" ++
   warn_lines "99" "warning" "W2013" "B" ++ " End Time (hrs): 40" ++ nl)%string.

(** The crash phrase, then 2000 blanks behind the ERROR rows. *)
Definition marker_too_early : bytes :=
  b_ (two_errors ++ " Run stopped in error") ++ repeat " "%byte 2000.

(** Diagnostic rows at 3.0, 1.5 and 7 hours, then a convergence block at
    10.5 hours; no marker. *)
Definition unordered_events : string :=
  (warn_lines "3.0" "warning" "W2013" "A" ++
   warn_lines "1.5" "note" "N3002" "B" ++
   warn_lines "7" "warning" "W2013" "C" ++
   conv_lines two_breaks "0.003")%string.

(** A whole block, then a block without its head correction. *)
Definition whole_then_half : string :=
  (conv_lines two_breaks "0.003" ++
   " Poor model convergence at model time   11.0 hrs" ++ two_breaks ++
   "  MAX DQ=  0.5 at A1" ++ nl)%string.

(** A diagnostic unit whose label holds the bytes 1C (a separator that
    [str.isspace] counts as white space) and C2 A0 (a no-break space). *)
Definition odd_label : bytes :=
  b_ (" Model time   1.0 hrs" ++ nl ++ " *** note N3002 *** at label: A") ++
  [x1c; xc2; xa0]%byte ++ b_ ("B" ++ nl).

(** A diagnostic row of type ERROR at model time zero, a convergence block,
    and the crash phrase. *)
Definition crash_at_zero : string :=
  (warn_lines "0.000" "ERROR" "E1000" "A" ++ conv_lines two_breaks "0.003" ++
   " Run stopped in error" ++ nl)%string.

(** The three diagnostic rows of [three_events], then a convergence block. *)
Definition events_and_block : string :=
  (three_events ++ conv_lines two_breaks "0.003")%string.

(** ** [update_dashboard]: what it derives from the result *)

(** The statements of the callback that are plain Python, for tolerances
    [qtol] and [htol] that are numbers; the calls of pandas, numpy and
    plotly between them are not modelled. *)

(** What the callback comes to at a statement behind the call of
    [extract_zzd_data]: a value, or the KeyError of a column that a
    DataFrame does not have. *)
Inductive shown (A : Type) : Type :=
| Drawn (a : A)
| KeyError.

Arguments Drawn {A} a.
Arguments KeyError {A}.

Definition then_ {A B} (m : shown A) (k : A -> shown B) : shown B :=
  match m with
  | Drawn a => k a
  | KeyError => KeyError
  end.

(** [df['value']]: a DataFrame made from an empty list has no columns, and
    the subscript raises KeyError. *)
Definition value_column (df : list Conv.row) : shown (list float) :=
  match df with
  | [] => KeyError
  | _ => Drawn (map Conv.value df)
  end.

(** Lines 762 and 763, the first statements that read [data]:
    [data['dq']['value']], then [data['dh']['value']]. *)
Definition read_values (data : result) : shown (list float * list float) :=
  then_ (value_column (dq data)) (fun q =>
  then_ (value_column (dh data)) (fun h => Drawn (q, h))).

(** The truth value of [data['fail_t']] in [if data['fail_t']:]: [None] is
    false, and a float is false when it equals zero. *)
Definition truthy (x : option float) : bool :=
  match x with
  | Some t => negb (Float64.eqb t zero)
  | None => false
  end.

(** [str(c)] of [data['fail_c']] inside the f-string. *)
Definition str_of (c : option string) : string := default "None"%string c.

(** The vertical line of a crash, when one is drawn: its [x] and its
    [annotation_text]. *)
Definition fail_line (data : result) : shown (option (option float * string)) :=
  then_ (read_values data) (fun _ =>
  Drawn (if truthy (fail_t data)
         then Some (fail_t data, ("FAIL: " ++ str_of (fail_c data))%string)
         else None)).

(** [Series.unique()]: every value once, in the order of first appearance. *)
Fixpoint unique (col : list string) : list string :=
  match col with
  | [] => []
  | c :: col' => c :: List.filter (fun x => negb (String.eqb x c)) (unique col')
  end.

(** [sorted] on a list of [str]: a stable sort that compares with [<]. *)
Fixpoint insort (x : string) (l : list string) : list string :=
  match l with
  | [] => [x]
  | y :: l' => if String.ltb y x then y :: insort x l' else x :: l
  end.

Definition sorted (l : list string) : list string := foldr insort [] l.

(** [unique_codes = sorted(df_w['code'].unique())] *)
Definition unique_codes (df_w : list Warn.row) : list string :=
  sorted (unique (map (fun w => Warn.code (Warn.data w)) df_w)).

Definition enumerate {A} (l : list A) : list (nat * A) :=
  zip (List.seq 0%nat (length l)) l.

(** [{code: i for i, code in enumerate(unique_codes)}] *)
Definition code_to_idx (unique_codes : list string) : gmap string nat :=
  fold_left (fun d ic => <[ic.2 := ic.1]> d) (enumerate unique_codes) ∅.

(** [[WARNING_DESCRIPTIONS.get(c, "N/A") for c in unique_codes]], inside
    [if not data['warnings'].empty:]. *)
Definition heatmap_notes (d : gmap string string) (data : result)
    : shown (option (list string)) :=
  then_ (read_values data) (fun _ =>
  Drawn (match warnings data with
         | [] => None
         | df_w => Some (map (fun c => default "N/A"%string (d !! c)) (unique_codes df_w))
         end)).

(** [df_w['code'].map(code_to_idx)]: the row of the heat map a diagnostic
    row is counted in; a code that is no key maps to NaN, here [None]. *)
Definition code_bins (df_w : list Warn.row) : list (option nat) :=
  map (fun w => code_to_idx (unique_codes df_w) !! Warn.code (Warn.data w)) df_w.

(** [df_w['code'].map(lambda x: WARNING_DESCRIPTIONS.get(x, "N/A"))], the
    column that replaces [note] before the bar chart is drawn, inside the
    same [if]. *)
Definition bar_notes (d : gmap string string) (data : result)
    : shown (option (list string)) :=
  then_ (read_values data) (fun _ =>
  Drawn (match warnings data with
         | [] => None
         | df_w => Some (map (fun w => default "N/A"%string (d !! Warn.code (Warn.data w))) df_w)
         end)).

(** The literal [0.02]. *)
Definition two_percent : float := of_decimal false 2 (-2).

(** [buffer = duration * 0.02 if duration > 0 else 1.0] with
    [duration = data['end'] - data['start']]. *)
Definition axis_buffer (data : result) : shown float :=
  then_ (read_values data) (fun _ =>
  let duration := SFsub prec emax (end_ data) (start data) in
  Drawn (if Float64.gtb duration zero then SFmul prec emax duration two_percent else one)).

(** [range=[data['start'] - buffer, data['end'] + buffer]] *)
Definition x_range (data : result) : shown (float * float) :=
  then_ (axis_buffer data) (fun buffer =>
  Drawn (SFsub prec emax (start data) buffer, Float64.add (end_ data) buffer)).

(** The order [<] of [str]. *)
Definition str_lt (a b : string) : Prop := String.ltb a b = true.

(** ** The call in a store of objects *)

(** The objects a call works with live in a store: the module namespace
    binds names to addresses, an address holds an object, and a new object
    takes the next free address.  A computation takes a store and gives an
    outcome and the store it leaves, or nothing where the model has no rule
    (a name that is not bound, an object of another kind). *)
Module Store.

Inductive obj :=
| Dict (d : gmap string string)
| ConvList (l : list Conv.row)
| WarnList (l : list Warn.entry)
| FloatList (l : list float).

Record store := { names : gmap string nat; objects : list obj }.

Definition M (A : Type) : Type := store -> option (py A * store).

Definition ret {A} (a : A) : M A := fun σ => Some (Ok a, σ).

Definition bind {A B} (m : M A) (k : A -> M B) : M B :=
  fun σ =>
    match m σ with
    | Some (Ok a, σ') => k a σ'
    | Some (Raise e, σ') => Some (Raise e, σ')
    | None => None
    end.

(** A step that does not touch the store. *)
Definition lift {A} (x : py A) : M A := fun σ => Some (x, σ).

Definition undefined {A} : M A := fun _ => None.

(** A list display [[]]: a new object. *)
Definition new (o : obj) : M nat :=
  fun σ => Some (Ok (length (objects σ)),
                 {| names := names σ; objects := objects σ ++ [o] |}).

(** The address a global name is bound to. *)
Definition global (x : string) : M nat :=
  fun σ =>
    match names σ !! x with
    | Some a => Some (Ok a, σ)
    | None => None
    end.

Definition load (a : nat) : M obj :=
  fun σ =>
    match objects σ !! a with
    | Some o => Some (Ok o, σ)
    | None => None
    end.

(** The object at an address is replaced: a mutation in place. *)
Definition store_at (a : nat) (o : obj) : M unit :=
  fun σ =>
    match objects σ !! a with
    | Some _ => Some (Ok tt, {| names := names σ; objects := <[a := o]> (objects σ) |})
    | None => None
    end.

End Store.

Notation "'let+' x ':=' m 'in' k" := (Store.bind m (fun x => k))
  (at level 10, x pattern, m at level 100, k at level 200).

Definition conv_rows (a : nat) : Store.M (list Conv.row) :=
  let+ o := Store.load a in
  match o with
  | Store.ConvList l => Store.ret l
  | _ => Store.undefined
  end.

Definition warn_rows (a : nat) : Store.M (list Warn.entry) :=
  let+ o := Store.load a in
  match o with
  | Store.WarnList l => Store.ret l
  | _ => Store.undefined
  end.

Definition float_items (a : nat) : Store.M (list float) :=
  let+ o := Store.load a in
  match o with
  | Store.FloatList l => Store.ret l
  | _ => Store.undefined
  end.

Definition dict_at (a : nat) : Store.M (gmap string string) :=
  let+ o := Store.load a in
  match o with
  | Store.Dict d => Store.ret d
  | _ => Store.undefined
  end.

(** [list.append] on the list at an address. *)
Definition append_conv (a : nat) (row : Conv.row) : Store.M unit :=
  let+ l := conv_rows a in Store.store_at a (Store.ConvList (l ++ [row])).

Definition append_warn (a : nat) (row : Warn.entry) : Store.M unit :=
  let+ l := warn_rows a in Store.store_at a (Store.WarnList (l ++ [row])).

Definition append_float (a : nat) (x : float) : Store.M unit :=
  let+ l := float_items a in Store.store_at a (Store.FloatList (l ++ [x])).

(** Section B.1, on the lists at the addresses [dq_data] and [dh_data]. *)
Fixpoint conv_loop_in_store (ms : list Match) (dq_data dh_data : nat) : Store.M unit :=
  match ms with
  | [] => Store.ret tt
  | m :: ms' =>
      let+ t := Store.lift (PyFloat.of_group (group m 1)) in
      let+ v2 := Store.lift (PyFloat.of_group (group m 2)) in
      let+ n3 := Store.lift (Utf8.decode_group (group m 3)) in
      let+ _ := append_conv dq_data
                  {| Conv.time := t; Conv.value := v2; Conv.node := n3 |} in
      let+ v4 := Store.lift (PyFloat.of_group (group m 4)) in
      let+ n5 := Store.lift (Utf8.decode_group (group m 5)) in
      let+ _ := append_conv dh_data
                  {| Conv.time := t; Conv.value := v4; Conv.node := n5 |} in
      conv_loop_in_store ms' dq_data dh_data
  end.

(** Section B.2, on the list at the address [warn_data]; [last_err_t] and
    [last_err_c] are local names, bound anew at an ERROR row. *)
Fixpoint warn_loop_in_store (ms : list Match) (warn_data : nat)
    (last_err_t : option float) (last_err_c : option string)
    : Store.M (option float * option string) :=
  match ms with
  | [] => Store.ret (last_err_t, last_err_c)
  | m :: ms' =>
      let+ t := Store.lift (PyFloat.of_group (group m 1)) in
      let+ g2 := Store.lift (Utf8.decode_group (group m 2)) in
      let etype := Utf8.upper g2 in
      let+ ecode := Store.lift (Utf8.decode_group (group m 3)) in
      let+ label := Store.lift (Utf8.decode_group (group m 4)) in
      let+ _ := append_warn warn_data
                  {| Warn.time := t; Warn.type := etype;
                     Warn.code := ecode; Warn.label := label |} in
      let is_error := String.eqb etype "ERROR" in
      warn_loop_in_store ms' warn_data
        (if is_error then Some t else last_err_t)
        (if is_error then Some ecode else last_err_c)
  end.

(** Section D: the list [all_timestamps] is a new object of the call. *)
Definition collect_timestamps (dq_data : list Conv.row) (warn_data : list Warn.entry)
    : Store.M (list float) :=
  let+ all_timestamps := Store.new (Store.FloatList []) in
  let+ _ :=
    match head dq_data, last dq_data with
    | Some a, Some z =>
        let+ _ := append_float all_timestamps (Conv.time a) in
        append_float all_timestamps (Conv.time z)
    | _, _ => Store.ret tt
    end in
  let+ _ :=
    match head warn_data, last warn_data with
    | Some a, Some z =>
        let+ _ := append_float all_timestamps (Warn.time a) in
        append_float all_timestamps (Warn.time z)
    | _, _ => Store.ret tt
    end in
  float_items all_timestamps.

Definition infer_times_in_store (start_time end_time : float)
    (dq_data : list Conv.row) (warn_data : list Warn.entry) : Store.M (float * float) :=
  if Float64.eqb start_time zero || Float64.eqb end_time zero then
    let+ ts := collect_timestamps dq_data warn_data in
    match ts with
    | [] => Store.ret (start_time, end_time)
    | x :: xs =>
        Store.ret (if Float64.eqb start_time zero then py_min x xs else start_time,
                   if Float64.eqb end_time zero then py_max x xs else end_time)
    end
  else Store.ret (start_time, end_time).

(** Section E: the global name [WARNING_DESCRIPTIONS] is looked up, and the
    dict it is bound to is read, when [df_w] is not empty. *)
Definition notes_in_store (warn_data : list Warn.entry) : Store.M (list Warn.row) :=
  match warn_data with
  | [] => Store.ret []
  | _ =>
      let+ a := Store.global "WARNING_DESCRIPTIONS" in
      let+ d := dict_at a in
      Store.ret (with_notes d warn_data)
  end.

(** The function as a computation on the store: its three lists are new
    objects, and every row is appended to its list in place. *)
Definition extract_in_store (zzd_bytes : bytes) : Store.M result :=
  let+ start_time := Store.lift (marker_time (start_match zzd_bytes)) in
  let+ end_time := Store.lift (marker_time (end_match zzd_bytes)) in
  let+ dq_data := Store.new (Store.ConvList []) in
  let+ dh_data := Store.new (Store.ConvList []) in
  let+ warn_data := Store.new (Store.WarnList []) in
  let+ _ := conv_loop_in_store (finditer RE_CONV zzd_bytes) dq_data dh_data in
  let+ last_err := warn_loop_in_store (finditer RE_WARN zzd_bytes) warn_data None None in
  let is_fatal := is_fatal zzd_bytes in
  let+ dq_rows := conv_rows dq_data in
  let+ dh_rows := conv_rows dh_data in
  let+ w_rows := warn_rows warn_data in
  let+ times := infer_times_in_store start_time end_time dq_rows w_rows in
  let end_time := force_duration times.1 times.2 in
  let+ df_w := notes_in_store w_rows in
  Store.ret {| dq := dq_rows;
               dh := dh_rows;
               warnings := df_w;
               start := times.1;
               end_ := end_time;
               fail_t := if is_fatal then last_err.1 else None;
               fail_c := if is_fatal then last_err.2 else None |}.

(** A store in which the global name is bound to the dict of the module. *)
Definition module_store : Store.store :=
  {| Store.names := {[ "WARNING_DESCRIPTIONS"%string := 0%nat ]};
     Store.objects := [Store.Dict WARNING_DESCRIPTIONS] |}.

(** * Properties *)

(** ** The matcher finds only what the pattern denotes *)

Section RepSound.
Context {R : Type} (p : byte -> bool).

Lemma rep_word_nil hi : rep_word p 0 hi [].
Proof.
  split; [constructor|]. split; [reflexivity|]. intros h _. simpl. lia.
Qed.

Lemma rep_word_cons lo hi x w :
  more hi && p x = true ->
  rep_word p (pred lo) (option_map pred hi) w ->
  rep_word p lo hi (x :: w).
Proof.
  intros Hx (Hall & Hlo & Hhi). apply andb_true_iff in Hx as [Hm Hp].
  split; [constructor; assumption|]. split.
  - simpl. lia.
  - intros h ->. simpl in *. destruct h as [|h]; [discriminate|].
    specialize (Hhi h eq_refl). lia.
Qed.

Lemma stop_sound lo s (k : bytes -> option R) r :
  stop lo s k = Some r -> lo = 0%nat /\ k s = Some r.
Proof. destruct lo; simpl; [auto | discriminate]. Qed.

Lemma rep_greedy_sound s : forall lo hi (k : bytes -> option R) r,
  rep_greedy p lo hi s k = Some r ->
  exists w s', s = w ++ s' /\ rep_word p lo hi w /\ k s' = Some r.
Proof.
  induction s as [|x s IH]; intros lo hi k r H; simpl in H.
  - apply stop_sound in H as [-> H]. exists [], []. auto using rep_word_nil.
  - destruct (more hi && p x) eqn:Hx.
    + destruct (rep_greedy p (pred lo) (option_map pred hi) s k) eqn:Hrec.
      * injection H as <-. apply IH in Hrec as (w & s' & -> & Hw & Hk).
        exists (x :: w), s'. auto using rep_word_cons.
      * apply stop_sound in H as [-> H]. exists [], (x :: s).
        auto using rep_word_nil.
    + apply stop_sound in H as [-> H]. exists [], (x :: s).
      auto using rep_word_nil.
Qed.

Lemma rep_lazy_sound s : forall lo hi (k : bytes -> option R) r,
  rep_lazy p lo hi s k = Some r ->
  exists w s', s = w ++ s' /\ rep_word p lo hi w /\ k s' = Some r.
Proof.
  induction s as [|x s IH]; intros lo hi k r H; simpl in H.
  - destruct (stop lo [] k) eqn:Hs; [|discriminate].
    injection H as <-. apply stop_sound in Hs as [-> Hs].
    exists [], []. auto using rep_word_nil.
  - destruct (stop lo (x :: s) k) eqn:Hs.
    + injection H as <-. apply stop_sound in Hs as [-> Hs].
      exists [], (x :: s). auto using rep_word_nil.
    + destruct (more hi && p x) eqn:Hx; [|discriminate].
      apply IH in H as (w & s' & -> & Hw & Hk).
      exists (x :: w), s'. auto using rep_word_cons.
Qed.
End RepSound.

Lemma exec_sound {R} fl r : forall s g (k : bytes -> captures -> option R) x,
  exec fl r s g k = Some x ->
  exists w s' g', s = w ++ s' /\ matches fl r w g g' /\ k s' g' = Some x.
Proof.
  induction r as [|c|c lo hi greedy|r1 IH1 r2 IH2|r1 IH1 r2 IH2|n r IH];
    intros s g k x H; simpl in H.
  - exists [], s, g. split; [reflexivity|]. split; [constructor | assumption].
  - destruct s as [|b s]; [discriminate|].
    destruct (accepts fl c b) eqn:Hb; [|discriminate].
    exists [b], s, g. split; [reflexivity|]. split; [by constructor | assumption].
  - assert (exists w s', s = w ++ s' /\ rep_word (accepts fl c) lo hi w /\
                         k s' g = Some x) as (w & s' & -> & (Ha & Hlo & Hhi) & Hk).
    { destruct greedy; [eapply rep_greedy_sound | eapply rep_lazy_sound]; exact H. }
    exists w, s', g. split; [reflexivity|]. split; [by constructor | assumption].
  - apply IH1 in H as (w1 & s1 & g1 & -> & M1 & H).
    apply IH2 in H as (w2 & s2 & g2 & -> & M2 & H).
    exists (w1 ++ w2), s2, g2. rewrite <- app_assoc.
    split; [reflexivity|]. split; [by econstructor | assumption].
  - destruct (exec fl r1 s g k) eqn:H1.
    + injection H as <-. apply IH1 in H1 as (w & s' & g' & -> & M & H).
      exists w, s', g'. split; [reflexivity|]. split; [by apply matches_alt_l | assumption].
    + apply IH2 in H as (w & s' & g' & -> & M & H).
      exists w, s', g'. split; [reflexivity|]. split; [by apply matches_alt_r | assumption].
  - apply IH in H as (w & s' & g' & -> & M & H).
    exists w, s', (<[n := w]> g'). split; [reflexivity|].
    split; [by constructor|].
    rewrite length_app in H.
    replace (length w + length s' - length s')%nat with (length w) in H by lia.
    by rewrite take_app_length in H.
Qed.

Lemma match_here_sound p s m :
  match_here p s = Some m ->
  exists w, s = w ++ rest m /\ matches (fl p) (re p) w ∅ (groups m).
Proof.
  unfold match_here. intros H.
  apply exec_sound in H as (w & s' & g' & -> & M & H).
  injection H as <-. simpl. eauto.
Qed.

Lemma search_sound p s m : search p s = Some m -> match_of p s m.
Proof.
  induction s as [|x s IH]; simpl; intros H.
  - destruct (match_here p []) eqn:Hm; [|discriminate]. injection H as ->.
    apply match_here_sound in Hm as (w & Hs & M). exists [], w. auto.
  - destruct (match_here p (x :: s)) eqn:Hm.
    + injection H as ->. apply match_here_sound in Hm as (w & Hs & M).
      exists [], w. auto.
    + apply IH in H as (pre & w & -> & M). exists (x :: pre), w. auto.
Qed.

Lemma finditer_from_sound p s : forall skip m,
  m ∈ finditer_from p skip s -> match_of p s m.
Proof.
  assert (Hcons : forall (x : byte) t m, match_of p t m -> match_of p (x :: t) m).
  { intros x t m (pre & w & -> & M). exists (x :: pre), w. auto. }
  induction s as [|x s IH]; intros skip m Hin; destruct skip as [|n]; simpl in Hin.
  - destruct (match_here p []) eqn:Hm; [|by apply elem_of_nil in Hin].
    apply list_elem_of_singleton in Hin as ->.
    apply match_here_sound in Hm as (w & Hs & M). exists [], w. auto.
  - by apply elem_of_nil in Hin.
  - destruct (match_here p (x :: s)) eqn:Hm.
    + apply elem_of_cons in Hin as [->|Hin].
      * apply match_here_sound in Hm as (w & Hs & M). exists [], w. auto.
      * eauto.
    + eauto.
  - eauto.
Qed.

Lemma finditer_sound p s m : m ∈ finditer p s -> match_of p s m.
Proof. apply finditer_from_sound. Qed.

(** ** Inversion of [matches] along the syntax of a pattern *)

Lemma matches_seq_nil fl w g g' :
  matches fl (seq []) w g g' -> w = [] /\ g' = g.
Proof. inversion 1; auto. Qed.

Lemma matches_seq_cons fl r rs w g g'' :
  matches fl (seq (r :: rs)) w g g'' ->
  exists w1 w2 g', w = w1 ++ w2 /\ matches fl r w1 g g' /\ matches fl (seq rs) w2 g' g''.
Proof. simpl. inversion 1; subst. eauto 8. Qed.

Lemma matches_chr_inv fl c w g g' :
  matches fl (Chr c) w g g' -> exists x, w = [x] /\ accepts fl c x = true /\ g' = g.
Proof. inversion 1; subst. eauto. Qed.

Lemma matches_rep_inv fl c lo hi greedy w g g' :
  matches fl (Rep c lo hi greedy) w g g' ->
  g' = g /\ rep_word (accepts fl c) lo hi w.
Proof. inversion 1; subst. split; [reflexivity|]. by repeat split. Qed.

Lemma matches_group_inv fl n r w g g' :
  matches fl (Group n r) w g g' ->
  exists g0, matches fl r w g g0 /\ g' = <[n := w]> g0.
Proof. inversion 1; subst. eauto. Qed.

Lemma matches_alt_inv fl r1 r2 w g g' :
  matches fl (Alt r1 r2) w g g' -> matches fl r1 w g g' \/ matches fl r2 w g g'.
Proof. inversion 1; subst; auto. Qed.

Lemma matches_lit fl s w g g' :
  matches fl (lit s) w g g' -> g' = g /\ lit_word fl s w.
Proof.
  unfold lit, lit_word. generalize (b_ s) as l. intros l; revert w g.
  induction l as [|b l IH]; intros w g M.
  - apply matches_seq_nil in M as [-> ->]. split; [reflexivity | constructor].
  - apply matches_seq_cons in M as (w1 & w2 & g1 & -> & M1 & M2).
    apply matches_chr_inv in M1 as (x & -> & Hx & ->).
    apply IH in M2 as [-> H2]. split; [reflexivity|]. by constructor.
Qed.
(** ** Binary64: signs and NaN *)

Lemma nonneg_has_sign x : nonneg x <-> has_sign false x.
Proof. by destruct x. Qed.

Lemma iter_pos_invariant {A} (P : A -> Prop) (f : A -> A) :
  (forall x, P x -> P (f x)) -> forall n x, P x -> P (SpecFloat.iter_pos f n x).
Proof.
  intros Hf. induction n as [n IH|n IH|]; intros x Hx; simpl; auto.
Qed.

Lemma shr_1_nonneg mrs : 0 <= shr_m mrs -> 0 <= shr_m (shr_1 mrs).
Proof.
  destruct mrs as [m r s]. destruct m as [|[p|p|]|[p|p|]]; simpl; lia.
Qed.

Lemma shr_nonneg mrs e n : 0 <= shr_m mrs -> 0 <= shr_m (shr mrs e n).1.
Proof.
  intros H. destruct n as [|p|p]; simpl; try assumption.
  by apply (iter_pos_invariant (fun mrs => 0 <= shr_m mrs)), H; apply shr_1_nonneg.
Qed.

Lemma shr_m_of_loc m l : shr_m (shr_record_of_loc m l) = m.
Proof. by destruct l as [|[]]. Qed.

Lemma shr_fexp_nonneg m e l :
  0 <= m -> 0 <= shr_m (shr_fexp prec emax m e l).1.
Proof.
  intros H. unfold shr_fexp. apply shr_nonneg. by rewrite shr_m_of_loc.
Qed.

Lemma round_nearest_even_nonneg m l : 0 <= m -> 0 <= round_nearest_even m l.
Proof.
  intros H. destruct l as [|[]]; simpl; try lia. destruct (Z.even m); lia.
Qed.

Lemma binary_round_aux_sign sx mx ex lx :
  0 <= mx -> has_sign sx (binary_round_aux prec emax sx mx ex lx).
Proof.
  intros H. unfold binary_round_aux.
  pose proof (shr_fexp_nonneg mx ex lx H) as H1.
  destruct (shr_fexp prec emax mx ex lx) as [mrs' e']. simpl in H1.
  pose proof (shr_fexp_nonneg _ e' loc_Exact
                (round_nearest_even_nonneg _ (loc_of_shr_record mrs') H1)) as H2.
  destruct (shr_fexp prec emax _ e' loc_Exact) as [mrs'' e'']. simpl in H2.
  destruct (shr_m mrs''); [reflexivity| |lia].
  by destruct (e'' <=? emax - prec).
Qed.

Lemma binary_round_sign sx mx ex : has_sign sx (binary_round prec emax sx mx ex).
Proof.
  unfold binary_round. destruct shl_align as [mz ez].
  by apply binary_round_aux_sign.
Qed.

Lemma SFdiv_finite_sign sx mx ex my ey :
  has_sign sx (SFdiv prec emax (S754_finite sx mx ex) (S754_finite false my ey)).
Proof.
  simpl. unfold SFdiv_core_binary.
  set (s := _ - _ - _).
  set (m' := match s with Z0 => _ | Zpos _ => _ | Zneg _ => _ end).
  assert (0 <= m') as Hm'.
  { subst m'. destruct s; [lia | | lia]. apply Z.shiftl_nonneg. lia. }
  pose proof (Z.div_pos m' (Z.pos my) Hm' ltac:(lia)) as Hq.
  unfold Z.div in Hq. destruct (Z.div_eucl m' (Z.pos my)) as [q r]. simpl in Hq.
  rewrite xorb_false_r. by apply binary_round_aux_sign.
Qed.

Lemma of_decimal_sign neg n e10 : has_sign neg (of_decimal neg n e10).
Proof.
  unfold of_decimal. destruct n as [|p]; [reflexivity|].
  destruct (0 <=? e10); [apply binary_round_sign | apply SFdiv_finite_sign].
Qed.

(** Adding [1.0] to a number that is neither negative nor NaN gives one. *)
Lemma add_one_nonneg x : nonneg x -> nonneg (add x one).
Proof.
  destruct x as [s|s| |s m e]; simpl; try done; intros ->; try done.
  unfold add, one. cbn [SFadd]. 
  destruct (shl_align m e _) as [a ?], (shl_align 4503599627370496 _ _) as [b ?].
  simpl. apply nonneg_has_sign, binary_round_sign.
Qed.

Lemma zero_leb_nonneg x : nonneg x -> Float64.geb x zero = true.
Proof. destruct x as [s|s| |s m e]; simpl; try done; by intros ->. Qed.

(** ** Bytes *)

Lemma ord_inj a b : ord a = ord b -> a = b.
Proof.
  unfold ord. intros H.
  assert (Some a = Some b) as [= ->]; [|reflexivity].
  by rewrite <- !Byte.of_to_N, H.
Qed.

Lemma byte_eqb_eq a b : byte_eqb a b = true <-> a = b.
Proof.
  unfold byte_eqb. rewrite N.eqb_eq. split; [apply ord_inj | by intros ->].
Qed.

Lemma accepts_lit_dot fl x : accepts fl (Lit ".") x = true -> x = "."%byte.
Proof.
  unfold accepts, eqb_nocase, lower_code, is_upper, between.
  intros H. apply ord_inj. change (ord ".") with 46%N.
  destruct (IGNORECASE fl).
  - change (if _ && _ then _ else ord ".")%N with 46%N in H.
    destruct (_ && _)%N eqn:E in H; [apply andb_true_iff in E as [E1 E2]|];
      repeat match goal with H : (_ <=? _)%N = true |- _ => apply N.leb_le in H
                        | H : (_ =? _)%N = true |- _ => apply N.eqb_eq in H end; lia.
  - by apply byte_eqb_eq in H as ->.
Qed.

Lemma accepts_lit_newline fl x : accepts fl (Lit newline) x = true -> x = newline.
Proof.
  unfold accepts, eqb_nocase, lower_code, is_upper, between.
  intros H. apply ord_inj. change (ord newline) with 10%N.
  destruct (IGNORECASE fl).
  - change (if _ && _ then _ else ord newline)%N with 10%N in H.
    destruct (_ && _)%N eqn:E in H; [apply andb_true_iff in E as [E1 E2]|];
      repeat match goal with H : (_ <=? _)%N = true |- _ => apply N.leb_le in H
                        | H : (_ =? _)%N = true |- _ => apply N.eqb_eq in H end; lia.
  - by apply byte_eqb_eq in H as ->.
Qed.

(** ** Time tokens *)

Lemma matches_number fl w g g' :
  matches fl number w g g' -> g' = g /\ number_token w.
Proof.
  unfold number, plus, opt, star. intros M.
  apply matches_seq_cons in M as (d1 & w1 & g1 & -> & M1 & M).
  apply matches_seq_cons in M as (dot & w2 & g2 & -> & M2 & M).
  apply matches_seq_cons in M as (d2 & w3 & g3 & -> & M3 & M).
  apply matches_seq_nil in M as [-> ->].
  apply matches_rep_inv in M1 as [-> (H1 & L1 & _)].
  apply matches_rep_inv in M2 as [-> (H2 & _ & L2)].
  apply matches_rep_inv in M3 as [-> (H3 & _ & _)].
  split; [reflexivity|]. rewrite app_nil_r. constructor; try assumption.
  - intros ->. simpl in L1. lia.
  - specialize (L2 1%nat eq_refl). destruct dot as [|x [|y dot]]; simpl in L2; try lia.
    + by left.
    + right. apply Forall_cons in H2 as [H2 _]. by apply accepts_lit_dot in H2 as ->.
Qed.

(** ** [float()] accepts every time token *)

Lemma is_digit_facts x :
  is_digit x = true ->
  is_space x = false /\ byte_eqb x "_" = false /\ byte_eqb x "-" = false /\
  byte_eqb x "+" = false /\ byte_eqb x "." = false /\ eqb_nocase x "e" = false.
Proof.
  unfold is_digit, is_space, byte_eqb, eqb_nocase, lower_code, is_upper, between.
  change (ord "_") with 95%N. change (ord "-") with 45%N.
  change (ord "+") with 43%N. change (ord ".") with 46%N.
  change (ord "e") with 101%N. cbn [N.leb andb].
  intros H. apply andb_true_iff in H as [H1 H2].
  apply N.leb_le in H1, H2.
  assert ((65 <=? ord x)%N = false) as -> by (apply N.leb_gt; lia).
  cbn [andb]. change ((65 <=? 101)%N && (101 <=? 90)%N) with false. cbv iota.
  repeat split; try (apply N.eqb_neq; lia).
  apply orb_false_iff. split; [apply N.eqb_neq; lia|].
  apply andb_false_iff. right. apply N.leb_gt. lia.
Qed.

Lemma lstrip_plain w : Forall plain w -> PyFloat.lstrip w = w.
Proof. destruct 1 as [|x w [Hx _] _]; simpl; [reflexivity | by rewrite Hx]. Qed.

Lemma strip_plain w : Forall plain w -> PyFloat.strip w = w.
Proof.
  intros H. unfold PyFloat.strip. rewrite (lstrip_plain w H).
  rewrite lstrip_plain; [apply rev_involutive|].
  by apply List.Forall_rev.
Qed.

Lemma drop_underscores_plain w : forall prev,
  Forall plain w ->
  match prev with Some p => byte_eqb p "_" = false | None => True end ->
  PyFloat.drop_underscores prev w = Some w.
Proof.
  induction w as [|x w IH]; intros prev Hw Hp; simpl.
  - destruct prev as [p|]; [by rewrite Hp | reflexivity].
  - apply Forall_cons in Hw as [[_ Hx] Hw]. rewrite Hx.
    replace (match prev with Some p => byte_eqb p "_" | None => false end)
      with false by (destruct prev; auto).
    simpl. by rewrite IH.
Qed.

Lemma span_digits_app d r :
  digits d ->
  match r with x :: _ => is_digit x = false | [] => True end ->
  PyFloat.span_digits (d ++ r) = (d, r).
Proof.
  intros Hd Hr. induction Hd as [|x d Hx _ IH].
  - destruct r as [|x r]; simpl; [reflexivity | by rewrite Hr].
  - rewrite <- app_comm_cons. cbn [PyFloat.span_digits]. by rewrite Hx, IH.
Qed.

Lemma of_bytes_number w :
  number_token w ->
  exists n e10, PyFloat.of_bytes w = Ok (of_decimal false n e10).
Proof.
  intros [d1 dot d2 H1 Hne Hdot H2].
  assert (Hplain : Forall plain (d1 ++ dot ++ d2)).
  { rewrite !Forall_app. repeat split.
    - eapply Forall_impl; [exact H1|]. intros x Hx. by apply is_digit_facts in Hx as (? & ? & _).
    - destruct Hdot as [-> | ->]; by repeat constructor.
    - eapply Forall_impl; [exact H2|]. intros x Hx. by apply is_digit_facts in Hx as (? & ? & _). }
  unfold PyFloat.of_bytes. rewrite strip_plain, drop_underscores_plain by done.
  unfold PyFloat.parse_literal.
  assert (PyFloat.take_sign (d1 ++ dot ++ d2) = (false, d1 ++ dot ++ d2)) as ->.
  { destruct H1 as [|x d1 Hx _]; [done|]. simpl.
    apply is_digit_facts in Hx as (_ & _ & -> & -> & _). reflexivity. }
  unfold PyFloat.parse_number.
  destruct Hdot as [-> | ->]; simpl app.
  - rewrite <- (app_nil_r (d1 ++ d2)).
    rewrite (span_digits_app (d1 ++ d2) []) by (by try apply Forall_app).
    rewrite !app_nil_r.
    destruct (d1 ++ d2) eqn:E; [by apply app_eq_nil in E as [-> _]|].
    simpl. eauto.
  - rewrite (span_digits_app d1 ("."%byte :: d2)) by done.
    change (byte_eqb "." ".") with true. cbv iota.
    pose proof (span_digits_app d2 [] H2 I) as E2. rewrite app_nil_r in E2.
    rewrite E2.
    destruct (d1 ++ d2) eqn:E; [by apply app_eq_nil in E as [-> _]|].
    simpl. eauto.
Qed.

Lemma of_bytes_number_nonneg w :
  number_token w -> exists x, PyFloat.of_bytes w = Ok x /\ nonneg x.
Proof.
  intros H. apply of_bytes_number in H as (n & e10 & ->).
  eexists; split; [reflexivity|]. apply nonneg_has_sign, of_decimal_sign.
Qed.

(** ** The shape of what each pattern matches *)

Lemma rep_word_blanks fl hi w : rep_word (accepts fl Space) 1 hi w -> blanks w.
Proof. intros (H & L & _). split; [exact H|]. intros ->. simpl in L. lia. Qed.

Lemma rep_word_token fl hi w : rep_word (accepts fl NonSpace) 1 hi w -> token w.
Proof.
  intros (H & L & _). split.
  - eapply Forall_impl; [exact H|]. intros x Hx. by apply negb_true_iff in Hx.
  - intros ->. simpl in L. lia.
Qed.

Lemma rep_word_nonempty p hi w : rep_word p 1 hi w -> w <> [].
Proof. intros (_ & L & _) ->. simpl in L. lia. Qed.

(** Splits a hypothesis on a sequence into one hypothesis per item. *)
Ltac split_seq M :=
  repeat (let w := fresh "w" in let g := fresh "g" in let Mi := fresh "M" in
          apply matches_seq_cons in M as (w & ? & g & -> & Mi & M));
  apply matches_seq_nil in M as [-> ->].

Ltac invert_items :=
  repeat match goal with
    | M : matches _ (lit _) _ _ _ |- _ => apply matches_lit in M as [-> M]
    | M : matches _ (Group _ number) _ _ _ |- _ =>
        let g := fresh "g" in
        apply matches_group_inv in M as (g & M & ->);
        apply matches_number in M as [-> M]
    | M : matches _ (Group _ (Rep _ _ _ _)) _ _ _ |- _ =>
        let g := fresh "g" in
        apply matches_group_inv in M as (g & M & ->);
        apply matches_rep_inv in M as [-> M]
    | M : matches _ (Rep _ _ _ _) _ _ _ |- _ => apply matches_rep_inv in M as [-> M]
    | M : matches _ (Chr (Lit newline)) _ _ _ |- _ =>
        let x := fresh "x" in
        apply matches_chr_inv in M as (x & -> & M & ->);
        apply accepts_lit_newline in M as ->
    end.

Lemma RE_START_shape s m :
  match_of RE_START s m ->
  exists t, group m 1 = Some t /\ number_token t.
Proof.
  destruct m as [gm rm]. intros (pre & w & -> & M).
  unfold RE_START in M. cbn [re fl groups] in M.
  split_seq M. unfold lazy_star in *. invert_items.
  eexists. split; [unfold group; by simplify_map_eq | assumption].
Qed.

Lemma RE_END_shape s m :
  match_of RE_END s m ->
  exists t, group m 1 = Some t /\ number_token t.
Proof.
  destruct m as [gm rm]. intros (pre & w & -> & M).
  unfold RE_END in M. cbn [re fl groups] in M.
  split_seq M. unfold lazy_star in *. invert_items.
  eexists. split; [unfold group; by simplify_map_eq | assumption].
Qed.

Lemma RE_CONV_shape w g :
  matches (fl RE_CONV) (re RE_CONV) w ∅ g -> conv_block (fl RE_CONV) w g.
Proof.
  intros M. unfold RE_CONV in M. cbn [re fl] in M.
  split_seq M. unfold lazy_star, plus, star in *. invert_items.
  rewrite app_nil_r.
  constructor; eauto using rep_word_blanks, rep_word_token.
Qed.

Lemma matches_severity fl n w g g' :
  matches fl (Group n (Alt (lit "warning") (Alt (lit "note") (lit "error")))) w g g' ->
  g' = <[n := w]> g /\
  (lit_word fl "warning" w \/ lit_word fl "note" w \/ lit_word fl "error" w).
Proof.
  intros M. apply matches_group_inv in M as (g0 & M & ->).
  apply matches_alt_inv in M as [M|M]; [|apply matches_alt_inv in M as [M|M]];
    apply matches_lit in M as [-> M]; auto.
Qed.

Lemma RE_WARN_shape w g :
  matches (fl RE_WARN) (re RE_WARN) w ∅ g -> warn_unit (fl RE_WARN) w g.
Proof.
  intros M. unfold RE_WARN in M. cbn [re fl] in M.
  split_seq M. unfold lazy_star, plus, star in *. invert_items.
  match goal with M : matches _ (Group 2 _) _ _ _ |- _ =>
    apply matches_severity in M as [-> M] end.
  invert_items. rewrite app_nil_r.
  constructor; eauto using rep_word_blanks, rep_word_token, rep_word_nonempty.
  match goal with M : rep_word (accepts _ Word) _ _ _ |- _ => by destruct M end.
Qed.

(** ** The order of binary64 numbers other than NaN *)

Ltac compare_cases :=
  repeat match goal with
    | |- context [Z.compare ?a ?b] => destruct (Z.compare_spec a b); subst
    | H : context [Z.compare ?a ?b] |- _ => destruct (Z.compare_spec a b); subst
    | |- context [Pos.compare_cont Eq ?a ?b] =>
        change (Pos.compare_cont Eq a b) with (Pos.compare a b);
        destruct (Pos.compare_spec a b); subst
    | H : context [Pos.compare_cont Eq ?a ?b] |- _ =>
        change (Pos.compare_cont Eq a b) with (Pos.compare a b) in H;
        destruct (Pos.compare_spec a b); subst
    end.

Lemma leb_total x y :
  is_nan x = false -> is_nan y = false ->
  Float64.ltb y x = false -> Float64.leb x y = true.
Proof.
  unfold Float64.ltb, Float64.leb, SFltb, SFleb.
  destruct x as [sx|sx| |sx mx ex], y as [sy|sy| |sy my ey]; simpl; try done;
    try (destruct sx); try (destruct sy); simpl; try done;
    intros _ _; compare_cases; simpl; try done; lia.
Qed.

Lemma ltb_leb x y : Float64.ltb x y = true -> Float64.leb x y = true.
Proof.
  unfold Float64.ltb, Float64.leb, SFltb, SFleb.
  by destruct (SFcompare x y) as [[]|].
Qed.

Lemma leb_refl x : is_nan x = false -> Float64.leb x x = true.
Proof.
  unfold Float64.leb, SFleb.
  destruct x as [sx|sx| |sx mx ex]; simpl; try done; destruct sx; simpl; try done;
    intros _; compare_cases; simpl; try done; lia.
Qed.

Lemma leb_trans x y z :
  Float64.leb x y = true -> Float64.leb y z = true -> Float64.leb x z = true.
Proof.
  unfold Float64.leb, SFleb.
  destruct x as [sx|sx| |sx mx ex], y as [sy|sy| |sy my ey], z as [sz|sz| |sz mz ez];
    simpl; try done;
    try (destruct sx); try (destruct sy); try (destruct sz); simpl; try done;
    compare_cases; simpl; try done; lia.
Qed.

Lemma ltb_not_geb x y :
  is_nan x = false -> is_nan y = false ->
  Float64.geb x y = false -> Float64.ltb x y = true.
Proof.
  unfold Float64.ltb, Float64.geb, SFltb, SFleb.
  destruct x as [sx|sx| |sx mx ex], y as [sy|sy| |sy my ey]; simpl; try done;
    try (destruct sx); try (destruct sy); simpl; try done;
    intros _ _; compare_cases; simpl; try done; lia.
Qed.

Lemma nonneg_not_nan x : nonneg x -> is_nan x = false.
Proof. by destruct x. Qed.

(** ** [min] and [max] *)

Lemma py_min_in xs : forall x, py_min x xs ∈ x :: xs.
Proof.
  unfold py_min. induction xs as [|y xs IH]; intros x; simpl.
  - apply list_elem_of_here.
  - specialize (IH (if Float64.ltb y x then y else x)).
    apply elem_of_cons in IH as [-> | IH].
    + destruct (Float64.ltb y x); set_solver.
    + set_solver.
Qed.

Lemma py_max_in xs : forall x, py_max x xs ∈ x :: xs.
Proof.
  unfold py_max. induction xs as [|y xs IH]; intros x; simpl.
  - apply list_elem_of_here.
  - specialize (IH (if Float64.gtb y x then y else x)).
    apply elem_of_cons in IH as [-> | IH].
    + destruct (Float64.gtb y x); set_solver.
    + set_solver.
Qed.

Lemma py_min_least xs : forall x,
  Forall (fun y => is_nan y = false) (x :: xs) ->
  forall y, y ∈ x :: xs -> Float64.leb (py_min x xs) y = true.
Proof.
  unfold py_min. induction xs as [|z xs IH]; intros x Hn y Hy.
  - apply list_elem_of_singleton in Hy as ->. simpl. apply leb_refl.
    by apply Forall_cons in Hn as [? _].
  - apply Forall_cons in Hn as [Hx Hn]. pose proof Hn as Hn'.
    apply Forall_cons in Hn' as [Hz Hxs]. simpl.
    set (m := if Float64.ltb z x then z else x).
    assert (Hm : is_nan m = false) by (subst m; by destruct (Float64.ltb z x)).
    assert (Hmx : Float64.leb m x = true).
    { subst m. destruct (Float64.ltb z x) eqn:E; [by apply ltb_leb | by apply leb_refl]. }
    assert (Hmz : Float64.leb m z = true).
    { subst m. destruct (Float64.ltb z x) eqn:E; [by apply leb_refl | by apply leb_total]. }
    assert (Hall : Forall (fun y => is_nan y = false) (m :: xs)) by by constructor.
    apply elem_of_cons in Hy as [-> | Hy]; [|apply elem_of_cons in Hy as [-> | Hy]].
    + eapply leb_trans; [|exact Hmx]. apply IH; [assumption | apply list_elem_of_here].
    + eapply leb_trans; [|exact Hmz]. apply IH; [assumption | apply list_elem_of_here].
    + apply IH; [assumption | by apply list_elem_of_further].
Qed.

Lemma py_max_greatest xs : forall x,
  Forall (fun y => is_nan y = false) (x :: xs) ->
  forall y, y ∈ x :: xs -> Float64.leb y (py_max x xs) = true.
Proof.
  unfold py_max. induction xs as [|z xs IH]; intros x Hn y Hy.
  - apply list_elem_of_singleton in Hy as ->. simpl. apply leb_refl.
    by apply Forall_cons in Hn as [? _].
  - apply Forall_cons in Hn as [Hx Hn]. pose proof Hn as Hn'.
    apply Forall_cons in Hn' as [Hz Hxs]. simpl.
    set (m := if Float64.gtb z x then z else x).
    assert (Hm : is_nan m = false) by (subst m; by destruct (Float64.gtb z x)).
    assert (Hmx : Float64.leb x m = true).
    { subst m. destruct (Float64.gtb z x) eqn:E; [by apply ltb_leb | by apply leb_refl]. }
    assert (Hmz : Float64.leb z m = true).
    { subst m. destruct (Float64.gtb z x) eqn:E; [by apply leb_refl | by apply leb_total]. }
    assert (Hall : Forall (fun y => is_nan y = false) (m :: xs)) by by constructor.
    apply elem_of_cons in Hy as [-> | Hy]; [|apply elem_of_cons in Hy as [-> | Hy]].
    + eapply leb_trans; [exact Hmx|]. apply IH; [assumption | apply list_elem_of_here].
    + eapply leb_trans; [exact Hmz|]. apply IH; [assumption | apply list_elem_of_here].
    + apply IH; [assumption | by apply list_elem_of_further].
Qed.

(** ** The groups of a match *)

Lemma RE_CONV_groups s m :
  match_of RE_CONV s m ->
  exists t v2 n3 v4 n5,
    (group m 1 = Some t /\ group m 2 = Some v2 /\ group m 3 = Some n3 /\
     group m 4 = Some v4 /\ group m 5 = Some n5) /\
    number_token t /\ token v2 /\ token n3 /\ token v4 /\ token n5.
Proof.
  destruct m as [gm rm]. intros (pre & w & _ & M). cbn [groups] in M.
  apply RE_CONV_shape in M. destruct M.
  unfold group. cbn [groups]. do 5 eexists.
  split; [repeat split; reflexivity | repeat (match goal with |- _ /\ _ => split end); assumption].
Qed.

Lemma RE_WARN_groups s m :
  match_of RE_WARN s m ->
  exists t sev c l,
    (group m 1 = Some t /\ group m 2 = Some sev /\ group m 3 = Some c /\
     group m 4 = Some l) /\
    number_token t /\ token l /\
    (lit_word (fl RE_WARN) "warning" sev \/ lit_word (fl RE_WARN) "note" sev \/
     lit_word (fl RE_WARN) "error" sev).
Proof.
  destruct m as [gm rm]. intros (pre & w & _ & M). cbn [groups] in M.
  apply RE_WARN_shape in M. destruct M.
  unfold group. cbn [groups]. do 4 eexists.
  split; [repeat split; reflexivity | repeat (match goal with |- _ /\ _ => split end); assumption].
Qed.

Lemma time_group_ok p s m :
  p = RE_START \/ p = RE_END \/ p = RE_CONV \/ p = RE_WARN ->
  match_of p s m ->
  exists x, PyFloat.of_group (group m 1) = Ok x /\ nonneg x.
Proof.
  intros Hp M.
  assert (exists t, group m 1 = Some t /\ number_token t) as (t & -> & Ht).
  { destruct Hp as [-> | [-> | [-> | ->]]].
    - by apply RE_START_shape in M.
    - by apply RE_END_shape in M.
    - apply RE_CONV_groups in M as (t & ? & ? & ? & ? & (? & _) & ? & _). eauto.
    - apply RE_WARN_groups in M as (t & ? & ? & ? & (? & _) & ? & _). eauto. }
  by apply of_bytes_number_nonneg.
Qed.

(** ** Section A: the marker times *)

Lemma marker_time_start s :
  exists x, marker_time (start_match s) = Ok x /\ nonneg x.
Proof.
  unfold marker_time, start_match.
  destruct (search RE_START _) as [m|] eqn:E.
  - apply search_sound in E. eapply time_group_ok; [|exact E]. auto.
  - by exists zero.
Qed.

Lemma marker_time_end s :
  exists x, marker_time (end_match s) = Ok x /\ nonneg x.
Proof.
  unfold marker_time, end_match.
  destruct (search RE_END _) as [m|] eqn:E.
  - apply search_sound in E. eapply time_group_ok; [|exact E]. auto.
  - by exists zero.
Qed.

(** ** Section B.1: the loop over the convergence blocks *)

Lemma conv_loop_rows ms : forall dq_data dh_data dq' dh',
  conv_loop ms dq_data dh_data = Ok (dq', dh') ->
  exists rq rh,
    dq' = dq_data ++ rq /\ dh' = dh_data ++ rh /\
    Forall2 dq_row_of ms rq /\ Forall2 dh_row_of ms rh.
Proof.
  induction ms as [|m ms IH]; intros dq_data dh_data dq' dh' H; simpl in H.
  - injection H as <- <-. exists [], []. rewrite !app_nil_r. by repeat split.
  - destruct (PyFloat.of_group (group m 1)) as [t|] eqn:E1; [|discriminate].
    destruct (PyFloat.of_group (group m 2)) as [v2|] eqn:E2; [|discriminate].
    destruct (Utf8.decode_group (group m 3)) as [n3|] eqn:E3; [|discriminate].
    destruct (PyFloat.of_group (group m 4)) as [v4|] eqn:E4; [|discriminate].
    destruct (Utf8.decode_group (group m 5)) as [n5|] eqn:E5; [|discriminate].
    simpl in H. apply IH in H as (rq & rh & -> & -> & Hq & Hh).
    eexists (_ :: rq), (_ :: rh). rewrite <- !app_assoc.
    split; [reflexivity|]. split; [reflexivity|].
    split; constructor; try assumption; by repeat split.
Qed.

Lemma conv_loop_total s ms : forall dq_data dh_data,
  Forall (match_of RE_CONV s) ms -> Forall values_ok ms ->
  exists res, conv_loop ms dq_data dh_data = Ok res.
Proof.
  induction ms as [|m ms IH]; intros dq_data dh_data HM HV; simpl.
  - eauto.
  - apply Forall_cons in HM as [Hm HM]. apply Forall_cons in HV as [[[v2 E2] [v4 E4]] HV].
    destruct (time_group_ok RE_CONV s m) as (t & -> & _); auto.
    rewrite E2, E4.
    apply RE_CONV_groups in Hm as (? & ? & n3 & ? & n5 & (_ & _ & -> & _ & ->) & _).
    simpl. by apply IH.
Qed.

Lemma conv_loop_values ms : forall dq_data dh_data res,
  conv_loop ms dq_data dh_data = Ok res -> Forall values_ok ms.
Proof.
  induction ms as [|m ms IH]; intros dq_data dh_data res H; simpl in H.
  - constructor.
  - destruct (PyFloat.of_group (group m 1)) as [t|] eqn:E1; [|discriminate].
    destruct (PyFloat.of_group (group m 2)) as [v2|] eqn:E2; [|discriminate].
    destruct (Utf8.decode_group (group m 3)) as [n3|] eqn:E3; [|discriminate].
    destruct (PyFloat.of_group (group m 4)) as [v4|] eqn:E4; [|discriminate].
    destruct (Utf8.decode_group (group m 5)) as [n5|] eqn:E5; [|discriminate].
    simpl in H. constructor; [|by eapply IH].
    split; eauto.
Qed.

(** ** Section B.2: the loop over the diagnostic lines *)

Lemma last_error_snoc rows e :
  last_error (rows ++ [e]) = if is_error e then Some e else last_error rows.
Proof.
  unfold last_error. rewrite List.filter_app. simpl.
  destruct (is_error e); [apply last_snoc | by rewrite app_nil_r].
Qed.

Lemma warn_loop_rows ms : forall st st',
  warn_loop ms st = Ok st' ->
  (exists rows, warn_data st' = warn_data st ++ rows /\ Forall2 warn_entry_of ms rows) /\
  (tracks_last_error st -> tracks_last_error st').
Proof.
  induction ms as [|m ms IH]; intros st st' H; simpl in H.
  - injection H as <-. split; [|auto]. exists []. by rewrite app_nil_r.
  - destruct (PyFloat.of_group (group m 1)) as [t|] eqn:E1; [|discriminate].
    destruct (Utf8.decode_group (group m 2)) as [g2|] eqn:E2; [|discriminate].
    destruct (Utf8.decode_group (group m 3)) as [c|] eqn:E3; [|discriminate].
    destruct (Utf8.decode_group (group m 4)) as [l|] eqn:E4; [|discriminate].
    simpl in H. apply IH in H as [(rows & Hd & Hrows) Hinv]. cbn [warn_data] in Hd.
    split.
    + eexists (_ :: rows). rewrite Hd, <- app_assoc. split; [reflexivity|].
      constructor; [|assumption]. repeat split; simpl; eauto.
    + intros [Ht Hc]. apply Hinv. unfold tracks_last_error.
      cbn [warn_data last_err_t last_err_c]. rewrite last_error_snoc.
      unfold is_error at 1 2. cbn [Warn.type].
      destruct (String.eqb (Utf8.upper g2) "ERROR"); simpl; auto.
Qed.

Lemma warn_loop_total s ms : forall st,
  Forall (match_of RE_WARN s) ms -> exists st', warn_loop ms st = Ok st'.
Proof.
  induction ms as [|m ms IH]; intros st HM; simpl.
  - eauto.
  - apply Forall_cons in HM as [Hm HM].
    destruct (time_group_ok RE_WARN s m) as (t & -> & _); auto.
    apply RE_WARN_groups in Hm as (? & sev & c & l & (_ & -> & -> & ->) & _).
    simpl. by apply IH.
Qed.

Lemma finditer_all p s : Forall (match_of p s) (finditer p s).
Proof. apply Forall_forall. intros m. apply finditer_sound. Qed.

(** ** The whole function *)

Lemma with_notes_data d rows : map Warn.data (with_notes d rows) = rows.
Proof.
  unfold with_notes, fillna, series_map. rewrite !map_map.
  induction rows as [|e rows IH]; simpl; [reflexivity | by rewrite IH].
Qed.

Lemma with_notes_note d rows :
  Forall (fun w => Warn.note w = default "Unknown Warning"%string (d !! Warn.code (Warn.data w)))
         (with_notes d rows).
Proof.
  unfold with_notes, fillna, series_map. rewrite !map_map.
  induction rows as [|e rows IH]; simpl; by constructor.
Qed.

(** What a completed call has computed. *)
Lemma extract_with_inv d s r :
  extract_with d s = Ok r ->
  exists t0 t1 dq_data dh_data st,
    marker_time (start_match s) = Ok t0 /\
    marker_time (end_match s) = Ok t1 /\
    conv_loop (finditer RE_CONV s) [] [] = Ok (dq_data, dh_data) /\
    warn_loop (finditer RE_WARN s) warn_init = Ok st /\
    r = {| dq := dq_data;
           dh := dh_data;
           warnings := with_notes d (warn_data st);
           start := (infer_times t0 t1 dq_data (warn_data st)).1;
           end_ := force_duration (infer_times t0 t1 dq_data (warn_data st)).1
                                  (infer_times t0 t1 dq_data (warn_data st)).2;
           fail_t := if is_fatal s then last_err_t st else None;
           fail_c := if is_fatal s then last_err_c st else None |}.
Proof.
  unfold extract_with. intros H.
  destruct (marker_time (start_match s)) as [t0|] eqn:E0; [|discriminate].
  destruct (marker_time (end_match s)) as [t1|] eqn:E1; [|discriminate].
  destruct (conv_loop _ [] []) as [[dq_data dh_data]|] eqn:E2; [|discriminate].
  destruct (warn_loop _ warn_init) as [st|] eqn:E3; [|discriminate].
  simpl in H. destruct (infer_times _ _ _ _) as [a b] eqn:E4.
  injection H as <-. exists t0, t1, dq_data, dh_data, st. by rewrite E4.
Qed.

Lemma extract_with_total d s :
  Forall values_ok (finditer RE_CONV s) -> exists r, extract_with d s = Ok r.
Proof.
  intros HV. unfold extract_with.
  destruct (marker_time_start s) as (t0 & -> & _).
  destruct (marker_time_end s) as (t1 & -> & _).
  destruct (conv_loop_total s _ [] [] (finditer_all _ _) HV) as ([dq_data dh_data] & ->).
  destruct (warn_loop_total s _ warn_init (finditer_all _ _)) as (st & ->).
  simpl. destruct (infer_times _ _ _ _). eauto.
Qed.

(** A call can only raise [ValueError]. *)
Lemma of_bytes_raise w e : PyFloat.of_bytes w = Raise e -> e = ValueError.
Proof.
  unfold PyFloat.of_bytes. destruct (PyFloat.drop_underscores _ _); [|congruence].
  destruct (PyFloat.parse_literal _); congruence.
Qed.

Lemma conv_loop_raise s ms : forall dq_data dh_data e,
  Forall (match_of RE_CONV s) ms ->
  conv_loop ms dq_data dh_data = Raise e -> e = ValueError.
Proof.
  induction ms as [|m ms IH]; intros dq_data dh_data e HM H; simpl in H; [discriminate|].
  apply Forall_cons in HM as [Hm HM].
  destruct (time_group_ok RE_CONV s m) as (t & E1 & _); auto.
  rewrite E1 in H.
  apply RE_CONV_groups in Hm as (? & v2 & n3 & v4 & n5 & (_ & E2 & E3 & E4 & E5) & _).
  rewrite E2, E3, E4, E5 in H. simpl in H.
  destruct (PyFloat.of_bytes v2) eqn:F2; simpl in H;
    [|injection H as <-; by eapply of_bytes_raise].
  destruct (PyFloat.of_bytes v4) eqn:F4; simpl in H;
    [|injection H as <-; by eapply of_bytes_raise].
  by eapply IH.
Qed.

Lemma extract_with_raise d s e : extract_with d s = Raise e -> e = ValueError.
Proof.
  unfold extract_with.
  destruct (marker_time_start s) as (t0 & -> & _).
  destruct (marker_time_end s) as (t1 & -> & _).
  destruct (warn_loop_total s _ warn_init (finditer_all _ _)) as (st & ->).
  simpl. destruct (conv_loop _ [] []) as [[dq_data dh_data]|e'] eqn:E; simpl.
  - by destruct (infer_times _ _ _ _).
  - intros [= <-]. eapply conv_loop_raise; [apply finditer_all | exact E].
Qed.

(** ** C1: when a call completes *)

(** A matched block whose flow-correction value is a row of asterisks, as a
    fixed-width field prints an overflow: [float] rejects the token. *)
Lemma extract_raises_on_starred_value :
  extract_zzd_data (b_ (conv_lines two_breaks "****")) = Raise ValueError.
Proof. vm_compute. reflexivity. Qed.

(** C1 (amended): a call of [extract_zzd_data] returns a result exactly when
    [float] accepts the two value tokens (groups 2 and 4) of every match of
    [RE_CONV]; otherwise it raises [ValueError].  No other conversion can
    fail: the time tokens always convert and every group that is decoded
    took part in its match. *)
Theorem extract_completes_iff_values_convert (s : bytes) :
  match extract_zzd_data s with
  | Ok _ => Forall values_ok (finditer RE_CONV s)
  | Raise e => e = ValueError /\ ~ Forall values_ok (finditer RE_CONV s)
  end.
Proof.
  unfold extract_zzd_data.
  destruct (extract_with WARNING_DESCRIPTIONS s) as [r|e] eqn:E.
  - apply extract_with_inv in E as (t0 & t1 & dq_data & dh_data & st & _ & _ & E & _).
    by eapply conv_loop_values.
  - split; [by eapply extract_with_raise|].
    intros HV. apply (extract_with_total WARNING_DESCRIPTIONS) in HV as [r Hr].
    congruence.
Qed.

(** ** C2: the forced duration *)

(** C2 (at the failing input): with the start marker at 2^53 hours and no end
    marker, the forced end [start + 1.0] rounds back to [start]; the call
    completes with [start = end], so [start < end] does not hold. *)
Theorem forced_duration_absorbed :
  exists r, extract_zzd_data (b_ "start time 9007199254740992") = Ok r /\
    start r = S754_finite false 4503599627370496 1 /\
    end_ r = start r /\
    Float64.ltb (start r) (end_ r) = false.
Proof. eexists. split; [vm_compute; reflexivity|]. by vm_compute. Qed.

(** Apart from NaN, which no bound is, the forced end is above the start
    unless adding [1.0] does not move the start. *)
Lemma force_duration_above start_time end_time :
  is_nan start_time = false -> is_nan end_time = false ->
  Float64.ltb start_time (force_duration start_time end_time) = true \/
  (force_duration start_time end_time = Float64.add start_time one /\
   Float64.ltb start_time (Float64.add start_time one) = false).
Proof.
  intros Hs He. unfold force_duration.
  destruct (Float64.geb start_time end_time) eqn:G.
  - destruct (Float64.eqb start_time zero) eqn:Z.
    + left. destruct start_time as [[]|[]| |[] m e]; try done.
    + destruct (Float64.ltb start_time (Float64.add start_time one)); auto.
  - left. by apply ltb_not_geb.
Qed.

Lemma extract_empty :
  exists r, extract_zzd_data [] = Ok r /\ start r = zero /\ end_ r = one.
Proof. eexists. split; [vm_compute; reflexivity|]. by vm_compute. Qed.

(** ** C10: no time is negative *)

Lemma dq_rows_nonneg s ms rows :
  Forall (match_of RE_CONV s) ms -> Forall2 dq_row_of ms rows ->
  Forall (fun row => nonneg (Conv.time row)) rows.
Proof.
  intros HM H2. induction H2 as [|m row ms rows (E & _) _ IH]; [constructor|].
  apply Forall_cons in HM as [Hm HM]. constructor; [|by apply IH].
  destruct (time_group_ok RE_CONV s m) as (x & Ex & Hx); auto. congruence.
Qed.

Lemma dh_rows_nonneg s ms rows :
  Forall (match_of RE_CONV s) ms -> Forall2 dh_row_of ms rows ->
  Forall (fun row => nonneg (Conv.time row)) rows.
Proof.
  intros HM H2. induction H2 as [|m row ms rows (E & _) _ IH]; [constructor|].
  apply Forall_cons in HM as [Hm HM]. constructor; [|by apply IH].
  destruct (time_group_ok RE_CONV s m) as (x & Ex & Hx); auto. congruence.
Qed.

Lemma warn_rows_nonneg s ms rows :
  Forall (match_of RE_WARN s) ms -> Forall2 warn_entry_of ms rows ->
  Forall (fun e => nonneg (Warn.time e)) rows.
Proof.
  intros HM H2. induction H2 as [|m row ms rows (E & _) _ IH]; [constructor|].
  apply Forall_cons in HM as [Hm HM]. constructor; [|by apply IH].
  destruct (time_group_ok RE_WARN s m) as (x & Ex & Hx); auto. congruence.
Qed.

Lemma head_last_elem {A} (l : list A) a z :
  head l = Some a -> last l = Some z -> a ∈ l /\ z ∈ l.
Proof.
  intros Ha Hz. split.
  - destruct l; [discriminate|]. injection Ha as ->. apply list_elem_of_here.
  - apply last_Some in Hz as [l' ->]. apply elem_of_app. right. apply list_elem_of_here.
Qed.

Lemma all_timestamps_nonneg dq_data warn_data :
  Forall (fun row => nonneg (Conv.time row)) dq_data ->
  Forall (fun e => nonneg (Warn.time e)) warn_data ->
  Forall nonneg (all_timestamps dq_data warn_data).
Proof.
  intros Hq Hw. unfold all_timestamps.
  assert (Forall nonneg
            match head dq_data, last dq_data with
            | Some a, Some z => [] ++ [Conv.time a; Conv.time z]
            | _, _ => []
            end) as H1.
  { destruct (head dq_data) as [a|] eqn:Ea, (last dq_data) as [z|] eqn:Ez;
      try constructor.
    - destruct (head_last_elem _ _ _ Ea Ez) as [Ia Iz].
      rewrite Forall_forall in Hq. eauto.
    - destruct (head_last_elem _ _ _ Ea Ez) as [Ia Iz].
      rewrite Forall_forall in Hq. repeat constructor. eauto. }
  destruct (head warn_data) as [a|] eqn:Ea, (last warn_data) as [z|] eqn:Ez;
    try assumption.
  destruct (head_last_elem _ _ _ Ea Ez) as [Ia Iz].
  rewrite Forall_forall in Hw. apply Forall_app. split; [assumption|].
  repeat constructor; eauto.
Qed.

Lemma infer_times_nonneg t0 t1 dq_data warn_data :
  nonneg t0 -> nonneg t1 ->
  Forall nonneg (all_timestamps dq_data warn_data) ->
  nonneg (infer_times t0 t1 dq_data warn_data).1 /\
  nonneg (infer_times t0 t1 dq_data warn_data).2.
Proof.
  intros H0 H1 Hts. unfold infer_times.
  destruct (_ || _); [|by split].
  destruct (all_timestamps dq_data warn_data) as [|x xs]; [by split|].
  rewrite Forall_forall in Hts. simpl. split.
  - destruct (Float64.eqb t0 zero); [apply Hts, py_min_in | assumption].
  - destruct (Float64.eqb t1 zero); [apply Hts, py_max_in | assumption].
Qed.

Lemma force_duration_nonneg start_time end_time :
  nonneg start_time -> nonneg end_time ->
  nonneg (force_duration start_time end_time).
Proof.
  intros Hs He. unfold force_duration.
  destruct (Float64.geb _ _); [|assumption].
  destruct (Float64.eqb _ _); [reflexivity | by apply add_one_nonneg].
Qed.

(** The bounds of a returned result are in order, unless the forced end
    [start + 1.0] is not above the start (as for a start of 2^53). *)
Lemma bounds_ordered_unless_absorbed s r :
  extract_zzd_data s = Ok r ->
  Float64.ltb (start r) (end_ r) = true \/
  (end_ r = Float64.add (start r) one /\
   Float64.ltb (start r) (Float64.add (start r) one) = false).
Proof.
  intros H.
  apply extract_with_inv in H as (t0 & t1 & dq_data & dh_data & st & E0 & E1 & Ec & Ew & ->).
  destruct (marker_time_start s) as (x0 & X0 & H0).
  destruct (marker_time_end s) as (x1 & X1 & H1).
  assert (x0 = t0) as -> by congruence. assert (x1 = t1) as -> by congruence.
  apply conv_loop_rows in Ec as (rq & rh & -> & -> & Hq & Hh). simpl in *.
  apply warn_loop_rows in Ew as [(rows & Hd & Hrows) _]. simpl in Hd.
  pose proof (dq_rows_nonneg s _ _ (finditer_all _ _) Hq) as Nq.
  pose proof (warn_rows_nonneg s _ _ (finditer_all _ _) Hrows) as Nw.
  rewrite <- Hd in Nw.
  destruct (infer_times_nonneg t0 t1 rq (warn_data st) H0 H1
              (all_timestamps_nonneg _ _ Nq Nw)) as [Ns Ne].
  apply force_duration_above; by apply nonneg_not_nan.
Qed.

(** C10: every time in a returned result is a number at or above [0.0]: the
    two bounds, the time of every row of [dq] and [dh], and the time of
    every diagnostic row. *)
Theorem times_are_nonnegative (s : bytes) (r : result) :
  extract_zzd_data s = Ok r ->
  Float64.geb (start r) zero = true /\
  Float64.geb (end_ r) zero = true /\
  Forall (fun row => Float64.geb (Conv.time row) zero = true) (dq r) /\
  Forall (fun row => Float64.geb (Conv.time row) zero = true) (dh r) /\
  Forall (fun w => Float64.geb (Warn.time (Warn.data w)) zero = true) (warnings r).
Proof.
  intros H.
  apply extract_with_inv in H as (t0 & t1 & dq_data & dh_data & st & E0 & E1 & Ec & Ew & ->).
  destruct (marker_time_start s) as (x0 & X0 & H0).
  destruct (marker_time_end s) as (x1 & X1 & H1).
  assert (x0 = t0) as -> by congruence. assert (x1 = t1) as -> by congruence.
  apply conv_loop_rows in Ec as (rq & rh & -> & -> & Hq & Hh). simpl in *.
  apply warn_loop_rows in Ew as [(rows & Hd & Hrows) _]. simpl in Hd.
  pose proof (dq_rows_nonneg s _ _ (finditer_all _ _) Hq) as Nq.
  pose proof (dh_rows_nonneg s _ _ (finditer_all _ _) Hh) as Nh.
  pose proof (warn_rows_nonneg s _ _ (finditer_all _ _) Hrows) as Nw.
  rewrite <- Hd in Nw.
  destruct (infer_times_nonneg t0 t1 rq (warn_data st) H0 H1
              (all_timestamps_nonneg _ _ Nq Nw)) as [Ns Ne].
  repeat split.
  - by apply zero_leb_nonneg.
  - by apply zero_leb_nonneg, force_duration_nonneg.
  - eapply Forall_impl; [exact Nq|]. intros row. apply zero_leb_nonneg.
  - eapply Forall_impl; [exact Nh|]. intros row. apply zero_leb_nonneg.
  - apply Forall_forall. intros w Hw.
    apply zero_leb_nonneg. rewrite Forall_forall in Nw. apply Nw.
    rewrite <- (with_notes_data WARNING_DESCRIPTIONS (warn_data st)).
    apply list_elem_of_fmap. eauto.
Qed.

Lemma times_are_nonnegative_witness :
  exists r, extract_zzd_data (b_ three_events) = Ok r /\
    Float64.geb (start r) zero = true /\
    Float64.geb (end_ r) zero = true /\
    Forall (fun row => Float64.geb (Conv.time row) zero = true) (dq r) /\
    Forall (fun row => Float64.geb (Conv.time row) zero = true) (dh r) /\
    Forall (fun w => Float64.geb (Warn.time (Warn.data w)) zero = true) (warnings r).
Proof.
  eexists. split; [vm_compute; reflexivity|].
  apply (times_are_nonnegative (b_ three_events)). vm_compute. reflexivity.
Defined.

(** ** C3: the fatal status *)

Lemma last_error_Some rows :
  is_Some (last_error rows) <-> exists e, e ∈ rows /\ is_error e = true.
Proof.
  unfold last_error. split.
  - intros [e He]. apply last_Some in He as [l' He]. exists e.
    assert (In e (List.filter is_error rows)) as Hin.
    { rewrite He. apply in_or_app. right. by left. }
    apply List.filter_In in Hin as [Hin ?]. split; [by apply list_elem_of_In | assumption].
  - intros (e & Hin & He).
    assert (In e (List.filter is_error rows)) as Hf.
    { apply List.filter_In. split; [by apply list_elem_of_In | assumption]. }
    destruct (List.filter is_error rows) as [|a l] using rev_ind; [destruct Hf|].
    rewrite last_snoc. eauto.
Qed.

Lemma starts_with_spec p s : starts_with p s = true <-> exists b, s = p ++ b.
Proof.
  revert s. induction p as [|a p IH]; intros s; simpl.
  - split; eauto.
  - destruct s as [|x s].
    + split; [discriminate | by intros [b Hb]].
    + rewrite andb_true_iff, byte_eqb_eq, IH. split.
      * intros [-> [b ->]]. eauto.
      * intros [b [= -> ->]]. eauto.
Qed.

Lemma contains_spec p s : contains p s = true <-> exists a b, s = a ++ p ++ b.
Proof.
  induction s as [|x s IH]; simpl.
  - rewrite orb_false_r, starts_with_spec. split.
    + intros [b Hb]. exists [], b. exact Hb.
    + intros (a & b & Hs). symmetry in Hs. apply app_eq_nil in Hs as [-> Hs]. eauto.
  - rewrite orb_true_iff, starts_with_spec, IH. split.
    + intros [[b Hb] | (a & b & ->)]; [by exists [], b | by exists (x :: a), b].
    + intros (a & b & Hs). destruct a as [|y a].
      * left. eauto.
      * right. injection Hs as -> ->. eauto.
Qed.

Lemma is_fatal_marker_in_tail s : is_fatal s = true <-> marker_in_tail s.
Proof.
  unfold is_fatal, marker_in_tail, last_bytes. rewrite contains_spec. split.
  - intros (a & b & H). exists (take (length s - 2000) s), a, b.
    rewrite <- H, take_drop. split; [reflexivity|]. rewrite length_drop. lia.
  - intros (pre & a & b & Hs & Hl). exists a, b.
    assert (length pre = (length s - 2000)%nat) as Hp.
    { apply (f_equal length) in Hs. rewrite length_app in Hs. lia. }
    rewrite Hs at 2. rewrite <- Hp. by rewrite drop_app_length.
Qed.

(** C3: in a returned result, [fail_t] and [fail_c] are set together, and
    they are set exactly when the crash phrase stands in the suffix window
    (the last 2000 bytes of the buffer, or all of it when it is shorter) and
    some diagnostic row has type ERROR; they then hold the time and the code
    of the last such row of the buffer.  Without the phrase in the window
    the status is [None], whatever rows there are. *)
Theorem fatal_is_last_error (s : bytes) (r : result) :
  extract_zzd_data s = Ok r ->
  (is_fatal s = true <-> marker_in_tail s) /\
  fatal r =
    (if is_fatal s
     then (fun e => (Warn.time e, Warn.code e)) <$> last_error (map Warn.data (warnings r))
     else None) /\
  fail_t r = fst <$> fatal r /\ fail_c r = snd <$> fatal r /\
  (is_Some (fatal r) <->
   marker_in_tail s /\
   exists w, w ∈ warnings r /\ Warn.type (Warn.data w) = "ERROR"%string) /\
  (~ marker_in_tail s -> fatal r = None /\ fail_t r = None /\ fail_c r = None).
Proof.
  intros H. split; [apply is_fatal_marker_in_tail|].
  rewrite <- is_fatal_marker_in_tail.
  apply extract_with_inv in H as (t0 & t1 & dq_data & dh_data & st & _ & _ & _ & Ew & ->).
  apply warn_loop_rows in Ew as [_ Hinv].
  destruct Hinv as [Ht Hc]; [by split|].
  unfold fatal. cbn [warnings fail_t fail_c]. rewrite with_notes_data, Ht, Hc.
  split; [by destruct (is_fatal s), (last_error (warn_data st))|].
  split; [by destruct (is_fatal s), (last_error (warn_data st))|].
  split; [by destruct (is_fatal s), (last_error (warn_data st))|].
  split.
  - destruct (is_fatal s).
    + transitivity (is_Some (last_error (warn_data st)));
        [by destruct (last_error (warn_data st)); split; intros [? ?]; eauto|].
      rewrite last_error_Some. split.
      * intros (e & Hin & He). split; [reflexivity|].
        rewrite <- (with_notes_data WARNING_DESCRIPTIONS (warn_data st)) in Hin.
        apply list_elem_of_fmap in Hin as (w & -> & Hw). exists w. split; [assumption|].
        by apply String.eqb_eq in He.
      * intros (_ & w & Hw & He). exists (Warn.data w). split.
        -- rewrite <- (with_notes_data WARNING_DESCRIPTIONS (warn_data st)).
           apply list_elem_of_fmap. eauto.
        -- by apply String.eqb_eq.
    + split; [by intros [? ?] | by intros [? _]].
  - intros Hno. by destruct (is_fatal s).
Qed.

(** ERROR rows at 5 and 20 hours: with the phrase at the end of the buffer
    the status is that of the row at 20 hours; with the phrase followed by
    2000 blanks it is [None]. *)
Lemma fatal_is_last_error_witness :
  (exists r, extract_zzd_data (b_ (crashed two_errors)) = Ok r /\
     marker_in_tail (b_ (crashed two_errors)) /\
     fatal r = Some (S754_finite false 5629499534213120 (-48), "E2000"%string)) /\
  (exists r, extract_zzd_data marker_too_early = Ok r /\
     ~ marker_in_tail marker_too_early /\
     length (warnings r) = 2%nat /\
     fatal r = None).
Proof.
  split.
  - eexists. split; [vm_compute; reflexivity|].
    match goal with |- _ /\ fatal ?r = _ =>
      assert (E : extract_zzd_data (b_ (crashed two_errors)) = Ok r)
        by (vm_compute; reflexivity);
      destruct (fatal_is_last_error _ r E) as (Hm & -> & _)
    end.
    split; [apply Hm; vm_compute; reflexivity | vm_compute; reflexivity].
  - eexists. split; [vm_compute; reflexivity|].
    match goal with |- _ /\ _ /\ fatal ?r = _ =>
      assert (E : extract_zzd_data marker_too_early = Ok r)
        by (vm_compute; reflexivity);
      destruct (fatal_is_last_error _ r E) as (Hm & _ & _ & _ & _ & Hno)
    end.
    assert (~ marker_in_tail marker_too_early) as Hn.
    { intros Hin. apply Hm in Hin. vm_compute in Hin. discriminate Hin. }
    split; [exact Hn|]. split; [reflexivity|]. by destruct (Hno Hn).
Defined.

Lemma no_marker_no_fatal :
  exists r, extract_zzd_data (b_ two_errors) = Ok r /\ fatal r = None.
Proof. eexists. split; [vm_compute; reflexivity|]. by vm_compute. Qed.

(** ** C8: the descriptions *)

Lemma dict_of_lookup items k v :
  dict_of items !! k = Some v -> (k, v) ∈ items.
Proof.
  unfold dict_of.
  assert (forall (d : gmap string string),
            fold_left (fun d kv => <[kv.1 := kv.2]> d) items d !! k = Some v ->
            (k, v) ∈ items \/ d !! k = Some v) as H.
  { induction items as [|[k' v'] items IH]; intros d Hd; simpl in Hd; [by right|].
    apply IH in Hd as [Hd | Hd]; [left; by apply list_elem_of_further|].
    simpl in Hd. destruct (decide (k' = k)) as [->|Hne].
    - rewrite lookup_insert_eq in Hd. injection Hd as ->. left. apply list_elem_of_here.
    - rewrite lookup_insert_ne in Hd by done. by right. }
  intros Hd. apply H in Hd as [Hd | Hd]; [assumption|].
  by rewrite lookup_empty in Hd.
Qed.

Lemma descriptions_nonempty k v :
  WARNING_DESCRIPTIONS !! k = Some v -> v <> EmptyString.
Proof.
  intros H. apply dict_of_lookup, list_elem_of_In in H.
  assert (forallb (fun kv => negb (String.eqb kv.2 EmptyString)) WARNING_DESCRIPTIONS_items = true)
    as Hall by (vm_compute; reflexivity).
  rewrite forallb_forall in Hall. apply Hall in H. simpl in H.
  apply negb_true_iff, String.eqb_neq in H. exact H.
Qed.

(** C8: every diagnostic row of a returned result has a note that is not
    empty: the entry of [WARNING_DESCRIPTIONS] for its code when the code is
    a key of the table, and the text "Unknown Warning" when it is not. *)
Theorem every_note_is_a_description (s : bytes) (r : result) :
  extract_zzd_data s = Ok r ->
  Forall (fun w =>
            Warn.note w <> EmptyString /\
            (forall d, WARNING_DESCRIPTIONS !! Warn.code (Warn.data w) = Some d ->
                       Warn.note w = d) /\
            (WARNING_DESCRIPTIONS !! Warn.code (Warn.data w) = None ->
             Warn.note w = "Unknown Warning"%string))
         (warnings r).
Proof.
  intros H.
  apply extract_with_inv in H as (t0 & t1 & dq_data & dh_data & st & _ & _ & _ & _ & ->).
  cbn [warnings].
  eapply Forall_impl; [apply with_notes_note|]. intros w Hw. cbn beta in Hw.
  destruct (WARNING_DESCRIPTIONS !! Warn.code (Warn.data w)) as [d|] eqn:E;
    simpl in Hw; rewrite Hw.
  - split; [by eapply descriptions_nonempty|]. split; [by intros ? [= ->] | done].
  - split; [done|]. split; [done | reflexivity].
Qed.

Lemma every_note_is_a_description_witness :
  exists r, extract_zzd_data (b_ three_events) = Ok r /\
    map Warn.note (warnings r) =
      ["Very small change in flow resulting from correction";
       "Unknown Warning";
       "Very small change in heads results in large change in flow"]%string /\
    Forall (fun w =>
            Warn.note w <> EmptyString /\
            (forall d, WARNING_DESCRIPTIONS !! Warn.code (Warn.data w) = Some d ->
                       Warn.note w = d) /\
            (WARNING_DESCRIPTIONS !! Warn.code (Warn.data w) = None ->
             Warn.note w = "Unknown Warning"%string))
         (warnings r).
Proof.
  eexists. split; [vm_compute; reflexivity|]. split; [vm_compute; reflexivity|].
  apply (every_note_is_a_description (b_ three_events)). vm_compute. reflexivity.
Defined.

(** ** C4: the inference of the bounds *)

Lemma last_fmap {A B} (f : A -> B) (l : list A) : last (f <$> l) = f <$> last l.
Proof.
  induction l as [|a [|b l] IH]; [reflexivity | reflexivity |].
  change (last (f <$> a :: b :: l)) with (last (f <$> b :: l)).
  change (last (a :: b :: l)) with (last (b :: l)). exact IH.
Qed.

Lemma all_timestamps_first_last dq_data (ws : list Warn.row) :
  all_timestamps dq_data (map Warn.data ws) =
  map Conv.time (first_and_last dq_data) ++
  map (fun w => Warn.time (Warn.data w)) (first_and_last ws).
Proof.
  unfold all_timestamps, first_and_last.
  change (map Warn.data ws) with (Warn.data <$> ws). rewrite last_fmap.
  assert (head (Warn.data <$> ws) = Warn.data <$> head ws) as -> by (by destruct ws).
  by destruct (head dq_data), (last dq_data), (head ws), (last ws).
Qed.

Lemma all_timestamps_pool dq_data dh_data d rows t0 t1 ft fc :
  all_timestamps dq_data rows =
  candidate_pool {| dq := dq_data; dh := dh_data; warnings := with_notes d rows;
                    start := t0; end_ := t1; fail_t := ft; fail_c := fc |}.
Proof.
  unfold candidate_pool. cbn [dq warnings].
  rewrite <- all_timestamps_first_last. by rewrite with_notes_data.
Qed.

(** C4: when the start or the end marker gave [0.0], the candidate pool is
    made of the times of the first and the last convergence row and of the
    first and the last diagnostic row of the result.  When it is not empty, a
    [0.0] start becomes its minimum and a [0.0] end its maximum, before the
    duration is forced; the minimum and the maximum are members of the pool,
    below and above every member.  When it is empty the marker times
    stay. *)
Theorem inference_replaces_zero_bounds
    (s : bytes) (r : result) (t0 t1 : float) :
  extract_zzd_data s = Ok r ->
  marker_time (start_match s) = Ok t0 ->
  marker_time (end_match s) = Ok t1 ->
  Float64.eqb t0 zero = true \/ Float64.eqb t1 zero = true ->
  match candidate_pool r with
  | [] => start r = t0 /\ end_ r = force_duration t0 t1
  | x :: xs =>
      start r = (if Float64.eqb t0 zero then py_min x xs else t0) /\
      end_ r = force_duration (start r)
                 (if Float64.eqb t1 zero then py_max x xs else t1) /\
      py_min x xs ∈ x :: xs /\ py_max x xs ∈ x :: xs /\
      forall y, y ∈ x :: xs ->
        Float64.leb (py_min x xs) y = true /\ Float64.leb y (py_max x xs) = true
  end.
Proof.
  intros H E0 E1 Hz.
  apply extract_with_inv in H as (t0' & t1' & dq_data & dh_data & st & E0' & E1' & Ec & Ew & ->).
  assert (t0' = t0) as -> by congruence. assert (t1' = t1) as -> by congruence.
  rewrite <- all_timestamps_pool. cbn [start end_].
  assert (Hn : Forall (fun y => is_nan y = false) (all_timestamps dq_data (warn_data st))).
  { apply conv_loop_rows in Ec as (rq & rh & -> & -> & Hq & Hh).
    apply warn_loop_rows in Ew as [(rows & Hd & Hrows) _]. simpl in Hd.
    pose proof (dq_rows_nonneg s _ _ (finditer_all _ _) Hq) as Nq.
    pose proof (warn_rows_nonneg s _ _ (finditer_all _ _) Hrows) as Nw.
    rewrite <- Hd in Nw.
    eapply Forall_impl; [apply (all_timestamps_nonneg _ _ Nq Nw)|].
    apply nonneg_not_nan. }
  unfold infer_times.
  assert (Float64.eqb t0 zero || Float64.eqb t1 zero = true) as ->
    by (destruct Hz as [-> | ->]; [reflexivity | apply orb_true_r]).
  destruct (all_timestamps dq_data (warn_data st)) as [|x xs]; cbn [fst snd].
  - by split.
  - split; [reflexivity|]. split; [reflexivity|].
    split; [apply py_min_in|]. split; [apply py_max_in|].
    intros y Hy. split; [by apply py_min_least | by apply py_max_greatest].
Qed.

(** Diagnostic rows at 3.0, 7.5 and 12.0 hours and no marker: the bounds are
    3.0 and 12.0.  Diagnostic rows at 3.0, 1.5 and 7 hours and a convergence
    block at 10.5 hours: the pool is 10.5, 10.5, 3.0 and 7, and the bounds
    are 3.0 and 10.5; the row at 1.5 hours, neither first nor last, has no
    part. *)
Lemma inference_replaces_zero_bounds_witness :
  (exists r, extract_zzd_data (b_ three_events) = Ok r /\
     Ok <$> candidate_pool r = PyFloat.of_bytes <$> [b_ "3.0"; b_ "12.0"] /\
     Ok (start r) = PyFloat.of_bytes (b_ "3.0") /\
     Ok (end_ r) = PyFloat.of_bytes (b_ "12.0")) /\
  (exists r, extract_zzd_data (b_ unordered_events) = Ok r /\
     Ok <$> candidate_pool r =
       PyFloat.of_bytes <$> [b_ "10.5"; b_ "10.5"; b_ "3.0"; b_ "7"] /\
     Ok (start r) = PyFloat.of_bytes (b_ "3.0") /\
     Ok (end_ r) = PyFloat.of_bytes (b_ "10.5")).
Proof.
  split.
  - eexists. split; [vm_compute; reflexivity|]. split; [vm_compute; reflexivity|].
    match goal with |- Ok (start ?r) = _ /\ _ =>
      assert (E : extract_zzd_data (b_ three_events) = Ok r) by (vm_compute; reflexivity);
      pose proof (inference_replaces_zero_bounds (b_ three_events) r zero zero E
                    ltac:(vm_compute; reflexivity) ltac:(vm_compute; reflexivity)
                    ltac:(left; vm_compute; reflexivity)) as H
    end.
    vm_compute candidate_pool in H. destruct H as (Hs & He & _).
    rewrite He, Hs. vm_compute. split; reflexivity.
  - eexists. split; [vm_compute; reflexivity|]. split; [vm_compute; reflexivity|].
    match goal with |- Ok (start ?r) = _ /\ _ =>
      assert (E : extract_zzd_data (b_ unordered_events) = Ok r) by (vm_compute; reflexivity);
      pose proof (inference_replaces_zero_bounds (b_ unordered_events) r zero zero E
                    ltac:(vm_compute; reflexivity) ltac:(vm_compute; reflexivity)
                    ltac:(left; vm_compute; reflexivity)) as H
    end.
    vm_compute candidate_pool in H. destruct H as (Hs & He & _).
    rewrite He, Hs. vm_compute. split; reflexivity.
Defined.

(** One diagnostic row at 693.25 hours and no marker: the end is forced. *)
Lemma single_event_bounds :
  exists r, extract_zzd_data (b_ (warn_lines "693.25" "warning" "W2013" "X")) = Ok r /\
    Ok (start r) = PyFloat.of_bytes (b_ "693.25") /\
    Ok (end_ r) = PyFloat.of_bytes (b_ "694.25").
Proof. eexists. split; [vm_compute; reflexivity|]. by vm_compute. Qed.

(** ** C5: the windows of the two markers *)

(** C5: the start marker is searched in the first 5000 bytes and the end
    marker in the last 5000 bytes; what lies outside the window [w] has no
    part in the search, and a window without a match gives the time [0.0],
    whatever the bytes outside it are. *)
Theorem markers_are_searched_in_windows (pre w post : bytes) :
  length w = 5000%nat ->
  start_match (w ++ post) = search RE_START w /\
  end_match (pre ++ w) = search RE_END w /\
  (search RE_START w = None -> marker_time (start_match (w ++ post)) = Ok zero) /\
  (search RE_END w = None -> marker_time (end_match (pre ++ w)) = Ok zero).
Proof.
  intros L.
  assert (start_match (w ++ post) = search RE_START w) as Hs.
  { unfold start_match, first_bytes. rewrite <- L. by rewrite take_app_length. }
  assert (end_match (pre ++ w) = search RE_END w) as He.
  { unfold end_match, last_bytes. rewrite length_app, L.
    replace (length pre + 5000 - 5000)%nat with (length pre) by lia.
    by rewrite drop_app_length. }
  rewrite Hs, He. repeat split; by intros ->.
Qed.

(** Markers with numbers, put outside the windows. *)
Lemma markers_are_searched_in_windows_witness :
  marker_time (start_match (blank_window ++ b_ "start time 12.5")) = Ok zero /\
  marker_time (end_match (b_ "end time 99.0" ++ blank_window)) = Ok zero /\
  is_Some (search RE_START (blank_window ++ b_ "start time 12.5")) /\
  is_Some (search RE_END (b_ "end time 99.0" ++ blank_window)).
Proof.
  destruct (markers_are_searched_in_windows
              (b_ "end time 99.0") blank_window (b_ "start time 12.5"))
    as (_ & _ & Hs & He); [reflexivity|].
  split; [apply Hs; vm_compute; reflexivity|].
  split; [apply He; vm_compute; reflexivity|].
  split; vm_compute; eauto.
Defined.

(** ** C6: the shape of a convergence block *)

Lemma newlines_app u v : newlines (u ++ v) = (newlines u + newlines v)%nat.
Proof. induction u as [|x u IH]; simpl; [reflexivity | rewrite IH; lia]. Qed.

Lemma eqb_nocase_sym a b : eqb_nocase a b = eqb_nocase b a.
Proof. unfold eqb_nocase. apply N.eqb_sym. Qed.

Lemma lit_word_starts s w rest :
  lit_word (fl RE_CONV) s w -> starts_with_nocase (b_ s) (w ++ rest) = true.
Proof.
  unfold lit_word. generalize (b_ s). intros l H.
  induction H as [|x b w l Hx _ IH]; simpl; [by destruct rest|].
  simpl in Hx. by rewrite eqb_nocase_sym, Hx, IH.
Qed.

Lemma contains_nocase_here p s : starts_with_nocase p s = true -> contains_nocase p s = true.
Proof. intros H. destruct s; simpl; by rewrite H. Qed.

Lemma contains_nocase_skip p u s :
  contains_nocase p s = true -> contains_nocase p (u ++ s) = true.
Proof.
  intros H. induction u as [|x u IH]; simpl; [assumption|].
  rewrite IH. apply orb_true_r.
Qed.

(** Three line breaks between the time line and the line of the corrections:
    the block matches all the same, and gives its row. *)
Lemma three_line_breaks_match :
  exists m r,
    finditer RE_CONV (b_ (conv_lines three_breaks "0.003")) = [m] /\
    group m 1 = Some (b_ "10.5") /\ group m 2 = Some (b_ "0.003") /\
    extract_zzd_data (b_ (conv_lines three_breaks "0.003")) = Ok r /\
    length (dq r) = 1%nat.
Proof.
  do 2 eexists. split; [vm_compute; reflexivity|].
  split; [vm_compute; reflexivity|]. split; [vm_compute; reflexivity|].
  split; [vm_compute; reflexivity|]. reflexivity.
Qed.

(** One line break, or none: no match. *)
Lemma fewer_line_breaks_no_match :
  finditer RE_CONV (b_ (conv_lines nl "0.003")) = [] /\
  finditer RE_CONV (b_ (conv_lines EmptyString "0.003")) = [].
Proof. split; vm_compute; reflexivity. Qed.

(** C6 (amended): every match of [RE_CONV] is a block of the shape
    [conv_block]: the phrase, the time token, then at least two line breaks
    (the wildcards before, between and after them also run over line breaks,
    so more lines may lie in between), then "MAX DQ=" with value and node and
    "MAX DH=" with value and node.  Between the time token and "MAX DQ=" of
    a match there are never fewer than two line breaks. *)
Theorem conv_match_has_two_line_breaks (s : bytes) (m : Match) :
  m ∈ finditer RE_CONV s ->
  exists pre w head t gap tail,
    s = pre ++ w ++ rest m /\
    conv_block (fl RE_CONV) w (groups m) /\
    w = head ++ t ++ gap ++ tail /\
    starts_with_nocase (b_ "Poor model convergence") head = true /\
    group m 1 = Some t /\ number_token t /\
    (2 <= newlines gap)%nat /\
    starts_with_nocase (b_ "MAX DQ=") tail = true.
Proof.
  intros Hin. apply finditer_sound in Hin as (pre & w & Hs & M).
  apply RE_CONV_shape in M. exists pre, w.
  destruct m as [gm rm]. cbn [groups rest] in *.
  destruct M as [phrase a1 time sp1 t g1 g2 g3 dqlit sp2 v2 sp3 at1 sp4 n3 a2
                   dhlit sp5 v4 sp6 at2 sp7 n5 Hph Htime Hsp1 Ht Hdq].
  exists (phrase ++ a1 ++ time ++ sp1), t, (g1 ++ [newline] ++ g2 ++ [newline] ++ g3),
    (dqlit ++ sp2 ++ v2 ++ sp3 ++ at1 ++ sp4 ++ n3 ++ a2 ++
     dhlit ++ sp5 ++ v4 ++ sp6 ++ at2 ++ sp7 ++ n5).
  split; [assumption|]. split; [by constructor|].
  split; [by rewrite <- !app_assoc|].
  split; [by apply lit_word_starts|].
  split; [reflexivity|]. split; [assumption|].
  split; [|by apply lit_word_starts].
  rewrite !newlines_app. simpl. lia.
Qed.

(** The block with two line breaks, and its match. *)
Lemma conv_match_has_two_line_breaks_witness :
  exists m pre w head t gap tail,
    finditer RE_CONV (b_ (conv_lines two_breaks "0.003")) = [m] /\
    b_ (conv_lines two_breaks "0.003") = pre ++ w ++ rest m /\
    conv_block (fl RE_CONV) w (groups m) /\
    w = head ++ t ++ gap ++ tail /\
    starts_with_nocase (b_ "Poor model convergence") head = true /\
    group m 1 = Some t /\ number_token t /\
    (2 <= newlines gap)%nat /\
    starts_with_nocase (b_ "MAX DQ=") tail = true.
Proof.
  eexists.
  match goal with |- context [finditer ?p ?s = [?m]] =>
    assert (E : finditer p s = [m]) by (vm_compute; reflexivity);
    destruct (conv_match_has_two_line_breaks s m) as (pre & w & head & t & gap & tail & H);
      [rewrite E; apply list_elem_of_here|]
  end.
  exists pre, w, head, t, gap, tail. split; [exact E | exact H].
Defined.

(** ** Blocks that lack a correction *)

Lemma match_of_RE_CONV_contains s m :
  match_of RE_CONV s m ->
  contains_nocase (b_ "MAX DQ=") s = true /\ contains_nocase (b_ "MAX DH=") s = true.
Proof.
  intros (pre & w & -> & M). apply RE_CONV_shape in M. destruct M.
  rewrite <- !app_assoc. split.
  - do 11 apply contains_nocase_skip. by apply contains_nocase_here, lit_word_starts.
  - do 19 apply contains_nocase_skip. by apply contains_nocase_here, lit_word_starts.
Qed.

Lemma row_times_agree ms : forall rq rh,
  Forall2 dq_row_of ms rq -> Forall2 dh_row_of ms rh ->
  map Conv.time rq = map Conv.time rh.
Proof.
  induction ms as [|m ms IH]; intros rq rh Hq Hh.
  - by apply Forall2_nil_inv_l in Hq as ->; apply Forall2_nil_inv_l in Hh as ->.
  - apply Forall2_cons_inv_l in Hq as (q & rq' & (Eq & _) & Hq & ->).
    apply Forall2_cons_inv_l in Hh as (h & rh' & (Eh & _) & Hh & ->).
    simpl. f_equal; [congruence | by apply IH].
Qed.

(** A block without "MAX DH=", then a whole block: the wildcard behind the
    node of the first block runs on to the "MAX DH=" of the second.  The
    first block gives a row after all, with the head correction of the
    second, and the second block gives no row of its own. *)
Lemma half_block_is_paired_with_later_block :
  exists r, extract_zzd_data (b_ half_then_whole) = Ok r /\
    dq r = [ {| Conv.time := of_decimal false 10 (-1);
                Conv.value := of_decimal false 5 (-1);
                Conv.node := "A1" |} ] /\
    dh r = [ {| Conv.time := of_decimal false 10 (-1);
                Conv.value := of_decimal false 12 (-3);
                Conv.node := "N2" |} ].
Proof.
  eexists. split; [vm_compute; reflexivity|].
  split; vm_compute; reflexivity.
Qed.

(** The line of the corrections without its head correction: no row. *)
Lemma half_block_gives_no_row :
  exists r,
    extract_zzd_data
      (b_ (" Poor model convergence at model time   10.5 hrs" ++ two_breaks ++
           "  MAX DQ=  0.003 at N1" ++ nl)) = Ok r /\
    dq r = [] /\ dh r = [].
Proof. eexists. split; [vm_compute; reflexivity|]. by vm_compute. Qed.

(** ** The severity word *)

(** A byte that equals a lower-case letter up to case is the letter or its
    capital. *)
Lemma eqb_nocase_letter x b :
  is_lower b = true -> eqb_nocase x b = true ->
  ord x = ord b \/ ord x = (ord b - 32)%N.
Proof.
  unfold is_lower, eqb_nocase, lower_code, is_upper, between.
  intros Hb H. apply andb_true_iff in Hb as [B1 B2]. apply N.leb_le in B1, B2.
  assert ((ord b <=? 90)%N = false) as Eb by (apply N.leb_gt; lia).
  rewrite Eb, andb_false_r in H.
  destruct ((65 <=? ord x)%N && (ord x <=? 90)%N); apply N.eqb_eq in H; lia.
Qed.

Lemma upper_of_letter x b :
  is_lower b = true -> eqb_nocase x b = true -> upper_byte x = upper_byte b.
Proof.
  intros Hb H. destruct (eqb_nocase_letter x b Hb H) as [E|E].
  - by apply ord_inj in E as ->.
  - unfold upper_byte. rewrite Hb.
    assert (is_lower x = false) as ->.
    { unfold is_lower, between in *. apply andb_true_iff in Hb as [B1 B2].
      apply N.leb_le in B1, B2. apply andb_false_iff. left. apply N.leb_gt. lia. }
    unfold ord in *. rewrite <- E, Byte.of_to_N. reflexivity.
Qed.

Lemma is_ascii_of_letter x b :
  is_lower b = true -> eqb_nocase x b = true -> (ord x <? 128)%N = true.
Proof.
  intros Hb H. destruct (eqb_nocase_letter x b Hb H) as [E|E];
    unfold is_lower, between in Hb; apply andb_true_iff in Hb as [B1 B2];
    apply N.leb_le in B1, B2; apply N.ltb_lt; lia.
Qed.

Lemma decode_ignore_ascii w :
  Forall (fun x => (ord x <? 128)%N = true) w -> Utf8.decode_ignore w = w.
Proof. induction 1 as [|x w Hx _ IH]; simpl; [reflexivity | by rewrite Hx, IH]. Qed.

Lemma upper_lit_word s w :
  Forall (fun b => is_lower b = true) (b_ s) ->
  lit_word (fl RE_WARN) s w ->
  Utf8.upper (Utf8.decode w) = string_of_list_byte (map upper_byte (b_ s)).
Proof.
  unfold lit_word, Utf8.upper, Utf8.decode. intros Hl H.
  rewrite list_byte_of_string_of_list_byte. f_equal.
  assert (Forall (fun x => (ord x <? 128)%N = true) w /\
          map upper_byte w = map upper_byte (b_ s)) as [Ha Hu].
  { induction H as [|x b w l Hx _ IH]; [by split|].
    apply Forall_cons in Hl as [Hb Hl]. simpl in Hx. destruct (IH Hl) as [? ?].
    split; [constructor; [by eapply is_ascii_of_letter | assumption]|].
    simpl. f_equal; [by apply upper_of_letter | assumption]. }
  by rewrite decode_ignore_ascii.
Qed.

(** The type of a diagnostic row is one of three words: [upper] meets only
    ASCII letters there. *)
Lemma warn_type_is_severity s m e :
  match_of RE_WARN s m -> warn_entry_of m e ->
  Warn.type e = "WARNING"%string \/ Warn.type e = "NOTE"%string \/
  Warn.type e = "ERROR"%string.
Proof.
  intros Hm (_ & (g2 & Eg & ->) & _).
  apply RE_WARN_groups in Hm as (t & sev & c & l & (_ & E2 & _) & _ & _ & Hsev).
  rewrite E2 in Eg. injection Eg as <-.
  destruct Hsev as [H | [H | H]]; apply upper_lit_word in H;
    try (rewrite H; vm_compute; auto; fail);
    repeat constructor.
Qed.

(** ** No match is empty *)

Lemma lit_word_nonempty fl s w : b_ s <> [] -> lit_word fl s w -> w <> [].
Proof. unfold lit_word. intros Hs H ->. by apply Forall2_nil_inv_l in H. Qed.

(** Every match of the four patterns consumes at least one byte, so the scan
    of [finditer] always resumes behind a match, never at its start. *)
Lemma matched_word_nonempty p w g :
  p = RE_START \/ p = RE_END \/ p = RE_CONV \/ p = RE_WARN ->
  matches (fl p) (re p) w ∅ g -> w <> [].
Proof.
  intros [-> | [-> | [-> | ->]]] M; cbn [re fl RE_START RE_END RE_CONV RE_WARN] in M;
    apply matches_seq_cons in M as (w1 & w2 & g1 & -> & M1 & _);
    apply matches_lit in M1 as [_ M1];
    apply lit_word_nonempty in M1; try discriminate;
    by destruct w1.
Qed.

(** ** The model on known values *)

Example float_of_tenth :
  PyFloat.of_bytes (b_ "0.1") = Ok (S754_finite false 7205759403792794 (-56)).
Proof. vm_compute. reflexivity. Qed.

Example float_of_one : PyFloat.of_bytes (b_ "1.0") = Ok one.
Proof. vm_compute. reflexivity. Qed.

Example float_of_signed_exponent :
  PyFloat.of_bytes (b_ "-1.5e-3") = Ok (of_decimal true 15 (-4)).
Proof. vm_compute. reflexivity. Qed.

Example float_of_long_digits :
  PyFloat.of_bytes (b_ "9007199254740993") = PyFloat.of_bytes (b_ "9007199254740992").
Proof. vm_compute. reflexivity. Qed.

Example float_rejects :
  map (fun s => PyFloat.of_bytes (b_ s)) ["****"; "1e"; "_1"; "1__0"; "."; EmptyString; "0x10"]%string
  = repeat (Raise ValueError) 7.
Proof. vm_compute. reflexivity. Qed.

Example start_marker_lazy_then_greedy :
  option_map (fun m => group m 1) (search RE_START (b_ "Start Time (hrs): 12.50.3"))
  = Some (Some (b_ "12.50")).
Proof. vm_compute. reflexivity. Qed.

Example start_marker_stays_on_its_line :
  search RE_START (b_ ("start time" ++ nl ++ "5")) = None.
Proof. vm_compute. reflexivity. Qed.

Example decode_drops_ill_formed_bytes :
  Utf8.decode [x4e; xff; xc3; xa9; xc3; x31; xe2; x82] = Utf8.decode [x4e; xc3; xa9; x31].
Proof. vm_compute. reflexivity. Qed.

(** * Further properties of the code *)

(** ** The matcher finds a match wherever the pattern has one *)

Section RepComplete.
Context {R : Type} (p : byte -> bool).

Lemma rep_word_tail lo hi x w :
  rep_word p lo hi (x :: w) ->
  more hi && p x = true /\ rep_word p (pred lo) (option_map pred hi) w.
Proof.
  intros (Hall & Hlo & Hhi). apply Forall_cons in Hall as [Hx Hall].
  split.
  - rewrite Hx, andb_true_r. destruct hi as [[|h]|]; try reflexivity.
    specialize (Hhi 0%nat eq_refl). simpl in Hhi. lia.
  - split; [assumption|]. split; [simpl in Hlo; lia|].
    intros h Hh. destruct hi as [h0|]; [|discriminate]. injection Hh as <-.
    specialize (Hhi h0 eq_refl). simpl in Hhi. lia.
Qed.

Lemma rep_greedy_complete w : forall lo hi s' (k : bytes -> option R) x,
  rep_word p lo hi w -> k s' = Some x ->
  exists y, rep_greedy p lo hi (w ++ s') k = Some y.
Proof.
  induction w as [|a w IH]; intros lo hi s' k x Hw Hk.
  - destruct Hw as (_ & Hlo & _). simpl in Hlo.
    assert (lo = 0%nat) as -> by lia. simpl.
    destruct s' as [|b s']; simpl; [eauto|].
    destruct (more hi && p b); [|eauto].
    destruct (rep_greedy p _ _ s' k); eauto.
  - apply rep_word_tail in Hw as [Ha Hw]. simpl. rewrite Ha.
    destruct (IH _ _ s' k x Hw Hk) as [y ->]. eauto.
Qed.

Lemma rep_lazy_complete w : forall lo hi s' (k : bytes -> option R) x,
  rep_word p lo hi w -> k s' = Some x ->
  exists y, rep_lazy p lo hi (w ++ s') k = Some y.
Proof.
  induction w as [|a w IH]; intros lo hi s' k x Hw Hk.
  - destruct Hw as (_ & Hlo & _). simpl in Hlo.
    assert (lo = 0%nat) as -> by lia. simpl.
    destruct s' as [|b s']; simpl; rewrite Hk; eauto.
  - apply rep_word_tail in Hw as [Ha Hw]. simpl.
    destruct (stop lo (a :: w ++ s') k); [eauto|].
    rewrite Ha. eapply IH; eassumption.
Qed.
End RepComplete.

Lemma exec_complete fl r w g g' :
  matches fl r w g g' ->
  forall R s' (k : bytes -> captures -> option R) x,
    k s' g' = Some x -> exists y, exec fl r (w ++ s') g k = Some y.
Proof.
  induction 1 as [g|c a g Ha|c lo hi greedy w g Hall Hlo Hhi
                  |r1 r2 w1 w2 g g' g'' _ IH1 _ IH2
                  |r1 r2 w g g' _ IH|r1 r2 w g g' _ IH|n r w g g' _ IH];
    intros R s' k x Hk; simpl.
  - eauto.
  - rewrite Ha. eauto.
  - destruct greedy;
      [eapply (rep_greedy_complete _ w lo hi s' (fun s'' => k s'' g))
      |eapply (rep_lazy_complete _ w lo hi s' (fun s'' => k s'' g))];
      try exact Hk; by repeat split.
  - rewrite <- app_assoc.
    destruct (IH2 R s' k x Hk) as [y Hy].
    eapply IH1. exact Hy.
  - destruct (IH R s' k x Hk) as [y ->]. eauto.
  - destruct (exec fl r1 (w ++ s') g k); [eauto|]. eapply IH. exact Hk.
  - eapply IH. rewrite length_app.
    replace (length w + length s' - length s')%nat with (length w) by lia.
    rewrite take_app_length. exact Hk.
Qed.

Lemma match_here_complete p w s' g :
  matches (fl p) (re p) w ∅ g -> is_Some (match_here p (w ++ s')).
Proof.
  intros M. unfold match_here.
  destruct (exec_complete _ _ _ _ _ M _ s'
              (fun s'' g'' => Some {| groups := g''; rest := s'' |}) _ eq_refl)
    as [y ->]. eauto.
Qed.

(** A match of [p] somewhere in [s]. *)
Lemma search_complete p pre w post g :
  matches (fl p) (re p) w ∅ g -> is_Some (search p (pre ++ w ++ post)).
Proof.
  intros M. induction pre as [|x pre IH].
  - destruct (match_here_complete p w post g M) as [m Hm]. simpl.
    destruct (w ++ post); simpl; rewrite Hm; eauto.
  - simpl. destruct (match_here p (x :: pre ++ w ++ post)); [eauto | exact IH].
Qed.

(** ** A search returns the leftmost match *)

Lemma occurs_at_cons p x s n : occurs_at p s n -> occurs_at p (x :: s) (S n).
Proof.
  intros (pre & w & post & g & -> & <- & M). exists (x :: pre), w, post, g. auto.
Qed.

Lemma occurs_at_tail p x s n :
  occurs_at p (x :: s) n -> n = 0%nat \/ exists n', n = S n' /\ occurs_at p s n'.
Proof.
  intros (pre & w & post & g & Hs & <- & M). destruct pre as [|y pre]; [by left|].
  right. injection Hs as -> ->. exists (length pre). split; [reflexivity|].
  exists pre, w, post, g. auto.
Qed.

Lemma match_here_none p s : match_here p s = None -> ~ occurs_at p s 0.
Proof.
  intros Hn (pre & w & post & g & -> & Hpre & M).
  apply nil_length_inv in Hpre as ->. simpl in Hn.
  destruct (match_here_complete p w post g M) as [m Hm]. congruence.
Qed.

Lemma search_leftmost p s : leftmost_match p s (search p s).
Proof.
  induction s as [|x s IH]; simpl.
  - destruct (match_here p []) as [m|] eqn:E.
    + apply match_here_sound in E as (w & Hs & M). exists [], w.
      split; [assumption|]. split; [assumption|]. intros n _. simpl. lia.
    + intros n (pre & w & post & g & Hs & <- & M).
      symmetry in Hs. apply app_eq_nil in Hs as [-> Hs].
      eapply match_here_none; [exact E|]. exists [], w, post, g. auto.
  - destruct (match_here p (x :: s)) as [m|] eqn:E.
    + apply match_here_sound in E as (w & Hs & M). exists [], w.
      split; [assumption|]. split; [assumption|]. intros n _. simpl. lia.
    + apply match_here_none in E.
      destruct (search p s) as [m|]; simpl in IH.
      * destruct IH as (pre & w & -> & M & Hleft). exists (x :: pre), w.
        split; [reflexivity|]. split; [assumption|].
        intros n Hn.
        destruct (occurs_at_tail _ _ _ _ Hn) as [-> | (n' & -> & Hn')]; [done|].
        apply Hleft in Hn'. simpl. lia.
      * intros n Hn.
        destruct (occurs_at_tail _ _ _ _ Hn) as [-> | (n' & -> & Hn')]; [done|].
        by apply IH in Hn'.
Qed.

(** ** [finditer] is a search repeated behind each match *)

Lemma finditer_from_skip p s : forall n,
  (n <= length s)%nat -> finditer_from p n s = finditer_from p 0 (drop n s).
Proof.
  induction s as [|x s IH]; intros n Hn.
  - simpl in Hn. assert (n = 0%nat) as -> by lia. reflexivity.
  - destruct n as [|n]; [reflexivity|]. simpl. apply IH. simpl in Hn. lia.
Qed.

Lemma finditer_unfold p s :
  (forall w g, matches (fl p) (re p) w ∅ g -> w <> []) ->
  finditer p s =
    match search p s with
    | Some m => m :: finditer p (rest m)
    | None => []
    end.
Proof.
  intros Hne. unfold finditer. induction s as [|x s IH]; simpl.
  - destruct (match_here p []) as [m|] eqn:E; [|reflexivity].
    apply match_here_sound in E as (w & Hs & M).
    symmetry in Hs. apply app_eq_nil in Hs as [-> _]. by apply Hne in M.
  - destruct (match_here p (x :: s)) as [m|] eqn:E; [|exact IH].
    f_equal. apply match_here_sound in E as (w & Hs & M).
    pose proof (Hne _ _ M) as Hw. destruct w as [|y w]; [done|].
    injection Hs as -> ->.
    assert (S (length (w ++ rest m)) - length (rest m) - 1 = length w)%nat as ->
      by (rewrite length_app; lia).
    rewrite finditer_from_skip by (rewrite length_app; lia).
    by rewrite drop_app_length.
Qed.

(** ** X1: the marker that is taken *)

(** X1: the start marker taken is the leftmost match of [RE_START] in the
    first 5000 bytes, the end marker the leftmost match of [RE_END] in the
    last 5000 bytes; no match is returned exactly when the window has none
    at any offset. *)
Theorem markers_are_leftmost (s : bytes) :
  leftmost_match RE_START (first_bytes 5000 s) (start_match s) /\
  leftmost_match RE_END (last_bytes 5000 s) (end_match s).
Proof. split; apply search_leftmost. Qed.

(** ** X2: the matches of a loop *)

Lemma no_empty_match p :
  p = RE_START \/ p = RE_END \/ p = RE_CONV \/ p = RE_WARN ->
  forall w g, matches (fl p) (re p) w ∅ g -> w <> [].
Proof. intros Hp w g. by apply matched_word_nonempty. Qed.

(** X2: the matches the two loops run over are those of a search repeated
    behind each match: the first is the leftmost match in the buffer, the
    next the leftmost match in the bytes behind it, until a search finds
    nothing. *)
Theorem finditer_is_repeated_search (s : bytes) :
  finditer RE_CONV s =
    match search RE_CONV s with
    | Some m => m :: finditer RE_CONV (rest m)
    | None => []
    end /\
  finditer RE_WARN s =
    match search RE_WARN s with
    | Some m => m :: finditer RE_WARN (rest m)
    | None => []
    end.
Proof. split; apply finditer_unfold, no_empty_match; auto. Qed.

(** ** X3: rows and blocks *)

Lemma finditer_nil_iff p s :
  (forall w g, matches (fl p) (re p) w ∅ g -> w <> []) ->
  finditer p s = [] <-> forall n, ~ occurs_at p s n.
Proof.
  intros Hne. rewrite (finditer_unfold p s Hne).
  pose proof (search_leftmost p s) as H.
  destruct (search p s) as [m|]; simpl in H.
  - split; [discriminate|]. intros Hno. destruct H as (pre & w & Hs & M & _).
    exfalso. apply (Hno (length pre)). exists pre, w, (rest m), (groups m). auto.
  - split; auto.
Qed.

(** X3: a returned result has no convergence row exactly when [RE_CONV] has
    no match at any offset of the buffer, and no diagnostic row exactly when
    [RE_WARN] has none: no block that the pattern describes at the head of
    the scan is passed over. *)
Theorem no_rows_iff_no_match (s : bytes) (r : result) :
  extract_zzd_data s = Ok r ->
  (dq r = [] <-> forall n, ~ occurs_at RE_CONV s n) /\
  (dh r = [] <-> forall n, ~ occurs_at RE_CONV s n) /\
  (warnings r = [] <-> forall n, ~ occurs_at RE_WARN s n).
Proof.
  intros H.
  apply extract_with_inv in H as (t0 & t1 & dq_data & dh_data & st & _ & _ & Ec & Ew & ->).
  apply conv_loop_rows in Ec as (rq & rh & -> & -> & Hq & Hh).
  apply warn_loop_rows in Ew as [(rows & Hd & Hrows) _]. simpl in Hd.
  cbn [dq dh warnings app].
  rewrite <- !(finditer_nil_iff _ s) by (apply no_empty_match; auto).
  apply Forall2_length in Hq, Hh, Hrows.
  assert (length (with_notes WARNING_DESCRIPTIONS (warn_data st)) = length rows) as Hl.
  { rewrite <- (length_map Warn.data), with_notes_data. by rewrite Hd. }
  repeat split; intros E;
    try (apply nil_length_inv; rewrite E in *; simpl in *; lia);
    try (apply nil_length_inv; apply (f_equal length) in E; simpl in E; lia).
Qed.

Lemma no_rows_iff_no_match_witness :
  exists r, extract_zzd_data (b_ two_errors) = Ok r /\
    (dq r = [] <-> forall n, ~ occurs_at RE_CONV (b_ two_errors) n) /\
    length (warnings r) = 2%nat.
Proof.
  eexists. split; [vm_compute; reflexivity|].
  split; [|reflexivity].
  match goal with |- dq ?r = _ <-> _ =>
    destruct (no_rows_iff_no_match (b_ two_errors) r) as (H & _);
      [vm_compute; reflexivity | exact H]
  end.
Defined.

(** ** X4: the order of the matches *)

Lemma finditer_tail p s :
  (forall w g, matches (fl p) (re p) w ∅ g -> w <> []) ->
  forall ms1 m ms2, finditer p s = ms1 ++ m :: ms2 ->
    ms2 = finditer p (rest m) /\
    exists pre w, s = pre ++ w ++ rest m /\ matches (fl p) (re p) w ∅ (groups m).
Proof.
  intros Hne ms1. revert s. induction ms1 as [|m1 ms1 IH]; intros s m ms2 E;
    rewrite (finditer_unfold p s Hne) in E;
    pose proof (search_leftmost p s) as HL;
    destruct (search p s) as [m0|]; simpl in HL; try discriminate E.
  - injection E as -> <-. split; [reflexivity|].
    destruct HL as (pre & w & Hs & M & _). eauto.
  - injection E as -> E. apply IH in E as [-> (pre & w & Hs & M)].
    split; [reflexivity|].
    destruct HL as (pre1 & w1 & -> & _ & _). rewrite Hs.
    exists (pre1 ++ w1 ++ pre), w. by rewrite <- !app_assoc.
Qed.

(** X4: the matches of a loop come in the order of the buffer and do not
    overlap: a match [m] of the list of [RE_CONV] (of [RE_WARN]) is a
    stretch of the buffer that is not empty, and the matches behind it in
    the list are exactly the matches of the same pattern in the bytes
    [rest m] that follow it, each of them a stretch of those bytes. *)
Theorem later_matches_lie_behind
    (p : pattern) (s : bytes) (ms1 ms2 : list Match) (m : Match) :
  p = RE_CONV \/ p = RE_WARN ->
  finditer p s = ms1 ++ m :: ms2 ->
  exists pre w,
    s = pre ++ w ++ rest m /\ w <> [] /\
    matches (fl p) (re p) w ∅ (groups m) /\
    ms2 = finditer p (rest m) /\
    Forall (fun m' => exists pre' w',
              rest m = pre' ++ w' ++ rest m' /\ w' <> [] /\
              matches (fl p) (re p) w' ∅ (groups m')) ms2.
Proof.
  intros Hp E.
  assert (forall w g, matches (fl p) (re p) w ∅ g -> w <> []) as Hne
    by (apply no_empty_match; tauto).
  destruct (finditer_tail _ _ Hne _ _ _ E) as [-> (pre & w & Hs & M)].
  exists pre, w. split; [assumption|]. split; [by eapply Hne|].
  split; [assumption|]. split; [reflexivity|].
  apply Forall_forall. intros m' Hm'.
  apply finditer_sound in Hm' as (pre' & w' & Hs' & M').
  exists pre', w'. split; [assumption|]. split; [by eapply Hne | assumption].
Qed.

Lemma later_matches_lie_behind_witness :
  exists m1 m2 pre w,
    finditer RE_WARN (b_ two_errors) = [m1; m2] /\
    b_ two_errors = pre ++ w ++ rest m1 /\ w <> [] /\
    matches (fl RE_WARN) (re RE_WARN) w ∅ (groups m1) /\
    [m2] = finditer RE_WARN (rest m1) /\
    Forall (fun m' => exists pre' w',
              rest m1 = pre' ++ w' ++ rest m' /\ w' <> [] /\
              matches (fl RE_WARN) (re RE_WARN) w' ∅ (groups m')) [m2].
Proof.
  do 2 eexists.
  match goal with |- context [finditer ?p ?s = [?m1; ?m2]] =>
    assert (E : finditer p s = [] ++ m1 :: [m2]) by (vm_compute; reflexivity);
    destruct (later_matches_lie_behind p s [] [m2] m1 (or_intror eq_refl) E)
      as (pre & w & H)
  end.
  exists pre, w. split; [exact E | exact H].
Defined.

(** ** C7: one pair of rows per convergence block *)

Lemma count_nocase_skip p u s n :
  (n <= count_nocase p s)%nat -> (n <= count_nocase p (u ++ s))%nat.
Proof. intros H. induction u as [|x u IH]; simpl; [assumption | lia]. Qed.

Lemma count_nocase_lit s lit v n :
  b_ s <> [] -> lit_word (fl RE_CONV) s lit ->
  (n <= count_nocase (b_ s) v)%nat -> (S n <= count_nocase (b_ s) (lit ++ v))%nat.
Proof.
  intros Hs Hl Hn. pose proof (lit_word_starts s lit v Hl) as Hst.
  pose proof (lit_word_nonempty _ _ _ Hs Hl) as Hne.
  destruct lit as [|x lit]; [done|].
  change ((x :: lit) ++ v) with (x :: (lit ++ v)) in *.
  cbn [count_nocase]. rewrite Hst.
  pose proof (count_nocase_skip (b_ s) lit v n Hn). lia.
Qed.

(** A match holds the phrase and the two tokens, each before the bytes that
    follow the match. *)
Lemma match_counts s m :
  match_of RE_CONV s m ->
  (S (count_nocase (b_ "Poor model convergence") (rest m)) <=
     count_nocase (b_ "Poor model convergence") s)%nat /\
  (S (count_nocase (b_ "MAX DQ=") (rest m)) <= count_nocase (b_ "MAX DQ=") s)%nat /\
  (S (count_nocase (b_ "MAX DH=") (rest m)) <= count_nocase (b_ "MAX DH=") s)%nat.
Proof.
  intros (pre & w & -> & M). apply RE_CONV_shape in M. destruct M.
  rewrite <- !app_assoc. repeat split.
  - apply count_nocase_skip. apply count_nocase_lit; [done | assumption |].
    repeat apply count_nocase_skip. reflexivity.
  - do 11 apply count_nocase_skip. apply count_nocase_lit; [done | assumption |].
    repeat apply count_nocase_skip. reflexivity.
  - do 19 apply count_nocase_skip. apply count_nocase_lit; [done | assumption |].
    repeat apply count_nocase_skip. reflexivity.
Qed.

Lemma matches_are_counted ms : forall s,
  finditer RE_CONV s = ms ->
  (length ms <= count_nocase (b_ "Poor model convergence") s)%nat /\
  (length ms <= count_nocase (b_ "MAX DQ=") s)%nat /\
  (length ms <= count_nocase (b_ "MAX DH=") s)%nat.
Proof.
  induction ms as [|m ms IH]; intros s E; [simpl; lia|].
  assert (match_of RE_CONV s m) as Hm
    by (apply finditer_sound; rewrite E; apply list_elem_of_here).
  destruct (finditer_tail RE_CONV s (no_empty_match RE_CONV ltac:(auto)) [] m ms E)
    as [Hms _].
  symmetry in Hms. apply IH in Hms. apply match_counts in Hm. simpl. lia.
Qed.

(** A match starts before any tail of the buffer that lacks one of the two
    tokens. *)
Lemma match_starts_before_tail pre tail m :
  contains_nocase (b_ "MAX DQ=") tail = false \/
  contains_nocase (b_ "MAX DH=") tail = false ->
  match_of RE_CONV (pre ++ tail) m ->
  exists p w, pre ++ tail = p ++ w ++ rest m /\
    matches (fl RE_CONV) (re RE_CONV) w ∅ (groups m) /\ (length p < length pre)%nat.
Proof.
  intros Hno (p & w & Hs & M). exists p, w. split; [assumption|]. split; [assumption|].
  destruct (decide (length p < length pre)%nat) as [|Hge]; [assumption|]. exfalso.
  assert (exists u, tail = u ++ w ++ rest m) as [u ->].
  { exists (drop (length pre) p).
    apply (f_equal (drop (length pre))) in Hs.
    rewrite drop_app_length in Hs. rewrite Hs.
    rewrite drop_app_le by lia. reflexivity. }
  assert (match_of RE_CONV (u ++ w ++ rest m) m) as Hm by (exists u, w; auto).
  apply match_of_RE_CONV_contains in Hm as [H1 H2]. destruct Hno; congruence.
Qed.

(** A whole block, then a block without "MAX DH=": one row, that of the
    whole block. *)
Lemma whole_then_half_gives_one_row :
  exists r, extract_zzd_data (b_ whole_then_half) = Ok r /\
    dq r = [ {| Conv.time := of_decimal false 105 (-1);
                Conv.value := of_decimal false 3 (-3);
                Conv.node := "N1" |} ] /\
    dh r = [ {| Conv.time := of_decimal false 105 (-1);
                Conv.value := of_decimal false 12 (-3);
                Conv.node := "N2" |} ] /\
    count_nocase (b_ "Poor model convergence") (b_ whole_then_half) = 2%nat /\
    count_nocase (b_ "MAX DQ=") (b_ whole_then_half) = 2%nat /\
    count_nocase (b_ "MAX DH=") (b_ whole_then_half) = 1%nat.
Proof.
  eexists. split; [vm_compute; reflexivity|].
  repeat split; vm_compute; reflexivity.
Qed.

(** C7 (amended): in a returned result every match of [RE_CONV] has given one
    row of [dq] and one row of [dh], in the order of the matches: both rows
    carry the time of group 1, the [dq] row the value and node of groups 2
    and 3, the [dh] row those of groups 4 and 5.  So the two lists have one
    length and the same times, index by index.  A block gives a row only
    with both tokens behind its phrase, its own or those of a later block:
    there are at most as many rows as the buffer has phrases, as it has
    "MAX DQ=" and as it has "MAX DH="; no row starts in a tail of the buffer
    that lacks one of the two tokens; and a buffer in which "MAX DQ=" or
    "MAX DH=" does not occur gives no row at all. *)
Theorem convergence_rows_are_paired (s : bytes) (r : result) :
  extract_zzd_data s = Ok r ->
  Forall2 dq_row_of (finditer RE_CONV s) (dq r) /\
  Forall2 dh_row_of (finditer RE_CONV s) (dh r) /\
  length (dq r) = length (dh r) /\
  map Conv.time (dq r) = map Conv.time (dh r) /\
  (length (dq r) <= count_nocase (b_ "Poor model convergence") s)%nat /\
  (length (dq r) <= count_nocase (b_ "MAX DQ=") s)%nat /\
  (length (dq r) <= count_nocase (b_ "MAX DH=") s)%nat /\
  (forall pre tail, s = pre ++ tail ->
     contains_nocase (b_ "MAX DQ=") tail = false \/
     contains_nocase (b_ "MAX DH=") tail = false ->
     Forall (fun m => exists p w,
                s = p ++ w ++ rest m /\
                matches (fl RE_CONV) (re RE_CONV) w ∅ (groups m) /\
                (length p < length pre)%nat)
            (finditer RE_CONV s)) /\
  (contains_nocase (b_ "MAX DQ=") s = false \/
   contains_nocase (b_ "MAX DH=") s = false -> dq r = [] /\ dh r = []).
Proof.
  intros H.
  apply extract_with_inv in H as (t0 & t1 & dq_data & dh_data & st & _ & _ & Ec & _ & ->).
  apply conv_loop_rows in Ec as (rq & rh & -> & -> & Hq & Hh). cbn [dq dh app].
  split; [assumption|]. split; [assumption|].
  split; [by rewrite <- (Forall2_length _ _ _ Hq), <- (Forall2_length _ _ _ Hh)|].
  split; [by eapply row_times_agree|].
  destruct (matches_are_counted _ s eq_refl) as (C1 & C2 & C3).
  rewrite <- (Forall2_length _ _ _ Hq).
  split; [assumption|]. split; [assumption|]. split; [assumption|].
  split.
  - intros pre tail -> Hno. apply Forall_forall. intros m Hm.
    apply finditer_sound in Hm. by apply match_starts_before_tail.
  - intros Hno.
    assert (finditer RE_CONV s = []) as E.
    { destruct (finditer RE_CONV s) as [|m ms] eqn:E; [reflexivity|].
      assert (match_of RE_CONV s m) as Hm
        by (apply finditer_sound; rewrite E; apply list_elem_of_here).
      apply match_of_RE_CONV_contains in Hm as [H1 H2].
      destruct Hno; congruence. }
    rewrite E in Hq, Hh.
    by apply Forall2_nil_inv_l in Hq as ->; apply Forall2_nil_inv_l in Hh as ->.
Qed.

(** The block of time 10.5, flow correction 0.003 at N1 and head correction
    0.012 at N2 gives one row in each list, with these five values; so does
    the same block with a block without "MAX DH=" behind it, where the
    buffer has one "MAX DH=" and so one row at most. *)
Lemma convergence_rows_are_paired_witness :
  (exists r, extract_zzd_data (b_ (conv_lines two_breaks "0.003")) = Ok r /\
     dq r = [ {| Conv.time := of_decimal false 105 (-1);
                 Conv.value := of_decimal false 3 (-3);
                 Conv.node := "N1" |} ] /\
     dh r = [ {| Conv.time := of_decimal false 105 (-1);
                 Conv.value := of_decimal false 12 (-3);
                 Conv.node := "N2" |} ] /\
     length (dq r) = length (dh r) /\
     map Conv.time (dq r) = map Conv.time (dh r)) /\
  (exists r, extract_zzd_data (b_ whole_then_half) = Ok r /\
     (length (dq r) <= 1)%nat /\ length (dq r) = length (dh r)).
Proof.
  split.
  - eexists. split; [vm_compute; reflexivity|].
    split; [vm_compute; reflexivity|]. split; [vm_compute; reflexivity|].
    match goal with |- length (dq ?r) = _ /\ _ =>
      destruct (convergence_rows_are_paired (b_ (conv_lines two_breaks "0.003")) r)
        as (_ & _ & HL & HT & _); [vm_compute; reflexivity|]
    end.
    split; [exact HL | exact HT].
  - eexists. split; [vm_compute; reflexivity|].
    match goal with |- (length (dq ?r) <= _)%nat /\ _ =>
      destruct (convergence_rows_are_paired (b_ whole_then_half) r)
        as (_ & _ & HL & _ & _ & _ & HC & _); [vm_compute; reflexivity|]
    end.
    split; [|exact HL].
    assert (count_nocase (b_ "MAX DH=") (b_ whole_then_half) = 1%nat) as E
      by (vm_compute; reflexivity).
    rewrite E in HC. exact HC.
Defined.

(** ** X5: the diagnostic rows *)

(** X5: in a returned result every match of [RE_WARN] has given one
    diagnostic row, in the order of the matches: the row has the time of
    group 1, the type is group 2 in capitals, the code is group 3 and the
    label group 4; the type is one of WARNING, NOTE and ERROR. *)
Theorem diagnostics_follow_matches (s : bytes) (r : result) :
  extract_zzd_data s = Ok r ->
  Forall2 warn_entry_of (finditer RE_WARN s) (map Warn.data (warnings r)) /\
  length (warnings r) = length (finditer RE_WARN s) /\
  Forall (fun w => Warn.type (Warn.data w) = "WARNING"%string \/
                   Warn.type (Warn.data w) = "NOTE"%string \/
                   Warn.type (Warn.data w) = "ERROR"%string) (warnings r).
Proof.
  intros H.
  apply extract_with_inv in H as (t0 & t1 & dq_data & dh_data & st & _ & _ & _ & Ew & ->).
  apply warn_loop_rows in Ew as [(rows & Hd & Hrows) _]. simpl in Hd.
  cbn [warnings]. rewrite Hd, with_notes_data.
  split; [assumption|]. split.
  - rewrite <- (length_map Warn.data), with_notes_data.
    symmetry. by eapply Forall2_length.
  - apply Forall_forall. intros w Hw.
    assert (Warn.data w ∈ rows) as Hin.
    { rewrite <- (with_notes_data WARNING_DESCRIPTIONS rows).
      apply list_elem_of_fmap. eauto. }
    clear Hw Hd. pose proof (finditer_all RE_WARN s) as HM.
    induction Hrows as [|m e ms rows He _ IH]; [by apply elem_of_nil in Hin|].
    apply Forall_cons in HM as [Hm HM].
    apply elem_of_cons in Hin as [-> | Hin]; [by eapply warn_type_is_severity | auto].
Qed.

Lemma diagnostics_follow_matches_witness :
  exists r, extract_zzd_data (b_ three_events) = Ok r /\
    map (fun w => Warn.type (Warn.data w)) (warnings r) = ["WARNING"; "ERROR"; "NOTE"]%string /\
    length (warnings r) = length (finditer RE_WARN (b_ three_events)).
Proof.
  eexists. split; [vm_compute; reflexivity|]. split; [vm_compute; reflexivity|].
  match goal with |- length (warnings ?r) = _ =>
    destruct (diagnostics_follow_matches (b_ three_events) r) as (_ & H & _);
      [vm_compute; reflexivity | exact H]
  end.
Defined.

(** ** X6: codes, labels and nodes *)

(** What the decoder keeps is a part of what it is given. *)
Lemma decode_ignore_keeps (P : byte -> Prop) : forall n s,
  (length s <= n)%nat -> Forall P s -> Forall P (Utf8.decode_ignore s).
Proof.
  induction n as [|n IH]; intros s Hn Hs.
  - destruct s; [constructor | simpl in Hn; lia].
  - destruct s as [|c s1]; [constructor|].
    apply Forall_cons in Hs as [Hc H1]. simpl in Hn.
    assert (forall t, (length t <= length s1)%nat -> Forall P t ->
                      Forall P (Utf8.decode_ignore t)) as IH'
      by (intros t Ht; apply IH; lia).
    assert (Forall P (Utf8.decode_ignore s1)) as D1 by (by apply IH').
    cbn [Utf8.decode_ignore].
    destruct s1 as [|c2 s2];
      [repeat case_match; by repeat constructor|].
    apply Forall_cons in H1 as [Hc2 H2].
    assert (Forall P (Utf8.decode_ignore s2)) as D2 by (apply IH'; [simpl; lia | done]).
    destruct s2 as [|c3 s3];
      [repeat case_match; by repeat constructor|].
    apply Forall_cons in H2 as [Hc3 H3].
    assert (Forall P (Utf8.decode_ignore s3)) as D3 by (apply IH'; [simpl; lia | done]).
    destruct s3 as [|c4 s4];
      [repeat case_match; by repeat constructor|].
    apply Forall_cons in H3 as [Hc4 H4].
    assert (Forall P (Utf8.decode_ignore s4)) as D4 by (apply IH'; [simpl; lia | done]).
    repeat case_match; by repeat constructor.
Qed.

Lemma decode_keeps (P : byte -> Prop) s :
  Forall P s -> Forall P (list_byte_of_string (Utf8.decode s)).
Proof.
  intros H. unfold Utf8.decode. rewrite list_byte_of_string_of_list_byte.
  by eapply decode_ignore_keeps.
Qed.

Lemma is_word_ascii x : is_word x = true -> (ord x <? 128)%N = true.
Proof.
  unfold is_word, is_upper, is_lower, is_digit, between. intros H.
  apply N.ltb_lt.
  repeat (apply orb_true_iff in H as [H|H]);
    try (apply andb_true_iff in H as [_ H]; apply N.leb_le in H; lia).
  apply N.eqb_eq in H. lia.
Qed.

Lemma RE_WARN_code s m :
  match_of RE_WARN s m ->
  exists c l, group m 3 = Some c /\ group m 4 = Some l /\
    (Forall (fun x => is_word x = true) c /\ c <> []) /\ token l.
Proof.
  destruct m as [gm rm]. intros (pre & w & _ & M). cbn [groups] in M.
  apply RE_WARN_shape in M. destruct M.
  unfold group. cbn [groups]. do 2 eexists.
  split; [reflexivity|]. split; [reflexivity|].
  split; [split; assumption | assumption].
Qed.

(** X6: in a returned result the code of a diagnostic row is not empty and
    is made of ASCII letters, digits and underscores only; the label of a
    diagnostic row and the node of a convergence row hold none of the six
    bytes that [\s] matches in a bytes pattern (space, tab, line feed,
    vertical tab, form feed, carriage return).  Other white space of [str],
    such as U+001C or U+00A0, can stay in a label. *)
Theorem codes_are_words_labels_have_no_blank (s : bytes) (r : result) :
  extract_zzd_data s = Ok r ->
  Forall (fun w =>
            Warn.code (Warn.data w) <> EmptyString /\
            Forall (fun x => is_word x = true)
                   (list_byte_of_string (Warn.code (Warn.data w))) /\
            Forall (fun x => is_space x = false)
                   (list_byte_of_string (Warn.label (Warn.data w))))
         (warnings r) /\
  Forall (fun row => Forall (fun x => is_space x = false)
                            (list_byte_of_string (Conv.node row)))
         (dq r ++ dh r).
Proof.
  intros H.
  apply extract_with_inv in H as (t0 & t1 & dq_data & dh_data & st & _ & _ & Ec & Ew & ->).
  apply conv_loop_rows in Ec as (rq & rh & -> & -> & Hq & Hh).
  apply warn_loop_rows in Ew as [(rows & Hd & Hrows) _]. simpl in Hd.
  cbn [warnings dq dh app]. rewrite Hd. split.
  - apply Forall_forall. intros w Hw.
    assert (Warn.data w ∈ rows) as Hin.
    { rewrite <- (with_notes_data WARNING_DESCRIPTIONS rows).
      apply list_elem_of_fmap. eauto. }
    clear Hw Hd. pose proof (finditer_all RE_WARN s) as HM.
    induction Hrows as [|m e ms rows He _ IH]; [by apply elem_of_nil in Hin|].
    apply Forall_cons in HM as [Hm HM].
    apply elem_of_cons in Hin as [-> | Hin]; [|auto].
    destruct He as (_ & _ & E3 & E4).
    apply RE_WARN_code in Hm as (c & l & G3 & G4 & (Hc & Hne) & (Hl & _)).
    rewrite G3 in E3. rewrite G4 in E4. injection E3 as E3. injection E4 as E4.
    rewrite <- E3, <- E4. clear E3 E4.
    assert (Utf8.decode c = string_of_list_byte c) as Ec.
    { unfold Utf8.decode. rewrite decode_ignore_ascii; [reflexivity|].
      eapply Forall_impl; [exact Hc|]. apply is_word_ascii. }
    split; [|split].
    + rewrite Ec. destruct c; [done | discriminate].
    + rewrite Ec, list_byte_of_string_of_list_byte. exact Hc.
    + by apply decode_keeps.
  - apply Forall_app. pose proof (finditer_all RE_CONV s) as HM. split.
    + clear Hh. induction Hq as [|m row ms rows' (_ & _ & E3) _ IH]; [constructor|].
      apply Forall_cons in HM as [Hm HM]. constructor; [|auto].
      apply RE_CONV_groups in Hm as (? & ? & n3 & ? & ? & (_ & _ & G3 & _) & _ & _ & (Hn & _) & _).
      rewrite G3 in E3. injection E3 as <-. by apply decode_keeps.
    + clear Hq. induction Hh as [|m row ms rows' (_ & _ & E5) _ IH]; [constructor|].
      apply Forall_cons in HM as [Hm HM]. constructor; [|auto].
      apply RE_CONV_groups in Hm as (? & ? & ? & ? & n5 & (_ & _ & _ & _ & G5) & _ & _ & _ & _ & (Hn & _)).
      rewrite G5 in E5. injection E5 as <-. by apply decode_keeps.
Qed.

Lemma codes_are_words_labels_have_no_blank_witness :
  exists r, extract_zzd_data (b_ three_events) = Ok r /\
    map (fun w => Warn.code (Warn.data w)) (warnings r) = ["W2013"; "E9999"; "N3002"]%string /\
    Forall (fun w =>
            Warn.code (Warn.data w) <> EmptyString /\
            Forall (fun x => is_word x = true)
                   (list_byte_of_string (Warn.code (Warn.data w))) /\
            Forall (fun x => is_space x = false)
                   (list_byte_of_string (Warn.label (Warn.data w))))
         (warnings r).
Proof.
  eexists. split; [vm_compute; reflexivity|]. split; [vm_compute; reflexivity|].
  match goal with |- Forall _ (warnings ?r) =>
    destruct (codes_are_words_labels_have_no_blank (b_ three_events) r) as (H & _);
      [vm_compute; reflexivity | exact H]
  end.
Defined.

(** Bytes other than the six that [\s] matches stay in a label, white space
    of [str] or not. *)
Lemma label_keeps_other_white_space :
  exists r, extract_zzd_data odd_label = Ok r /\
    map (fun w => list_byte_of_string (Warn.label (Warn.data w))) (warnings r) =
      [["A"; x1c; xc2; xa0; "B"]%byte].
Proof. eexists. split; [vm_compute; reflexivity|]. vm_compute. reflexivity. Qed.

(** ** X7: markers that are both found *)

Lemma ltb_not_leb x y : Float64.ltb x y = true -> Float64.leb y x = false.
Proof.
  unfold Float64.ltb, Float64.leb, SFltb, SFleb.
  destruct x as [sx|sx| |sx mx ex], y as [sy|sy| |sy my ey]; simpl; try done;
    try (destruct sx); try (destruct sy); simpl; try done;
    compare_cases; simpl; try done; lia.
Qed.

(** X7: when both markers give a time other than [0.0], no time of a row
    has a part in the bounds: the start is the start marker, and the end is
    the end marker when the start is below it, else [start + 1.0] (an end
    marker at or below the start is given up). *)
Theorem nonzero_markers_are_kept (s : bytes) (r : result) (t0 t1 : float) :
  extract_zzd_data s = Ok r ->
  marker_time (start_match s) = Ok t0 ->
  marker_time (end_match s) = Ok t1 ->
  Float64.eqb t0 zero = false -> Float64.eqb t1 zero = false ->
  start r = t0 /\
  end_ r = (if Float64.geb t0 t1 then Float64.add t0 one else t1) /\
  (Float64.ltb t0 t1 = true -> end_ r = t1).
Proof.
  intros H E0 E1 Z0 Z1.
  apply extract_with_inv in H as (t0' & t1' & dq_data & dh_data & st & E0' & E1' & _ & _ & ->).
  assert (t0' = t0) as -> by congruence. assert (t1' = t1) as -> by congruence.
  cbn [start end_]. unfold infer_times. rewrite Z0, Z1. cbn [orb fst snd].
  unfold force_duration. rewrite Z0.
  split; [reflexivity|]. split; [reflexivity|].
  intros L. pose proof (ltb_not_leb _ _ L) as L'.
  unfold Float64.geb. unfold Float64.leb in L'. by rewrite L'.
Qed.

Lemma nonzero_markers_are_kept_witness :
  exists r, extract_zzd_data (b_ marked_log) = Ok r /\
    Ok (start r) = PyFloat.of_bytes (b_ "2.5") /\
    Ok (end_ r) = PyFloat.of_bytes (b_ "40").
Proof.
  eexists. split; [vm_compute; reflexivity|].
  match goal with |- Ok (start ?r) = _ /\ _ =>
    edestruct (nonzero_markers_are_kept (b_ marked_log) r) as (Hs & _ & He);
      [ vm_compute; reflexivity
      | vm_compute; reflexivity
      | vm_compute; reflexivity
      | vm_compute; reflexivity
      | vm_compute; reflexivity
      | rewrite Hs, He by (vm_compute; reflexivity) ]
  end.
  vm_compute. split; reflexivity.
Defined.

(** ** X8: one instant *)

Lemma py_min_all_equal x xs : Forall (fun y => y = x) xs -> py_min x xs = x.
Proof.
  unfold py_min. induction 1 as [|y xs -> _ IH]; simpl; [reflexivity|].
  by destruct (Float64.ltb x x).
Qed.

Lemma py_max_all_equal x xs : Forall (fun y => y = x) xs -> py_max x xs = x.
Proof.
  unfold py_max. induction 1 as [|y xs -> _ IH]; simpl; [reflexivity|].
  by destruct (Float64.gtb x x).
Qed.

Lemma result_timestamps_nonneg s r :
  extract_zzd_data s = Ok r ->
  Forall nonneg (all_timestamps (dq r) (map Warn.data (warnings r))).
Proof.
  intros H.
  apply extract_with_inv in H as (t0 & t1 & dq_data & dh_data & st & _ & _ & Ec & Ew & ->).
  apply conv_loop_rows in Ec as (rq & rh & -> & -> & Hq & Hh).
  apply warn_loop_rows in Ew as [(rows & Hd & Hrows) _]. simpl in Hd.
  cbn [dq warnings app]. rewrite with_notes_data, Hd.
  apply all_timestamps_nonneg.
  - by eapply dq_rows_nonneg; [apply finditer_all|].
  - by eapply warn_rows_nonneg; [apply finditer_all|].
Qed.

(** X8: when neither marker gives a time other than [0.0] and all the times
    of [all_timestamps] are one time [x] (a log with a single event, say),
    the bounds are [x] and [x + 1.0], or [0.0] and [1.0] when [x] is
    [0.0]. *)
Theorem single_instant_bounds (s : bytes) (r : result) (x : float) (xs : list float) :
  extract_zzd_data s = Ok r ->
  marker_time (start_match s) = Ok zero ->
  marker_time (end_match s) = Ok zero ->
  all_timestamps (dq r) (map Warn.data (warnings r)) = x :: xs ->
  Forall (fun y => y = x) xs ->
  start r = x /\
  end_ r = (if Float64.eqb x zero then one else Float64.add x one).
Proof.
  intros H E0 E1 Hts Hall.
  assert (is_nan x = false) as Hx.
  { pose proof (result_timestamps_nonneg s r H) as Hn. rewrite Hts in Hn.
    apply Forall_cons in Hn as [Hn _]. by apply nonneg_not_nan. }
  apply extract_with_inv in H as (t0 & t1 & dq_data & dh_data & st & E0' & E1' & _ & _ & ->).
  assert (t0 = zero) as -> by congruence. assert (t1 = zero) as -> by congruence.
  cbn [dq warnings start end_] in *. rewrite with_notes_data in Hts.
  unfold infer_times. rewrite Hts.
  change (Float64.eqb zero zero) with true. cbn [orb fst snd].
  rewrite py_min_all_equal, py_max_all_equal by assumption.
  split; [reflexivity|].
  unfold force_duration, Float64.geb.
  pose proof (leb_refl x Hx) as L. unfold Float64.leb in L. by rewrite L.
Qed.

Lemma single_instant_bounds_witness :
  exists r, extract_zzd_data (b_ (warn_lines "693.25" "warning" "W2013" "X")) = Ok r /\
    Ok (start r) = PyFloat.of_bytes (b_ "693.25") /\
    Ok (end_ r) = PyFloat.of_bytes (b_ "694.25").
Proof.
  eexists. split; [vm_compute; reflexivity|].
  match goal with |- Ok (start ?r) = _ /\ _ =>
    edestruct (single_instant_bounds (b_ (warn_lines "693.25" "warning" "W2013" "X")) r)
      as (Hs & He);
      [ vm_compute; reflexivity
      | vm_compute; reflexivity
      | vm_compute; reflexivity
      | vm_compute; reflexivity
      | repeat constructor
      | rewrite Hs, He ]
  end.
  vm_compute. split; reflexivity.
Defined.

(** ** X9: the crash marker *)

(** X9: the crash marker is looked for in the tail of the buffer only, byte
    for byte and in this case: for a buffer of at most 2000 bytes the phrase
    "stopped in error" counts wherever it stands; for a longer buffer it
    counts only when it lies wholly inside the last 2000 bytes, so a phrase
    that ends before them, or is cut by their start, is not seen and
    [fail_t] and [fail_c] are [None], whatever ERROR rows there are. *)
Theorem crash_marker_is_in_the_tail (s : bytes) (r : result) :
  extract_zzd_data s = Ok r ->
  ((length s <= 2000)%nat ->
   (is_fatal s = true <-> exists a b, s = a ++ b_ "stopped in error" ++ b)) /\
  (forall pre w, s = pre ++ w -> length w = 2000%nat ->
     (is_fatal s = true <-> exists a b, w = a ++ b_ "stopped in error" ++ b)) /\
  (is_fatal s = false -> fail_t r = None /\ fail_c r = None).
Proof.
  intros H. split; [|split].
  - intros L. unfold is_fatal, last_bytes.
    replace (length s - 2000)%nat with 0%nat by lia. by rewrite drop_0, contains_spec.
  - intros pre w -> L. unfold is_fatal, last_bytes. rewrite length_app, L.
    replace (length pre + 2000 - 2000)%nat with (length pre) by lia.
    by rewrite drop_app_length, contains_spec.
  - intros Hfalse.
    apply extract_with_inv in H as (t0 & t1 & dq_data & dh_data & st & _ & _ & _ & _ & ->).
    cbn [fail_t fail_c]. by rewrite Hfalse.
Qed.

(** A buffer of 130 bytes that ends with the phrase, and one with 2000
    blanks behind the phrase. *)
Lemma crash_marker_is_in_the_tail_witness :
  (exists r, extract_zzd_data (b_ (crashed two_errors)) = Ok r /\
     length (b_ (crashed two_errors)) = 129%nat /\
     (exists a b, b_ (crashed two_errors) = a ++ b_ "stopped in error" ++ b) /\
     is_fatal (b_ (crashed two_errors)) = true /\
     is_Some (fail_t r)) /\
  (exists r, extract_zzd_data marker_too_early = Ok r /\
     is_fatal marker_too_early = false /\
     (forall a b, repeat " "%byte 2000 <> a ++ b_ "stopped in error" ++ b) /\
     fail_t r = None /\ fail_c r = None).
Proof.
  split.
  - eexists. split; [vm_compute; reflexivity|].
    split; [vm_compute; reflexivity|].
    match goal with |- _ /\ _ /\ is_Some (fail_t ?r) =>
      assert (E : extract_zzd_data (b_ (crashed two_errors)) = Ok r)
        by (vm_compute; reflexivity);
      destruct (crash_marker_is_in_the_tail _ r E) as (Hs & _ & _)
    end.
    split; [apply Hs; [vm_compute; lia | vm_compute; reflexivity]|].
    split; [vm_compute; reflexivity | vm_compute; eauto].
  - eexists. split; [vm_compute; reflexivity|].
    match goal with |- _ /\ _ /\ fail_t ?r = _ /\ _ =>
      assert (E : extract_zzd_data marker_too_early = Ok r)
        by (vm_compute; reflexivity);
      destruct (crash_marker_is_in_the_tail _ r E) as (_ & Hl & Hno)
    end.
    assert (is_fatal marker_too_early = false) as Hf by (vm_compute; reflexivity).
    split; [exact Hf|]. split; [|by apply Hno].
    intros a b Hab.
    destruct (Hl (b_ (two_errors ++ " Run stopped in error")) (repeat " "%byte 2000)
                eq_refl eq_refl) as [_ Hback].
    rewrite Hback in Hf; [discriminate | eauto].
Defined.

(** ** X10: the table has no part in the extraction *)

(** X10: the dict of descriptions is read for the notes only: with two
    dicts a call raises the same exception or returns results that differ
    in nothing but the notes, each note being taken from its own dict. *)
Theorem descriptions_only_set_notes (d d' : gmap string string) (s : bytes) :
  match extract_with d s, extract_with d' s with
  | Ok r, Ok r' =>
      dq r = dq r' /\ dh r = dh r' /\
      map Warn.data (warnings r) = map Warn.data (warnings r') /\
      start r = start r' /\ end_ r = end_ r' /\
      fail_t r = fail_t r' /\ fail_c r = fail_c r' /\
      map Warn.note (warnings r) =
        map (fun e => default "Unknown Warning"%string (d !! Warn.code e))
            (map Warn.data (warnings r))
  | Raise e, Raise e' => e = e'
  | _, _ => False
  end.
Proof.
  unfold extract_with.
  destruct (marker_time (start_match s)) as [t0|e0]; cbn [bind]; [|reflexivity].
  destruct (marker_time (end_match s)) as [t1|e1]; cbn [bind]; [|reflexivity].
  destruct (conv_loop _ [] []) as [[dq_data dh_data]|ec]; cbn [bind]; [|reflexivity].
  destruct (warn_loop _ warn_init) as [st|ew]; cbn [bind]; [|reflexivity].
  destruct (infer_times _ _ _ _) as [a b]. cbn [dq dh warnings start end_ fail_t fail_c].
  rewrite !with_notes_data. repeat split; try reflexivity.
  generalize (warn_data st). intros rows. unfold with_notes, fillna, series_map.
  rewrite !map_map. induction rows as [|e rows IH]; cbn [map zip_with];
    [reflexivity | by rewrite IH].
Qed.

(** ** X11: the shape of a diagnostic unit *)

(** X11: every match of [RE_WARN] is a unit of the shape [warn_unit]: "Model
    time", blanks, the time token, then at least one line break (the
    wildcards before and behind it also run over line breaks), then the three
    stars, the severity word, the code, three stars, "at label:" and the
    label. *)
Theorem warn_match_has_a_line_break (s : bytes) (m : Match) :
  m ∈ finditer RE_WARN s ->
  exists pre w head t gap tail,
    s = pre ++ w ++ rest m /\
    warn_unit (fl RE_WARN) w (groups m) /\
    w = head ++ t ++ gap ++ tail /\
    starts_with_nocase (b_ "Model time") head = true /\
    group m 1 = Some t /\ number_token t /\
    (1 <= newlines gap)%nat /\
    starts_with_nocase (b_ "***") tail = true.
Proof.
  intros Hin. apply finditer_sound in Hin as (pre & w & Hs & M).
  apply RE_WARN_shape in M. exists pre, w.
  destruct m as [gm rm]. cbn [groups rest] in *.
  destruct M as [head sp1 t a1 a2 st1 sp2 sev sp3 c sp4 st2 sp5 atl sp6 l Hh Hsp Ht Hst].
  exists (head ++ sp1), t, (a1 ++ [newline] ++ a2),
    (st1 ++ sp2 ++ sev ++ sp3 ++ c ++ sp4 ++ st2 ++ sp5 ++ atl ++ sp6 ++ l).
  split; [assumption|]. split; [by constructor|].
  split; [by rewrite <- !app_assoc|].
  split; [by apply lit_word_starts|].
  split; [reflexivity|]. split; [assumption|].
  split; [|by apply lit_word_starts].
  rewrite !newlines_app. simpl. lia.
Qed.

Lemma warn_match_has_a_line_break_witness :
  exists m pre w head t gap tail,
    finditer RE_WARN (b_ (warn_lines "693.25" "warning" "W2013" "X")) = [m] /\
    b_ (warn_lines "693.25" "warning" "W2013" "X") = pre ++ w ++ rest m /\
    warn_unit (fl RE_WARN) w (groups m) /\
    w = head ++ t ++ gap ++ tail /\
    starts_with_nocase (b_ "Model time") head = true /\
    group m 1 = Some t /\ number_token t /\
    (1 <= newlines gap)%nat /\
    starts_with_nocase (b_ "***") tail = true.
Proof.
  eexists.
  match goal with |- context [finditer ?p ?s = [?m]] =>
    assert (E : finditer p s = [m]) by (vm_compute; reflexivity);
    destruct (warn_match_has_a_line_break s m) as (pre & w & head & t & gap & tail & H);
      [rewrite E; apply list_elem_of_here|]
  end.
  exists pre, w, head, t, gap, tail. split; [exact E | exact H].
Defined.

(** ** X12: a marker and its number *)

Lemma lit_word_starts_nocase fl s w rest :
  IGNORECASE fl = true -> lit_word fl s w ->
  starts_with_nocase (b_ s) (w ++ rest) = true.
Proof.
  unfold lit_word. generalize (b_ s). intros l Hi H.
  induction H as [|x b w l Hx _ IH]; simpl; [by destruct rest|].
  simpl in Hx. rewrite Hi in Hx. by rewrite eqb_nocase_sym, Hx, IH.
Qed.

Lemma newlines_none fl w :
  DOTALL fl = false -> Forall (fun x => accepts fl Any x = true) w -> newlines w = 0%nat.
Proof.
  intros Hd H. induction H as [|x w Hx _ IH]; simpl; [reflexivity|].
  simpl in Hx. rewrite Hd in Hx. simpl in Hx. apply negb_true_iff in Hx.
  by rewrite Hx, IH.
Qed.

Lemma marker_shape p (lit_text : string) s m :
  re p = seq [lit lit_text; lazy_star Any; Group 1 number] ->
  IGNORECASE (fl p) = true -> DOTALL (fl p) = false ->
  search p s = Some m ->
  exists pre mark gap t,
    s = pre ++ mark ++ gap ++ t ++ rest m /\
    starts_with_nocase (b_ lit_text) mark = true /\ length mark = length (b_ lit_text) /\
    newlines gap = 0%nat /\
    group m 1 = Some t /\ number_token t.
Proof.
  intros Hre Hi Hd H. apply search_sound in H as (pre & w & -> & M).
  destruct m as [gm rm]. cbn [groups rest] in *. rewrite Hre in M.
  split_seq M. unfold lazy_star in *. invert_items.
  rewrite app_nil_r, <- !app_assoc. exists pre. do 3 eexists.
  split; [reflexivity|].
  split; [rewrite <- (app_nil_r w0); by eapply lit_word_starts_nocase|].
  split; [by eapply Forall2_length|].
  split; [eapply newlines_none; [exact Hd|]; by destruct M1|].
  split; [reflexivity | assumption].
Qed.

(** X12: a marker counts only with a number behind it on its own line: the
    match of the start (end) marker is the phrase "start time" ("end time")
    in any case, then bytes without a line break, then the time token, all
    inside the window of the marker. *)
Theorem marker_and_number_share_a_line (s : bytes) (m : Match) :
  start_match s = Some m \/ end_match s = Some m ->
  exists window phrase pre mark gap t,
    (window = first_bytes 5000 s /\ phrase = "start time"%string /\ start_match s = Some m \/
     window = last_bytes 5000 s /\ phrase = "end time"%string /\ end_match s = Some m) /\
    window = pre ++ mark ++ gap ++ t ++ rest m /\
    starts_with_nocase (b_ phrase) mark = true /\ length mark = length (b_ phrase) /\
    newlines gap = 0%nat /\
    group m 1 = Some t /\ number_token t.
Proof.
  intros [H | H].
  - destruct (marker_shape RE_START "start time" _ m eq_refl eq_refl eq_refl H)
      as (pre & mark & gap & t & Hw).
    exists (first_bytes 5000 s), "start time"%string, pre, mark, gap, t. auto.
  - destruct (marker_shape RE_END "end time" _ m eq_refl eq_refl eq_refl H)
      as (pre & mark & gap & t & Hw).
    exists (last_bytes 5000 s), "end time"%string, pre, mark, gap, t. auto.
Qed.

Lemma marker_and_number_share_a_line_witness :
  exists m window phrase pre mark gap t,
    start_match (b_ marked_log) = Some m /\
    (window = first_bytes 5000 (b_ marked_log) /\ phrase = "start time"%string /\
       start_match (b_ marked_log) = Some m \/
     window = last_bytes 5000 (b_ marked_log) /\ phrase = "end time"%string /\
       end_match (b_ marked_log) = Some m) /\
    window = pre ++ mark ++ gap ++ t ++ rest m /\
    starts_with_nocase (b_ phrase) mark = true /\ length mark = length (b_ phrase) /\
    newlines gap = 0%nat /\
    group m 1 = Some t /\ number_token t.
Proof.
  eexists.
  match goal with |- context [start_match ?s = Some ?m] =>
    assert (E : start_match s = Some m) by (vm_compute; reflexivity);
    destruct (marker_and_number_share_a_line s m (or_introl E))
      as (window & phrase & pre & mark & gap & t & H)
  end.
  exists window, phrase, pre, mark, gap, t. split; [exact E | exact H].
Defined.

(** ** The dashboard and a log without convergence block *)

Lemma dq_dh_together s r :
  extract_zzd_data s = Ok r ->
  (dq r = [] <-> finditer RE_CONV s = []) /\ (dh r = [] <-> finditer RE_CONV s = []).
Proof.
  intros H.
  apply extract_with_inv in H as (t0 & t1 & dq_data & dh_data & st & _ & _ & Ec & _ & ->).
  apply conv_loop_rows in Ec as (rq & rh & -> & -> & Hq & Hh). cbn [dq dh app].
  apply Forall2_length in Hq, Hh.
  split; split; intros E; apply nil_length_inv; rewrite E in *; simpl in *; lia.
Qed.

Lemma read_values_spec s r :
  extract_zzd_data s = Ok r ->
  read_values r =
    match dq r with
    | [] => KeyError
    | _ => Drawn (map Conv.value (dq r), map Conv.value (dh r))
    end.
Proof.
  intros H. destruct (dq_dh_together s r H) as [Hq Hh]. unfold read_values, value_column.
  destruct (dq r) as [|q rq] eqn:Eq; [reflexivity|].
  destruct (dh r) as [|h rh] eqn:Eh; [|reflexivity].
  assert (q :: rq = []) as [=]. apply Hq, Hh. reflexivity.
Qed.

(** X18: a log without a convergence block cannot be shown: the first
    statement of [update_dashboard] that reads the result asks for the
    column [value] of [data['dq']], which an empty DataFrame does not have,
    and raises KeyError before any figure is drawn.  This is the case
    exactly when [RE_CONV] has no match at any offset of the buffer. *)
Theorem dashboard_needs_a_convergence_block (s : bytes) (r : result) :
  extract_zzd_data s = Ok r ->
  (read_values r = KeyError <-> forall n, ~ occurs_at RE_CONV s n) /\
  (read_values r = KeyError ->
   fail_line r = KeyError /\ x_range r = KeyError /\
   heatmap_notes WARNING_DESCRIPTIONS r = KeyError /\
   bar_notes WARNING_DESCRIPTIONS r = KeyError).
Proof.
  intros H. split.
  - rewrite (read_values_spec s r H).
    rewrite <- (finditer_nil_iff RE_CONV s) by (apply no_empty_match; auto).
    destruct (dq_dh_together s r H) as [Hq _]. rewrite <- Hq.
    destruct (dq r); split; try done.
  - intros E. unfold fail_line, x_range, axis_buffer, heatmap_notes, bar_notes.
    by rewrite E.
Qed.

Lemma dashboard_needs_a_convergence_block_witness :
  exists r, extract_zzd_data (b_ three_events) = Ok r /\
    length (warnings r) = 3%nat /\
    (forall n, ~ occurs_at RE_CONV (b_ three_events) n) /\
    read_values r = KeyError /\ fail_line r = KeyError.
Proof.
  eexists. split; [vm_compute; reflexivity|]. split; [reflexivity|].
  match goal with |- _ /\ read_values ?r = _ /\ _ =>
    assert (E : extract_zzd_data (b_ three_events) = Ok r) by (vm_compute; reflexivity);
    destruct (dashboard_needs_a_convergence_block _ r E) as [Hk Hall];
    assert (K : read_values r = KeyError) by reflexivity
  end.
  split; [by apply Hk|]. split; [exact K | by apply Hall].
Defined.

(** ** The crash line of the dashboard *)

(** X13: for a result with a convergence row, the dashboard draws the crash
    line, labelled "FAIL: " and the code, at the time of the last ERROR row
    when the crash marker is in the last 2000 bytes, unless that time is
    zero: [if data['fail_t']:] takes [0.0] for false, so a run that stops in
    error at model time zero gets no line.  For a result without convergence
    row the callback has raised KeyError before. *)
Theorem crash_line_needs_a_nonzero_time (s : bytes) (r : result) :
  extract_zzd_data s = Ok r ->
  fail_line r =
    match dq r with
    | [] => KeyError
    | _ =>
        Drawn (if is_fatal s then
                 match last_error (map Warn.data (warnings r)) with
                 | Some e =>
                     if Float64.eqb (Warn.time e) zero then None
                     else Some (Some (Warn.time e), ("FAIL: " ++ Warn.code e)%string)
                 | None => None
                 end
               else None)
    end.
Proof.
  intros H. unfold fail_line. rewrite (read_values_spec s r H).
  destruct (dq r) as [|q rq]; [reflexivity|]. cbn [then_]. f_equal.
  apply extract_with_inv in H as (t0 & t1 & dq_data & dh_data & st & _ & _ & _ & Ew & ->).
  apply warn_loop_rows in Ew as [_ Hinv].
  destruct Hinv as [Ht Hc]; [by split|].
  cbn [warnings fail_t fail_c]. rewrite with_notes_data, Ht, Hc.
  destruct (is_fatal s); [|reflexivity].
  destruct (last_error (warn_data st)) as [e|]; [|reflexivity].
  simpl. by destruct (Float64.eqb (Warn.time e) zero).
Qed.

Lemma crash_line_needs_a_nonzero_time_witness :
  exists r, extract_zzd_data (b_ crash_at_zero) = Ok r /\
    length (dq r) = 1%nat /\
    fail_t r = Some zero /\ fail_c r = Some "E1000"%string /\
    fail_line r = Drawn None.
Proof.
  eexists. split; [vm_compute; reflexivity|]. split; [reflexivity|].
  split; [vm_compute; reflexivity|]. split; [vm_compute; reflexivity|].
  match goal with |- fail_line ?r = _ =>
    assert (E : extract_zzd_data (b_ crash_at_zero) = Ok r)
      by (vm_compute; reflexivity);
    rewrite (crash_line_needs_a_nonzero_time _ r E)
  end.
  vm_compute. reflexivity.
Defined.

(** ** The order of strings *)

Lemma str_lt_trans a : forall b c, str_lt a b -> str_lt b c -> str_lt a c.
Proof.
  unfold str_lt, String.ltb.
  induction a as [|x a IH]; intros [|y b] [|z c]; simpl; try done.
  unfold Ascii.compare.
  destruct (N.compare_spec (N_of_ascii x) (N_of_ascii y));
    destruct (N.compare_spec (N_of_ascii y) (N_of_ascii z));
    destruct (N.compare_spec (N_of_ascii x) (N_of_ascii z));
    try done; try lia.
  apply IH.
Qed.

Lemma str_lt_total a b : String.ltb a b = false -> a <> b -> str_lt b a.
Proof.
  unfold str_lt, String.ltb. rewrite (String.compare_antisym b a).
  destruct (String.compare a b) eqn:E; try done.
  apply String.compare_eq_iff in E. done.
Qed.

(** ** [unique] and [sorted] *)

Lemma filter_ne_elem c x l :
  c ∈ List.filter (fun y => negb (String.eqb y x)) l <-> c ∈ l /\ c <> x.
Proof.
  by rewrite !list_elem_of_In, List.filter_In, negb_true_iff, String.eqb_neq.
Qed.

Lemma unique_elem c col : c ∈ unique col <-> c ∈ col.
Proof.
  induction col as [|x col IH]; simpl; [done|].
  rewrite !elem_of_cons, filter_ne_elem, IH.
  destruct (decide (c = x)); tauto.
Qed.

Lemma unique_NoDup col : NoDup (unique col).
Proof.
  induction col as [|x col IH]; simpl; constructor.
  - rewrite filter_ne_elem. tauto.
  - by apply NoDup_ListNoDup, List.NoDup_filter, NoDup_ListNoDup.
Qed.

Lemma insort_elem x y l : y ∈ insort x l <-> y = x \/ y ∈ l.
Proof.
  induction l as [|z l IH]; simpl.
  - rewrite list_elem_of_singleton, elem_of_nil. tauto.
  - destruct (String.ltb z x); rewrite !elem_of_cons; [rewrite IH|]; tauto.
Qed.

Lemma sorted_elem y l : y ∈ sorted l <-> y ∈ l.
Proof.
  induction l as [|x l IH]; simpl; [done|].
  by rewrite insort_elem, elem_of_cons, IH.
Qed.

Lemma insort_sorted x l :
  x ∉ l -> StronglySorted str_lt l -> StronglySorted str_lt (insort x l).
Proof.
  induction l as [|y l IH]; intros Hx Hl; simpl.
  - by repeat constructor.
  - apply not_elem_of_cons in Hx as [Hxy Hx].
    apply StronglySorted_inv in Hl as [Hl Hy].
    destruct (String.ltb y x) eqn:E.
    + constructor; [by apply IH|].
      apply Forall_forall. intros z Hz. apply insort_elem in Hz as [-> | Hz]; [exact E|].
      by eapply Forall_forall in Hy.
    + assert (str_lt x y) as Hlt by (by apply str_lt_total).
      constructor; [by constructor|].
      constructor; [assumption|].
      eapply Forall_impl; [exact Hy|]. intros z Hz. by eapply str_lt_trans.
Qed.

Lemma sorted_strict l : NoDup l -> StronglySorted str_lt (sorted l).
Proof.
  induction 1 as [|x l Hx Hl IH]; simpl; [constructor|].
  apply insort_sorted; [by rewrite sorted_elem | assumption].
Qed.

Lemma str_lt_irrefl a : ~ str_lt a a.
Proof.
  unfold str_lt, String.ltb. induction a as [|x a IH]; simpl; [done|].
  unfold Ascii.compare. by rewrite N.compare_refl.
Qed.

Lemma strict_NoDup l : StronglySorted str_lt l -> NoDup l.
Proof.
  induction 1 as [|x l Hl IH Hx]; constructor; [|assumption].
  intros Hin. eapply Forall_forall in Hx; [|exact Hin]. by apply str_lt_irrefl in Hx.
Qed.

(** ** The axis of the heat map *)

Lemma unique_codes_sorted df_w : StronglySorted str_lt (unique_codes df_w).
Proof. apply sorted_strict, unique_NoDup. Qed.

Lemma unique_codes_elem df_w c :
  c ∈ unique_codes df_w <-> exists w, w ∈ df_w /\ Warn.code (Warn.data w) = c.
Proof.
  unfold unique_codes. rewrite sorted_elem, unique_elem, list_elem_of_fmap.
  split; intros (w & H1 & H2); eauto.
Qed.

(** X14: the codes on the axis of the heat map are in strictly ascending
    order of [str], so no code is listed twice, and they are exactly the
    codes of the diagnostic rows. *)
Theorem heat_map_codes_are_sorted_and_distinct (df_w : list Warn.row) :
  StronglySorted str_lt (unique_codes df_w) /\
  NoDup (unique_codes df_w) /\
  forall c, c ∈ unique_codes df_w <->
            exists w, w ∈ df_w /\ Warn.code (Warn.data w) = c.
Proof.
  split; [apply unique_codes_sorted|].
  split; [apply strict_NoDup, unique_codes_sorted|].
  apply unique_codes_elem.
Qed.

Lemma code_to_idx_fold l : forall k (d : gmap string nat) c i,
  NoDup l ->
  fold_left (fun d ic => <[ic.2 := ic.1]> d) (zip (List.seq k (length l)) l) d !! c = Some i <->
  (exists j, l !! j = Some c /\ i = (k + j)%nat) \/ ((c ∉ l) /\ d !! c = Some i).
Proof.
  induction l as [|x l IH]; intros k d c i Hnd; simpl.
  - split; [intros H; right; split; [apply not_elem_of_nil | exact H] |].
    intros [(j & Hj & _) | [_ H]]; [by rewrite lookup_nil in Hj | exact H].
  - apply NoDup_cons in Hnd as [Hx Hnd]. rewrite (IH (S k) _ c i Hnd).
    destruct (decide (c = x)) as [->|Hne].
    + rewrite lookup_insert_eq. split.
      * intros [(j & Hj & _) | [_ [= <-]]].
        -- apply list_elem_of_lookup_2 in Hj. done.
        -- left. exists 0%nat. split; [reflexivity | lia].
      * intros [([|j] & Hj & ->) | [Hn _]].
        -- right. split; [assumption|]. f_equal. lia.
        -- simpl in Hj. apply list_elem_of_lookup_2 in Hj. done.
        -- exfalso. apply Hn, list_elem_of_here.
    + rewrite lookup_insert_ne by done. split.
      * intros [(j & Hj & ->) | [Hn Hd]].
        -- left. exists (S j). split; [exact Hj | lia].
        -- right. split; [|exact Hd]. by apply not_elem_of_cons.
      * intros [([|j] & Hj & ->) | [Hn Hd]].
        -- simpl in Hj. congruence.
        -- left. exists j. split; [exact Hj | lia].
        -- right. apply not_elem_of_cons in Hn as [_ Hn]. by split.
Qed.

Lemma code_to_idx_lookup l c i :
  NoDup l -> (code_to_idx l !! c = Some i <-> l !! i = Some c).
Proof.
  intros Hnd. unfold code_to_idx, enumerate. rewrite code_to_idx_fold by done.
  rewrite lookup_empty. split.
  - by intros [(j & Hj & ->) | [_ ?]].
  - intros H. left. by exists i.
Qed.

(** X15: [code_to_idx] is the inverse of the list of codes, and every
    diagnostic row is counted in a line of the heat map: the line whose
    label is the code of the row. *)
Theorem every_row_is_counted_under_its_code (df_w : list Warn.row) :
  (forall c i, code_to_idx (unique_codes df_w) !! c = Some i <->
               unique_codes df_w !! i = Some c) /\
  Forall2 (fun w b => exists i, b = Some i /\
                        unique_codes df_w !! i = Some (Warn.code (Warn.data w)))
          df_w (code_bins df_w).
Proof.
  pose proof (strict_NoDup _ (unique_codes_sorted df_w)) as Hs.
  split; [intros c i; by apply code_to_idx_lookup|].
  unfold code_bins. apply Forall2_fmap_r, Forall_Forall2_diag, Forall_forall.
  intros w Hw.
  assert (Warn.code (Warn.data w) ∈ unique_codes df_w) as Hin by (apply unique_codes_elem; eauto).
  apply list_elem_of_lookup_1 in Hin as [i Hi]. exists i.
  split; [by apply code_to_idx_lookup | exact Hi].
Qed.

(** ** The notes the dashboard shows *)

(** X16: for a result with a convergence row and a diagnostic row, the note
    of the bar chart is, for every diagnostic row, the note of the row's
    line in the heat map.  For a code of the table it is the description,
    as in the [note] column of the result; for a code that is not in the
    table the dashboard shows "N/A" where the result says "Unknown
    Warning". *)
Theorem dashboard_notes_follow_the_table (s : bytes) (r : result) :
  extract_zzd_data s = Ok r ->
  dq r <> [] -> warnings r <> [] ->
  exists hn bn,
    heatmap_notes WARNING_DESCRIPTIONS r = Drawn (Some hn) /\
    bar_notes WARNING_DESCRIPTIONS r = Drawn (Some bn) /\
    length hn = length (unique_codes (warnings r)) /\
    Forall2 (fun w n =>
               (exists i,
                  code_to_idx (unique_codes (warnings r)) !! Warn.code (Warn.data w) = Some i /\
                  hn !! i = Some n) /\
               match WARNING_DESCRIPTIONS !! Warn.code (Warn.data w) with
               | Some d => n = d /\ Warn.note w = d
               | None => n = "N/A"%string /\ Warn.note w = "Unknown Warning"%string
               end)
            (warnings r) bn.
Proof.
  intros H Hq Hw.
  assert (Forall (fun w => Warn.note w =
                    default "Unknown Warning"%string
                      (WARNING_DESCRIPTIONS !! Warn.code (Warn.data w))) (warnings r)) as Hn.
  { pose proof H as H'.
    apply extract_with_inv in H' as (t0 & t1 & dq_data & dh_data & st & _ & _ & _ & _ & ->).
    apply with_notes_note. }
  pose proof (strict_NoDup _ (unique_codes_sorted (warnings r))) as Hs.
  unfold heatmap_notes, bar_notes. rewrite (read_values_spec s r H).
  destruct (dq r) as [|q rq]; [done|]. cbn [then_].
  destruct (warnings r) as [|w0 ws] eqn:Ew; [done|]. rewrite <- Ew in *.
  do 2 eexists. split; [reflexivity|]. split; [reflexivity|].
  split; [apply length_map|].
  apply Forall2_fmap_r, Forall_Forall2_diag.
  eapply Forall_impl;
    [apply Forall_and; split; [exact Hn | apply Forall_forall; intros w Hin; exact Hin]|].
  intros w [Hnote Hin]. cbn beta in *. split.
  - assert (Warn.code (Warn.data w) ∈ unique_codes (warnings r)) as Hc
      by (apply unique_codes_elem; eauto).
    apply list_elem_of_lookup_1 in Hc as [i Hi]. exists i.
    split; [by apply code_to_idx_lookup|].
    by rewrite list_lookup_fmap, Hi.
  - rewrite Hnote. by destruct (WARNING_DESCRIPTIONS !! Warn.code (Warn.data w)).
Qed.

Lemma dashboard_notes_follow_the_table_witness :
  exists r, extract_zzd_data (b_ events_and_block) = Ok r /\
    length (dq r) = 1%nat /\
    map Warn.note (warnings r) =
      ["Very small change in flow resulting from correction";
       "Unknown Warning";
       "Very small change in heads results in large change in flow"]%string /\
    bar_notes WARNING_DESCRIPTIONS r =
      Drawn (Some ["Very small change in flow resulting from correction";
                   "N/A";
                   "Very small change in heads results in large change in flow"]%string) /\
    exists hn bn,
      heatmap_notes WARNING_DESCRIPTIONS r = Drawn (Some hn) /\
      bar_notes WARNING_DESCRIPTIONS r = Drawn (Some bn) /\
      length hn = length (unique_codes (warnings r)) /\
      Forall2 (fun w n =>
                 (exists i,
                    code_to_idx (unique_codes (warnings r)) !! Warn.code (Warn.data w) = Some i /\
                    hn !! i = Some n) /\
                 match WARNING_DESCRIPTIONS !! Warn.code (Warn.data w) with
                 | Some d => n = d /\ Warn.note w = d
                 | None => n = "N/A"%string /\ Warn.note w = "Unknown Warning"%string
                 end)
              (warnings r) bn.
Proof.
  eexists. split; [vm_compute; reflexivity|]. split; [reflexivity|].
  split; [vm_compute; reflexivity|]. split; [vm_compute; reflexivity|].
  apply (dashboard_notes_follow_the_table (b_ events_and_block));
    [vm_compute; reflexivity | discriminate | discriminate].
Defined.

(** ** The range of the time axis *)

Lemma has_sign_not_nan sx x : has_sign sx x -> is_nan x = false.
Proof. by destruct x. Qed.

Lemma binary_normalize_not_nan m e sz :
  is_nan (binary_normalize prec emax m e sz) = false.
Proof.
  destruct m; simpl; [reflexivity| |]; eapply has_sign_not_nan, binary_round_sign.
Qed.

Lemma add_nonneg x y : nonneg x -> nonneg y -> nonneg (Float64.add x y).
Proof.
  destruct x as [sx|sx| |sx mx ex], y as [sy|sy| |sy my ey]; simpl; try done;
    intros -> ->; try done.
  unfold Float64.add. cbn [SFadd].
  destruct (shl_align mx ex _) as [a ?], (shl_align my ey _) as [b ?].
  simpl. apply nonneg_has_sign, binary_round_sign.
Qed.

Lemma mul_two_percent_nonneg x : nonneg x -> nonneg (SFmul prec emax x two_percent).
Proof.
  assert (exists m e, two_percent = S754_finite false m e) as (m & e & ->)
    by (do 2 eexists; vm_compute; reflexivity).
  destruct x as [sx|sx| |sx mx ex]; simpl; try done; intros ->; try done.
  apply nonneg_has_sign. by apply binary_round_aux_sign.
Qed.

Lemma gtb_zero_nonneg d : Float64.gtb d zero = true -> nonneg d.
Proof. destruct d as [s|[]| |[] m e]; by vm_compute. Qed.

Lemma sub_not_nan x y :
  nonneg x -> nonneg y -> (forall s, x <> S754_infinity s) ->
  is_nan (SFsub prec emax x y) = false.
Proof.
  destruct x as [sx|sx| |sx mx ex], y as [sy|sy| |sy my ey]; simpl; try done;
    intros -> -> Hx; try done.
  - by destruct (Hx false).
  - apply binary_normalize_not_nan.
Qed.

Lemma bounds_nonneg s r :
  extract_zzd_data s = Ok r -> nonneg (start r) /\ nonneg (end_ r).
Proof.
  intros H.
  apply extract_with_inv in H as (t0 & t1 & dq_data & dh_data & st & E0 & E1 & Ec & Ew & ->).
  destruct (marker_time_start s) as (x0 & E0' & H0).
  destruct (marker_time_end s) as (x1 & E1' & H1).
  assert (x0 = t0) as -> by congruence. assert (x1 = t1) as -> by congruence.
  apply conv_loop_rows in Ec as (rq & rh & -> & -> & Hq & Hh).
  apply warn_loop_rows in Ew as [(rows & Hd & Hrows) _]. simpl in Hd.
  cbn [start end_ app].
  destruct (infer_times_nonneg t0 t1 rq (warn_data st) H0 H1) as [Ha Hb].
  { rewrite Hd. apply all_timestamps_nonneg.
    - by eapply dq_rows_nonneg; [apply finditer_all|].
    - by eapply warn_rows_nonneg; [apply finditer_all|]. }
  split; [assumption | by apply force_duration_nonneg].
Qed.

(** X17: for a result with a convergence row, the padding of the time axis
    is a number that is not negative, and neither end of the range
    [[start - buffer, end + buffer]] is NaN, also when a bound is
    infinite. *)
Theorem axis_range_is_never_nan (s : bytes) (r : result) :
  extract_zzd_data s = Ok r ->
  dq r <> [] ->
  exists buffer lo hi,
    axis_buffer r = Drawn buffer /\ x_range r = Drawn (lo, hi) /\
    nonneg buffer /\ is_nan lo = false /\ nonneg hi.
Proof.
  intros H Hq. unfold x_range, axis_buffer. rewrite (read_values_spec s r H).
  destruct (dq r) as [|q rq]; [done|]. cbn [then_].
  apply bounds_nonneg in H as [Hs He].
  do 3 eexists. split; [reflexivity|]. split; [reflexivity|].
  set (buffer := if Float64.gtb _ zero then _ else _).
  assert (nonneg buffer) as Hb.
  { subst buffer. destruct (Float64.gtb _ zero) eqn:E; [|reflexivity].
    by apply mul_two_percent_nonneg, gtb_zero_nonneg. }
  split; [assumption|]. split; [|by apply add_nonneg].
  destruct (start r) as [ss|ss| |ss ms es] eqn:Es; try done.
  - apply sub_not_nan; [done | assumption | done].
  - simpl in Hs. subst ss. subst buffer.
    destruct (end_ r) as [se|se| |se me ee]; try done; simpl in He; subst; reflexivity.
  - apply sub_not_nan; [done | assumption | done].
Qed.

Lemma axis_range_is_never_nan_witness :
  exists r, extract_zzd_data (b_ events_and_block) = Ok r /\
    length (dq r) = 1%nat /\
    x_range r = Drawn (S754_finite false 6350075474592399 (-51),
                       S754_finite false 6856730432671580 (-49)) /\
    exists buffer lo hi,
      axis_buffer r = Drawn buffer /\ x_range r = Drawn (lo, hi) /\
      nonneg buffer /\ is_nan lo = false /\ nonneg hi.
Proof.
  eexists. split; [vm_compute; reflexivity|]. split; [reflexivity|].
  split; [vm_compute; reflexivity|].
  apply (axis_range_is_never_nan (b_ events_and_block));
    [vm_compute; reflexivity | discriminate].
Defined.

(** ** C9: a call leaves the objects it found as they were *)

Lemma lookup_at0 {A} (base : list A) a t : (base ++ a :: t) !! length base = Some a.
Proof. induction base; simpl; auto. Qed.

Lemma lookup_at1 {A} (base : list A) a b t :
  (base ++ a :: b :: t) !! S (length base) = Some b.
Proof. induction base; simpl; auto. Qed.

Lemma lookup_at2 {A} (base : list A) a b c t :
  (base ++ a :: b :: c :: t) !! S (S (length base)) = Some c.
Proof. induction base; simpl; auto. Qed.

Lemma insert_at0 {A} (base : list A) a t x :
  <[length base := x]> (base ++ a :: t) = base ++ x :: t.
Proof. induction base; simpl; [reflexivity | by f_equal]. Qed.

Lemma insert_at1 {A} (base : list A) a b t x :
  <[S (length base) := x]> (base ++ a :: b :: t) = base ++ a :: x :: t.
Proof. induction base; simpl; [reflexivity | by f_equal]. Qed.

Lemma insert_at2 {A} (base : list A) a b c t x :
  <[S (S (length base)) := x]> (base ++ a :: b :: c :: t) = base ++ a :: b :: x :: t.
Proof. induction base; simpl; [reflexivity | by f_equal]. Qed.

Ltac run_store :=
  unfold append_conv, append_warn, append_float, conv_rows, warn_rows, float_items,
    dict_at, Store.bind, Store.lift, Store.ret, Store.load, Store.store_at, Store.new;
  repeat (progress (cbn [Store.names Store.objects];
                    rewrite ?lookup_at0, ?lookup_at1, ?lookup_at2,
                      ?insert_at0, ?insert_at1, ?insert_at2)).

Lemma conv_loop_in_store_run ms : forall q h nm base w,
  exists q' h',
    conv_loop_in_store ms (length base) (S (length base))
      {| Store.names := nm;
         Store.objects := base ++ [Store.ConvList q; Store.ConvList h; w] |} =
    Some (match conv_loop ms q h with Ok _ => Ok tt | Raise e => Raise e end,
          {| Store.names := nm;
             Store.objects := base ++ [Store.ConvList q'; Store.ConvList h'; w] |}) /\
    forall qq hh, conv_loop ms q h = Ok (qq, hh) -> q' = qq /\ h' = hh.
Proof.
  induction ms as [|m ms IH]; intros q h nm base w; simpl.
  - exists q, h. split; [reflexivity|]. by intros ? ? [= -> ->].
  - destruct (PyFloat.of_group (group m 1)) as [t|e] eqn:E1;
      [|exists q, h; run_store; split; [reflexivity | discriminate]].
    destruct (PyFloat.of_group (group m 2)) as [v2|e] eqn:E2;
      [|exists q, h; run_store; split; [reflexivity | discriminate]].
    destruct (Utf8.decode_group (group m 3)) as [n3|e] eqn:E3;
      [|exists q, h; run_store; split; [reflexivity | discriminate]].
    destruct (PyFloat.of_group (group m 4)) as [v4|e] eqn:E4;
      [|eexists _, h; run_store; split; [reflexivity | discriminate]].
    destruct (Utf8.decode_group (group m 5)) as [n5|e] eqn:E5;
      [|eexists _, h; run_store; split; [reflexivity | discriminate]].
    simpl.
    destruct (IH (q ++ [{| Conv.time := t; Conv.value := v2; Conv.node := n3 |}])
                 (h ++ [{| Conv.time := t; Conv.value := v4; Conv.node := n5 |}])
                 nm base w) as (q' & h' & Hrun & Hok).
    exists q', h'. run_store. split; [exact Hrun | exact Hok].
Qed.

Lemma warn_loop_in_store_run ms : forall rows t c nm base a b,
  exists rows',
    warn_loop_in_store ms (S (S (length base))) t c
      {| Store.names := nm; Store.objects := base ++ [a; b; Store.WarnList rows] |} =
    Some (match warn_loop ms {| warn_data := rows; last_err_t := t; last_err_c := c |} with
          | Ok st => Ok (last_err_t st, last_err_c st)
          | Raise e => Raise e
          end,
          {| Store.names := nm; Store.objects := base ++ [a; b; Store.WarnList rows'] |}) /\
    forall st, warn_loop ms {| warn_data := rows; last_err_t := t; last_err_c := c |} = Ok st ->
               rows' = warn_data st.
Proof.
  induction ms as [|m ms IH]; intros rows t c nm base a b; simpl.
  - exists rows. split; [reflexivity|]. by intros ? [= <-].
  - destruct (PyFloat.of_group (group m 1)) as [t'|e] eqn:E1;
      [|exists rows; run_store; split; [reflexivity | discriminate]].
    destruct (Utf8.decode_group (group m 2)) as [g2|e] eqn:E2;
      [|exists rows; run_store; split; [reflexivity | discriminate]].
    destruct (Utf8.decode_group (group m 3)) as [ecode|e] eqn:E3;
      [|exists rows; run_store; split; [reflexivity | discriminate]].
    destruct (Utf8.decode_group (group m 4)) as [label|e] eqn:E4;
      [|exists rows; run_store; split; [reflexivity | discriminate]].
    simpl.
    destruct (IH (rows ++ [{| Warn.time := t'; Warn.type := Utf8.upper g2;
                              Warn.code := ecode; Warn.label := label |}])
                 (if String.eqb (Utf8.upper g2) "ERROR" then Some t' else t)
                 (if String.eqb (Utf8.upper g2) "ERROR" then Some ecode else c)
                 nm base a b) as (rows' & Hrun & Hok).
    exists rows'. run_store. split; [exact Hrun | exact Hok].
Qed.

Lemma collect_timestamps_run dq_data warn_data nm objs :
  collect_timestamps dq_data warn_data {| Store.names := nm; Store.objects := objs |} =
  Some (Ok (all_timestamps dq_data warn_data),
        {| Store.names := nm;
           Store.objects := objs ++ [Store.FloatList (all_timestamps dq_data warn_data)] |}).
Proof.
  unfold collect_timestamps, all_timestamps.
  destruct (head dq_data), (last dq_data), (head warn_data), (last warn_data);
    run_store; reflexivity.
Qed.

Lemma infer_times_in_store_run t0 t1 dq_data warn_data nm objs :
  exists new,
    infer_times_in_store t0 t1 dq_data warn_data
      {| Store.names := nm; Store.objects := objs |} =
    Some (Ok (infer_times t0 t1 dq_data warn_data),
          {| Store.names := nm; Store.objects := objs ++ new |}).
Proof.
  unfold infer_times_in_store, infer_times.
  destruct (_ || _).
  - exists [Store.FloatList (all_timestamps dq_data warn_data)].
    unfold Store.bind at 1. rewrite collect_timestamps_run.
    by destruct (all_timestamps dq_data warn_data).
  - exists []. by rewrite app_nil_r.
Qed.

Lemma notes_in_store_run rows nm objs a d :
  nm !! "WARNING_DESCRIPTIONS"%string = Some a -> objs !! a = Some (Store.Dict d) ->
  notes_in_store rows {| Store.names := nm; Store.objects := objs |} =
  Some (Ok (with_notes d rows), {| Store.names := nm; Store.objects := objs |}).
Proof.
  intros Ha Hd. destruct rows as [|e rows]; [reflexivity|].
  unfold notes_in_store, Store.global, dict_at, Store.bind, Store.load, Store.ret.
  cbn [Store.names Store.objects]. rewrite Ha.
  cbn [Store.names Store.objects]. by rewrite Hd.
Qed.

(** A call in a store gives the outcome of [extract_with] for the dict the
    global name is bound to, and leaves the names and the objects it found,
    with new objects behind them. *)
Lemma extract_in_store_run s σ a d :
  Store.names σ !! "WARNING_DESCRIPTIONS"%string = Some a ->
  Store.objects σ !! a = Some (Store.Dict d) ->
  exists new,
    extract_in_store s σ =
    Some (extract_with d s,
          {| Store.names := Store.names σ; Store.objects := Store.objects σ ++ new |}).
Proof.
  intros Ha Hd. destruct σ as [nm base]. cbn [Store.names Store.objects] in *.
  unfold extract_in_store, extract_with.
  destruct (marker_time (start_match s)) as [t0|e] eqn:E0;
    [|exists []; rewrite app_nil_r; reflexivity].
  destruct (marker_time (end_match s)) as [t1|e] eqn:E1;
    [|exists []; rewrite app_nil_r; reflexivity].
  cbn [bind].
  unfold Store.bind at 1. unfold Store.lift at 1.
  unfold Store.bind at 1. unfold Store.lift at 1.
  unfold Store.bind at 1. unfold Store.new at 1. cbn [Store.names Store.objects].
  unfold Store.bind at 1. unfold Store.new at 1. cbn [Store.names Store.objects].
  unfold Store.bind at 1. unfold Store.new at 1. cbn [Store.names Store.objects].
  rewrite !length_app. cbn [length]. rewrite ?Nat.add_1_r.
  rewrite <- !app_assoc. cbn [app].
  destruct (conv_loop_in_store_run (finditer RE_CONV s) [] [] nm base (Store.WarnList []))
    as (q' & h' & Hc & Hcok).
  unfold Store.bind at 1. rewrite Hc.
  destruct (conv_loop (finditer RE_CONV s) [] []) as [[dq_data dh_data]|e] eqn:Ec;
    [|by eexists].
  destruct (Hcok _ _ eq_refl) as [-> ->]. cbn [bind].
  destruct (warn_loop_in_store_run (finditer RE_WARN s) [] None None nm base
              (Store.ConvList dq_data) (Store.ConvList dh_data)) as (rows' & Hw & Hwok).
  change {| warn_data := []; last_err_t := None; last_err_c := None |} with warn_init in *.
  unfold Store.bind at 1. rewrite Hw.
  destruct (warn_loop (finditer RE_WARN s) warn_init) as [st|e] eqn:Ew; [|by eexists].
  rewrite (Hwok _ eq_refl). cbn [bind].
  run_store.
  destruct (infer_times_in_store_run t0 t1 dq_data (warn_data st) nm
              (base ++ [Store.ConvList dq_data; Store.ConvList dh_data;
                        Store.WarnList (warn_data st)])) as (new & Hi).
  rewrite Hi.
  rewrite (notes_in_store_run _ _ _ a d Ha);
    [|rewrite <- app_assoc; by apply lookup_app_l_Some].
  rewrite <- app_assoc.
  destruct (infer_times t0 t1 dq_data (warn_data st)) as [x y]. by eexists.
Qed.

(** C9: calls work in a store of objects that they share.  When the global
    name is bound to a dict, a call on [s], then any call, then a call on
    [s] again give the same outcome both times (the same result, or the same
    exception), the one of [extract_with] for that dict; and the calls leave
    every name and every object that was in the store as it was: the lists
    that a call appends to are its own new objects. *)
Theorem extract_is_deterministic
    (σ : Store.store) (a : nat) (d : gmap string string) (s s' : bytes) :
  Store.names σ !! "WARNING_DESCRIPTIONS"%string = Some a ->
  Store.objects σ !! a = Some (Store.Dict d) ->
  exists r1 σ1 r2 σ2 r3 σ3,
    extract_in_store s σ = Some (r1, σ1) /\
    extract_in_store s' σ1 = Some (r2, σ2) /\
    extract_in_store s σ2 = Some (r3, σ3) /\
    r1 = r3 /\ r1 = extract_with d s /\
    Store.names σ3 = Store.names σ /\
    forall b o, Store.objects σ !! b = Some o -> Store.objects σ3 !! b = Some o.
Proof.
  intros Ha Hd.
  destruct (extract_in_store_run s σ a d Ha Hd) as (n1 & H1).
  set (σ1 := {| Store.names := Store.names σ; Store.objects := Store.objects σ ++ n1 |}) in *.
  assert (Store.objects σ1 !! a = Some (Store.Dict d)) as Hd1
    by (by apply lookup_app_l_Some).
  destruct (extract_in_store_run s' σ1 a d Ha Hd1) as (n2 & H2).
  set (σ2 := {| Store.names := Store.names σ1; Store.objects := Store.objects σ1 ++ n2 |}) in *.
  assert (Store.objects σ2 !! a = Some (Store.Dict d)) as Hd2
    by (by apply lookup_app_l_Some).
  destruct (extract_in_store_run s σ2 a d Ha Hd2) as (n3 & H3).
  do 6 eexists. split; [exact H1|]. split; [exact H2|]. split; [exact H3|].
  split; [reflexivity|]. split; [reflexivity|]. split; [reflexivity|].
  intros b o Hb. cbn [Store.objects σ2 σ1].
  by do 3 apply lookup_app_l_Some.
Qed.

(** Three calls in the store of the module, in which the global name is
    bound to the dict at address 0. *)
Lemma extract_is_deterministic_witness :
  exists r1 σ1 r2 σ2 r3 σ3,
    extract_in_store (b_ three_events) module_store = Some (r1, σ1) /\
    extract_in_store (b_ two_errors) σ1 = Some (r2, σ2) /\
    extract_in_store (b_ three_events) σ2 = Some (r3, σ3) /\
    r1 = r3 /\ r1 = extract_zzd_data (b_ three_events) /\
    Store.names σ3 = Store.names module_store /\
    forall b o, Store.objects module_store !! b = Some o ->
                Store.objects σ3 !! b = Some o.
Proof.
  apply (extract_is_deterministic module_store 0 WARNING_DESCRIPTIONS
           (b_ three_events) (b_ two_errors)); vm_compute; reflexivity.
Defined.

(** A call does change the store: it leaves its lists behind. *)
Lemma call_leaves_new_objects :
  exists r σ1, extract_in_store (b_ two_errors) module_store = Some (r, σ1) /\
    length (Store.objects module_store) = 1%nat /\
    length (Store.objects σ1) = 5%nat.
Proof. do 2 eexists. split; [vm_compute; reflexivity|]. split; reflexivity. Qed.
